(** * Metrics engine of go-libp4dlog (package [metrics], file metrics/metrics.go)

    A shallow embedding of the aggregation and flush engine: the aggregate
    state [P4DMetrics], [publishEvent], [resetToZero], the historical boundary
    detector [historicalUpdateRequired], the renderer [getCumulativeMetrics]
    and the select loop of [ProcessEvents], followed by the properties proved
    about them.

    Conventions.
    - Go [string] is a byte sequence: Rocq [string].
    - [int64] is [Z] with the wrap-around of two's complement written out
      ([Int64.wrap]).
    - [float64] is the kernel's binary64 [float]; [+=] is [PrimFloat.add].
    - Go maps are [gmap]s; [m[k]] of an absent key reads the zero value.
    - The logger calls only write log lines and are left out. *)

From Stdlib Require Import ZArith Lia Btauto String Ascii List DecimalString.
From Stdlib Require Import Floats.PrimFloat Floats.SpecFloat Floats.FloatOps.
From stdpp Require Import base option gmap strings list.

Open Scope Z_scope.

(* ===================================================================== *)
(** ** Go runtime and library functions used by the package               *)
(* ===================================================================== *)

Module Int64.
Definition min : Z := - 2 ^ 63.
Definition max : Z := 2 ^ 63 - 1.
(** Two's complement wrap-around of an [int64] result. *)
Definition wrap (z : Z) : Z := (z + 2 ^ 63) mod 2 ^ 64 - 2 ^ 63.
Definition add (a b : Z) : Z := wrap (a + b).
Definition inRange (z : Z) : Prop := min <= z <= max.
End Int64.

Module Float64.
(** The conversion [float64(n)] of an [int64]: round to nearest even. *)
Definition ofInt (z : Z) : float := SF2Prim (binary_normalize prec emax z 0 false).
Definition zero : float := 0%float.
(** [float64(n) / 1000], milliseconds to seconds. *)
Definition perThousand (z : Z) : float := PrimFloat.div (ofInt z) 1000%float.
End Float64.

Module GoStrings.
Definition tab : ascii := ascii_of_nat 9.
Definition newline : ascii := ascii_of_nat 10.
Definition dquote : ascii := ascii_of_nat 34.
Definition str (c : ascii) : string := String c EmptyString.

Definition byte (c : ascii) : Z := Z.of_nat (nat_of_ascii c).

(** [s[i]], for an index the caller has checked against [len(s)]. *)
Definition at_ (s : string) (i : nat) : ascii :=
  match String.get i s with Some c => c | None => Ascii.zero end.

(** [len(s)]. *)
Definition len (s : string) : Z := Z.of_nat (String.length s).

(** [s[i:j]] for [0 <= i <= j <= len(s)]. *)
Definition slice (s : string) (i j : nat) : string := substring i (j - i) s.

(** [s[i:]] for [i <= len(s)]. *)
Definition sliceFrom (s : string) (i : nat) : string :=
  substring i (String.length s - i) s.

(** [strings.Index(s, sep)] for a non-empty [sep]: the byte offset of the
    first occurrence, or -1. *)
Fixpoint indexFrom (sep s : string) (i : Z) : Z :=
  if String.prefix sep s then i
  else match s with
       | EmptyString => -1
       | String _ s' => indexFrom sep s' (i + 1)
       end.
Definition Index (s sep : string) : Z := indexFrom sep s 0.

(** [strings.Compare(a, b)]: bytewise lexicographic order, as -1, 0, +1. *)
Definition Compare (a b : string) : Z :=
  match String.compare a b with Lt => -1 | Eq => 0 | Gt => 1 end.

(** [strings.Replace(s, old, new, -1)] and [strings.ReplaceAll] for a
    non-empty [old]: the occurrences are found left to right and do not
    overlap.  [skip] counts the bytes of a matched occurrence still to be
    dropped. *)
Fixpoint replaceFrom (old new s : string) (skip : nat) : string :=
  match s with
  | EmptyString => EmptyString
  | String c s' =>
      match skip with
      | S k => replaceFrom old new s' k
      | O =>
          if String.prefix old s
          then new +:+ replaceFrom old new s' (String.length old - 1)
          else String c (replaceFrom old new s' O)
      end
  end.
Definition ReplaceAll (s old new : string) : string := replaceFrom old new s O.

(** [strings.Join(vals, sep)]. *)
Fixpoint Join (vals : list string) (sep : string) : string :=
  match vals with
  | [] => EmptyString
  | [v] => v
  | v :: rest => v +:+ sep +:+ Join rest sep
  end.

Fixpoint concat (l : list string) : string :=
  match l with
  | [] => EmptyString
  | s :: rest => s +:+ concat rest
  end.
End GoStrings.

Module GoTime.
(** A [time.Time] in UTC with no sub-second part, as its Unix seconds; a
    [time.Duration] as its [int64] nanoseconds. *)
Definition Time := Z.
Definition Duration := Z.

Definition Second : Duration := 1000000000.
Definition Minute : Duration := 60 * Second.

(** The zero [Time{}]: January 1, year 1, 00:00:00 UTC. *)
Definition zeroTime : Time := -62135596800.

Definition Unix (t : Time) : Z := t.

Definition isLeap (year : Z) : bool :=
  (year mod 4 =? 0) && (negb (year mod 100 =? 0) || (year mod 400 =? 0)).

Definition daysIn (month year : Z) : Z :=
  if month =? 2 then (if isLeap year then 29 else 28)
  else if (month =? 4) || (month =? 6) || (month =? 9) || (month =? 11) then 30
  else 31.

(** Days from 1970-01-01 to the given civil date (proleptic Gregorian). *)
Definition daysFromCivil (y m d : Z) : Z :=
  let y' := if m <=? 2 then y - 1 else y in
  let era := y' / 400 in
  let yoe := y' - era * 400 in
  let mp := if m >? 2 then m - 3 else m + 9 in
  let doy := (153 * mp + 2) / 5 + d - 1 in
  let doe := yoe * 365 + yoe / 4 - yoe / 100 + doy in
  era * 146097 + doe - 719468.

(** [time.Date(y, m, d, hh, mm, ss, 0, time.UTC)] for fields in range. *)
Definition Date (y m d hh mm ss : Z) : Time :=
  daysFromCivil y m d * 86400 + hh * 3600 + mm * 60 + ss.

Definition digit (c : ascii) : option Z :=
  let b := GoStrings.byte c in
  if (48 <=? b) && (b <=? 57) then Some (b - 48) else None.

(** The decimal number written by the bytes [i, i+n) of [s]. *)
Fixpoint number (s : string) (i n : nat) (acc : Z) : option Z :=
  match n with
  | O => Some acc
  | S k =>
      match String.get i s with
      | Some c =>
          match digit c with
          | Some d => number s (S i) k (acc * 10 + d)
          | None => None
          end
      | None => None
      end
  end.

Definition literal (s : string) (i : nat) (c : ascii) : option unit :=
  match String.get i s with
  | Some c' => if Ascii.eqb c c' then Some tt else None
  | None => None
  end.

(** [time.Parse("2006/01/02 15:04:05", value)] on a 19-byte [value]: the
    fields are read at their fixed columns, the month, hour, minute and
    second are range-checked as they are read and the day of the month
    last.  [None] is any parse error. *)
Definition parseFields (value : string) : option Time :=
  if negb (Nat.eqb (String.length value) 19) then None else
  year ← number value 0 4 0;
  _ ← literal value 4 "/"%char;
  month ← number value 5 2 0;
  _ ← literal value 7 "/"%char;
  day ← number value 8 2 0;
  _ ← literal value 10 " "%char;
  hour ← number value 11 2 0;
  _ ← literal value 13 ":"%char;
  minute ← number value 14 2 0;
  _ ← literal value 16 ":"%char;
  sec ← number value 17 2 0;
  if (month <=? 0) || (12 <? month) then None
  else if 24 <=? hour then None
  else if 60 <=? minute then None
  else if 60 <=? sec then None
  else if (day <? 1) || (daysIn month year <? day) then None
  else Some (Date year month day hour minute sec).

(** [t, _ := time.Parse(p4timeformat, value)]: the error is dropped and an
    error leaves the zero [Time]. *)
Definition Parse (value : string) : Time :=
  match parseFields value with Some t => t | None => zeroTime end.

(** [t.Sub(u)]: the difference in nanoseconds, saturated to the range of
    [Duration]. *)
Definition Sub (t u : Time) : Duration :=
  let d := (t - u) * Second in
  if d <? Int64.min then Int64.min
  else if Int64.max <? d then Int64.max
  else d.
End GoTime.

Module GoFmt.
(** [fmt.Sprintf("%d", n)]. *)
Definition formatInt (z : Z) : string := NilZero.string_of_int (Z.to_int z).

Definition digitChar (d : Z) : ascii := ascii_of_nat (48 + Z.to_nat d).

(** The last [n] decimal digits of [z >= 0], written in front of [acc]. *)
Fixpoint lastDigits (n : nat) (z : Z) (acc : string) : string :=
  match n with
  | O => acc
  | S k => lastDigits k (z / 10) (String (digitChar (z mod 10)) acc)
  end.

(** The integer nearest to [n / d] for [n >= 0], [d > 0], ties to even. *)
Definition roundHalfEven (n d : Z) : Z :=
  let q := n / d in
  let r := n mod d in
  if (d <? 2 * r) || ((d =? 2 * r) && Z.odd q) then q + 1 else q.

(** The digits of [scaled / 10^prec] with [prec > 0] decimals. *)
Definition fixedDigits (prec : nat) (scaled : Z) : string :=
  let p := 10 ^ Z.of_nat prec in
  formatInt (scaled / p) +:+ "." +:+ lastDigits prec (scaled mod p) EmptyString.

(** [fmt.Sprintf("%.<prec>f", f)] (also written [%0.<prec>f]) for
    [prec > 0]: the exact binary value rounded to [prec] decimals, ties to
    even; infinities and NaN print by name. *)
Definition formatFloat (prec : nat) (f : float) : string :=
  match Prim2SF f with
  | S754_nan => "NaN"
  | S754_infinity s => if s then "-Inf" else "+Inf"
  | S754_zero s => (if s then "-" else "") +:+ fixedDigits prec 0
  | S754_finite s m e =>
      let n := Z.pos m * 10 ^ Z.of_nat prec in
      let scaled := if 0 <=? e then n * 2 ^ e else roundHalfEven n (2 ^ (- e)) in
      (if s then "-" else "") +:+ fixedDigits prec scaled
  end.
End GoFmt.

Module GoRegexp.
Import GoStrings.

(** The character class of [NotLabelValueRE], before its negation:
    [a-zA-Z0-9_/+:@{}&%<>*\.,()[]-]. *)
Definition allowed (c : ascii) : bool :=
  let b := byte c in
  ((97 <=? b) && (b <=? 122)) || ((65 <=? b) && (b <=? 90)) ||
  ((48 <=? b) && (b <=? 57)) ||
  existsb (Ascii.eqb c)
    (list_ascii_of_string "_/+:@{}&%<>*\.,()[]-").

Definition continuation (s : string) (i : nat) (lo hi : Z) : bool :=
  match String.get i s with
  | Some c => (lo <=? byte c) && (byte c <=? hi)
  | None => false
  end.

(** The width of the rune [utf8.DecodeRuneInString] reads at the head of
    [s], whose first byte is at least 0x80; an invalid or truncated
    encoding is the error rune, one byte wide. *)
Definition runeSize (s : string) : nat :=
  let b0 := byte (at_ s 0) in
  let '(sz, lo, hi) :=
    if b0 <? 194 then (1%nat, 0, 0)
    else if b0 <? 224 then (2%nat, 128, 191)
    else if b0 =? 224 then (3%nat, 160, 191)
    else if b0 =? 237 then (3%nat, 128, 159)
    else if b0 <? 240 then (3%nat, 128, 191)
    else if b0 =? 240 then (4%nat, 144, 191)
    else if b0 <? 244 then (4%nat, 128, 191)
    else if b0 =? 244 then (4%nat, 128, 143)
    else (1%nat, 0, 0) in
  match sz with
  | 2%nat => if continuation s 1 lo hi then 2%nat else 1%nat
  | 3%nat =>
      if continuation s 1 lo hi && continuation s 2 128 191 then 3%nat else 1%nat
  | 4%nat =>
      if continuation s 1 lo hi && continuation s 2 128 191
         && continuation s 3 128 191 then 4%nat else 1%nat
  | _ => 1%nat
  end.

(** [NotLabelValueRE.ReplaceAllString(s, "_")]: the expression matches one
    rune outside the class, so every such rune, of whatever width, becomes
    one underscore.  [skip] counts the bytes of a rune still to be
    dropped. *)
Fixpoint sanitizeFrom (s : string) (skip : nat) : string :=
  match s with
  | EmptyString => EmptyString
  | String c s' =>
      match skip with
      | S k => sanitizeFrom s' k
      | O =>
          if byte c <? 128
          then String (if allowed c then c else "_"%char) (sanitizeFrom s' O)
          else String "_"%char (sanitizeFrom s' (runeSize s - 1))
      end
  end.
Definition ReplaceAllString (s : string) : string := sanitizeFrom s O.
End GoRegexp.

(* ===================================================================== *)
(** ** Data model                                                         *)
(* ===================================================================== *)

(** Config for metrics. *)
Record Config := {
  Debug : Z;
  ServerID : string;
  SDPInstance : string;
  UpdateInterval : GoTime.Duration;
  OutputCmdsByUser : bool;
  OutputCmdsByUserRegex : string;
  OutputCmdsByIP : bool;
  CaseSensitiveServer : bool
}.

(** Modelled from the spec: the declaration of [p4dlog.Table] is not part of
    the sources at hand.  A table-lock entry has a table name and read/write
    wait/held durations in milliseconds; a trigger entry has a name prefixed
    [trigger_] and a lapse time in seconds.  [TriggerLapse] holds the value
    of [float64(t.TriggerLapse)]. *)
Record Table := {
  TableName : string;
  TotalReadWait : Z;
  TotalReadHeld : Z;
  TotalWriteWait : Z;
  TotalWriteHeld : Z;
  TriggerLapse : float
}.

(** Modelled from the spec: the declaration of [p4dlog.Command] is not part
    of the sources at hand.  A command record has a command name, a user
    name, a client address optionally prefixed with a replica identifier, a
    program name, a completion duration, user and system CPU milliseconds, a
    running-commands gauge, net sync counts, an error flag and its table
    entries.  [CompletedLapse] holds the value of
    [float64(cmd.CompletedLapse)]; [Tables] lists the entries in the order
    the range loop visits them. *)
Record Command := {
  Cmd : string;
  User : string;
  IP : string;
  App : string;
  CompletedLapse : float;
  UCpu : Z;
  SCpu : Z;
  Running : Z;
  NetFilesAdded : Z;
  NetFilesUpdated : Z;
  NetFilesDeleted : Z;
  NetBytesAdded : Z;
  NetBytesUpdated : Z;
  CmdError : bool;
  Tables : list Table
}.

(** P4DMetrics structure.  The parser [fp], the logger, the writer and the
    debug level carry no aggregate and are left out; [timeChan] appears as
    the notification the boundary detector returns. *)
Record P4DMetrics := {
  config : Config;
  historical : bool;
  timeLatestStartCmd : GoTime.Time;
  latestStartCmdBuf : string;
  cmdRunning : Z;
  cmdCounter : gmap string Z;
  cmdErrorCounter : gmap string Z;
  cmdCumulative : gmap string float;
  cmduCPUCumulative : gmap string float;
  cmdsCPUCumulative : gmap string float;
  cmdByUserCounter : gmap string Z;
  cmdByUserCumulative : gmap string float;
  cmdByIPCounter : gmap string Z;
  cmdByIPCumulative : gmap string float;
  cmdByReplicaCounter : gmap string Z;
  cmdByReplicaCumulative : gmap string float;
  cmdByProgramCounter : gmap string Z;
  cmdByProgramCumulative : gmap string float;
  cmdByUserDetailCounter : gmap string (gmap string Z);
  cmdByUserDetailCumulative : gmap string (gmap string float);
  totalReadWait : gmap string float;
  totalReadHeld : gmap string float;
  totalWriteWait : gmap string float;
  totalWriteHeld : gmap string float;
  totalTriggerLapse : gmap string float;
  syncFilesAdded : Z;
  syncFilesUpdated : Z;
  syncFilesDeleted : Z;
  syncBytesAdded : Z;
  syncBytesUpdated : Z;
  cmdsProcessed : Z;
  linesRead : Z;
  outputCmdsByUserRegex : option (string -> bool)
}.

(** NewP4DMetricsLogParser: every map empty, every scalar zero. *)
Definition NewP4DMetricsLogParser (cfg : Config) (hist : bool) : P4DMetrics :=
  {| config := cfg; historical := hist;
     timeLatestStartCmd := GoTime.zeroTime; latestStartCmdBuf := EmptyString;
     cmdRunning := 0;
     cmdCounter := ∅; cmdErrorCounter := ∅; cmdCumulative := ∅;
     cmduCPUCumulative := ∅; cmdsCPUCumulative := ∅;
     cmdByUserCounter := ∅; cmdByUserCumulative := ∅;
     cmdByIPCounter := ∅; cmdByIPCumulative := ∅;
     cmdByReplicaCounter := ∅; cmdByReplicaCumulative := ∅;
     cmdByProgramCounter := ∅; cmdByProgramCumulative := ∅;
     cmdByUserDetailCounter := ∅; cmdByUserDetailCumulative := ∅;
     totalReadWait := ∅; totalReadHeld := ∅;
     totalWriteWait := ∅; totalWriteHeld := ∅; totalTriggerLapse := ∅;
     syncFilesAdded := 0; syncFilesUpdated := 0; syncFilesDeleted := 0;
     syncBytesAdded := 0; syncBytesUpdated := 0;
     cmdsProcessed := 0; linesRead := 0;
     outputCmdsByUserRegex := None |}.

(** *** Map statements *)

(** [m[k]++] on a [map[string]int64]. *)
Definition incr (k : string) (m : gmap string Z) : gmap string Z :=
  <[k := Int64.add (default 0 (m !! k)) 1]> m.

(** [m[k] += x] on a [map[string]float64]. *)
Definition accum (k : string) (x : float) (m : gmap string float) : gmap string float :=
  <[k := PrimFloat.add (default Float64.zero (m !! k)) x]> m.

(** The keys a [range] loop over [m] visits.  Go leaves the order
    unspecified; the model takes the order of [map_to_list]. *)
Definition keys {V : Type} (m : gmap string V) : list string := (map_to_list m).*1.

(** [for _, t := range ks { m[t] = z }]. *)
Definition zeroKeys {V : Type} (z : V) (ks : list string) (m : gmap string V) : gmap string V :=
  foldl (fun acc t => <[t := z]> acc) m ks.

(** [for t := range m { m[t] = z }]. *)
Definition zeroAll {V : Type} (z : V) (m : gmap string V) : gmap string V :=
  zeroKeys z (keys m) m.

(* ===================================================================== *)
(** ** resetToZero                                                        *)
(* ===================================================================== *)

(** The first loop ranges over the keys of [totalReadHeld] and assigns zero
    under each key in all four lock maps; every later loop ranges over the
    map it zeroes.  The inner maps of [cmdByUserDetailCounter] are zeroed in
    place. *)
Definition resetToZero (p4m : P4DMetrics) : P4DMetrics :=
  let lockKeys := keys (totalReadHeld p4m) in
  {| config := config p4m; historical := historical p4m;
     timeLatestStartCmd := timeLatestStartCmd p4m;
     latestStartCmdBuf := latestStartCmdBuf p4m;
     cmdRunning := 0;
     cmdCounter := zeroAll 0 (cmdCounter p4m);
     cmdErrorCounter := zeroAll 0 (cmdErrorCounter p4m);
     cmdCumulative := cmdCumulative p4m;
     cmduCPUCumulative := cmduCPUCumulative p4m;
     cmdsCPUCumulative := cmdsCPUCumulative p4m;
     cmdByUserCounter := zeroAll 0 (cmdByUserCounter p4m);
     cmdByUserCumulative := cmdByUserCumulative p4m;
     cmdByIPCounter := zeroAll 0 (cmdByIPCounter p4m);
     cmdByIPCumulative := cmdByIPCumulative p4m;
     cmdByReplicaCounter := zeroAll 0 (cmdByReplicaCounter p4m);
     cmdByReplicaCumulative := cmdByReplicaCumulative p4m;
     cmdByProgramCounter := zeroAll 0 (cmdByProgramCounter p4m);
     cmdByProgramCumulative := cmdByProgramCumulative p4m;
     cmdByUserDetailCounter := zeroAll 0 <$> cmdByUserDetailCounter p4m;
     cmdByUserDetailCumulative := cmdByUserDetailCumulative p4m;
     totalReadWait := zeroKeys Float64.zero lockKeys (totalReadWait p4m);
     totalReadHeld := zeroKeys Float64.zero lockKeys (totalReadHeld p4m);
     totalWriteWait := zeroKeys Float64.zero lockKeys (totalWriteWait p4m);
     totalWriteHeld := zeroKeys Float64.zero lockKeys (totalWriteHeld p4m);
     totalTriggerLapse := zeroAll Float64.zero (totalTriggerLapse p4m);
     syncFilesAdded := 0; syncFilesUpdated := 0; syncFilesDeleted := 0;
     syncBytesAdded := 0; syncBytesUpdated := 0;
     cmdsProcessed := cmdsProcessed p4m;
     linesRead := 0;
     outputCmdsByUserRegex := outputCmdsByUserRegex p4m |}.

(* ===================================================================== *)
(** ** publishEvent                                                       *)
(* ===================================================================== *)

(** [j := strings.Index(cmd.IP, "/")] and the branch on [j > 0]: the pair
    (ip, replica). *)
Definition splitIP (addr : string) : string * string :=
  let j := GoStrings.Index addr "/" in
  if 0 <? j
  then (GoStrings.sliceFrom addr (Z.to_nat j + 1), GoStrings.slice addr 0 (Z.to_nat j))
  else (addr, EmptyString).

(** The program label: [" (brokered)"] removed by [strings.ReplaceAll], then
    [NotLabelValueRE.ReplaceAllString(program, "_")]. *)
Definition programKey (app : string) : string :=
  GoRegexp.ReplaceAllString (GoStrings.ReplaceAll app " (brokered)" EmptyString).

Definition triggerPrefix : string := "trigger_".

Definition isTrigger (name : string) : bool :=
  (GoStrings.len triggerPrefix <? GoStrings.len name)
  && String.eqb (GoStrings.slice name 0 (String.length triggerPrefix)) triggerPrefix.

(** The body of the loop over [cmd.Tables]. *)
Definition recordTable (p4m : P4DMetrics) (t : Table) : P4DMetrics :=
  let trig := isTrigger (TableName t) in
  let triggerName := GoStrings.sliceFrom (TableName t) (String.length triggerPrefix) in
  let lock (ms : Z) (m : gmap string float) :=
    if trig then m else accum (TableName t) (Float64.perThousand ms) m in
  {| config := config p4m; historical := historical p4m;
     timeLatestStartCmd := timeLatestStartCmd p4m;
     latestStartCmdBuf := latestStartCmdBuf p4m;
     cmdRunning := cmdRunning p4m;
     cmdCounter := cmdCounter p4m;
     cmdErrorCounter := cmdErrorCounter p4m;
     cmdCumulative := cmdCumulative p4m;
     cmduCPUCumulative := cmduCPUCumulative p4m;
     cmdsCPUCumulative := cmdsCPUCumulative p4m;
     cmdByUserCounter := cmdByUserCounter p4m;
     cmdByUserCumulative := cmdByUserCumulative p4m;
     cmdByIPCounter := cmdByIPCounter p4m;
     cmdByIPCumulative := cmdByIPCumulative p4m;
     cmdByReplicaCounter := cmdByReplicaCounter p4m;
     cmdByReplicaCumulative := cmdByReplicaCumulative p4m;
     cmdByProgramCounter := cmdByProgramCounter p4m;
     cmdByProgramCumulative := cmdByProgramCumulative p4m;
     cmdByUserDetailCounter := cmdByUserDetailCounter p4m;
     cmdByUserDetailCumulative := cmdByUserDetailCumulative p4m;
     totalReadWait := lock (TotalReadWait t) (totalReadWait p4m);
     totalReadHeld := lock (TotalReadHeld t) (totalReadHeld p4m);
     totalWriteWait := lock (TotalWriteWait t) (totalWriteWait p4m);
     totalWriteHeld := lock (TotalWriteHeld t) (totalWriteHeld p4m);
     totalTriggerLapse :=
       if trig then accum triggerName (TriggerLapse t) (totalTriggerLapse p4m)
       else totalTriggerLapse p4m;
     syncFilesAdded := syncFilesAdded p4m;
     syncFilesUpdated := syncFilesUpdated p4m;
     syncFilesDeleted := syncFilesDeleted p4m;
     syncBytesAdded := syncBytesAdded p4m;
     syncBytesUpdated := syncBytesUpdated p4m;
     cmdsProcessed := cmdsProcessed p4m;
     linesRead := linesRead p4m;
     outputCmdsByUserRegex := outputCmdsByUserRegex p4m |}.

Section Package.

(** [strings.ToLower]: its Unicode case tables are outside the model. *)
Variable ToLower : string -> string.

(** [regexp.MustCompile(expr).MatchString], or [None] where [MustCompile]
    panics on a malformed expression. *)
Variable MustCompile : string -> option (string -> bool).

(** The user-detail block of [publishEvent]: the compiled expression and
    the two detail maps after it.  [None] is a panic: [MustCompile] on a
    malformed expression, or an assignment into the nil inner map of a
    user who has a counter map and no cumulative map. *)
Definition userDetail (p4m : P4DMetrics) (user : string) (cmd : Command)
  : option (option (string -> bool) * gmap string (gmap string Z)
            * gmap string (gmap string float)) :=
  let dc := cmdByUserDetailCounter p4m in
  let dcum := cmdByUserDetailCumulative p4m in
  if String.eqb (OutputCmdsByUserRegex (config p4m)) EmptyString
  then Some (outputCmdsByUserRegex p4m, dc, dcum)
  else
    re ← match outputCmdsByUserRegex p4m with
         | Some re => Some re
         | None => MustCompile ("(" +:+ OutputCmdsByUserRegex (config p4m) +:+ ")")
         end;
    if (re : string -> bool) user then
      let '(dc1, dcum1) :=
        match dc !! user with
        | Some _ => (dc, dcum)
        | None => (<[user := ∅]> dc, <[user := ∅]> dcum)
        end in
      counts ← dc1 !! user;
      totals ← dcum1 !! user;
      Some (Some re,
            <[user := incr (Cmd cmd) counts]> dc1,
            <[user := accum (Cmd cmd) (CompletedLapse cmd) totals]> dcum1)
    else Some (Some re, dc, dcum).

Definition publishEvent (p4m : P4DMetrics) (cmd : Command) : option P4DMetrics :=
  let lapse := CompletedLapse cmd in
  let user := if CaseSensitiveServer (config p4m) then User cmd else ToLower (User cmd) in
  '(re, dc, dcum) ← userDetail p4m user cmd;
  let '(ip, replica) := splitIP (IP cmd) in
  let noReplica := String.eqb replica EmptyString in
  let program := programKey (App cmd) in
  Some (foldl recordTable
    {| config := config p4m; historical := historical p4m;
       timeLatestStartCmd := timeLatestStartCmd p4m;
       latestStartCmdBuf := latestStartCmdBuf p4m;
       cmdRunning := Running cmd;
       cmdCounter := incr (Cmd cmd) (cmdCounter p4m);
       cmdErrorCounter :=
         if CmdError cmd then incr (Cmd cmd) (cmdErrorCounter p4m)
         else cmdErrorCounter p4m;
       cmdCumulative := accum (Cmd cmd) lapse (cmdCumulative p4m);
       cmduCPUCumulative :=
         accum (Cmd cmd) (Float64.perThousand (UCpu cmd)) (cmduCPUCumulative p4m);
       cmdsCPUCumulative :=
         accum (Cmd cmd) (Float64.perThousand (SCpu cmd)) (cmdsCPUCumulative p4m);
       cmdByUserCounter := incr user (cmdByUserCounter p4m);
       cmdByUserCumulative := accum user lapse (cmdByUserCumulative p4m);
       cmdByIPCounter := incr ip (cmdByIPCounter p4m);
       cmdByIPCumulative := accum ip lapse (cmdByIPCumulative p4m);
       cmdByReplicaCounter :=
         if noReplica then cmdByReplicaCounter p4m
         else incr replica (cmdByReplicaCounter p4m);
       cmdByReplicaCumulative :=
         if noReplica then cmdByReplicaCumulative p4m
         else accum replica lapse (cmdByReplicaCumulative p4m);
       cmdByProgramCounter := incr program (cmdByProgramCounter p4m);
       cmdByProgramCumulative := accum program lapse (cmdByProgramCumulative p4m);
       cmdByUserDetailCounter := dc;
       cmdByUserDetailCumulative := dcum;
       totalReadWait := totalReadWait p4m;
       totalReadHeld := totalReadHeld p4m;
       totalWriteWait := totalWriteWait p4m;
       totalWriteHeld := totalWriteHeld p4m;
       totalTriggerLapse := totalTriggerLapse p4m;
       syncFilesAdded := Int64.add (syncFilesAdded p4m) (NetFilesAdded cmd);
       syncFilesUpdated := Int64.add (syncFilesUpdated p4m) (NetFilesUpdated cmd);
       syncFilesDeleted := Int64.add (syncFilesDeleted p4m) (NetFilesDeleted cmd);
       syncBytesAdded := Int64.add (syncBytesAdded p4m) (NetBytesAdded cmd);
       syncBytesUpdated := Int64.add (syncBytesUpdated p4m) (NetBytesUpdated cmd);
       cmdsProcessed := cmdsProcessed p4m;
       linesRead := linesRead p4m;
       outputCmdsByUserRegex := re |}
    (Tables cmd)).

End Package.

(* ===================================================================== *)
(** ** historicalUpdateRequired                                           *)
(* ===================================================================== *)

(** [lenPrefix = len("\t2020/03/04 12:13:14")]. *)
Definition lenPrefix : nat := 20.

(** The check of the expected characters at specific points. *)
Definition wrongSeparators (line : string) : bool :=
  negb (Ascii.eqb (GoStrings.at_ line 0) GoStrings.tab)
  || negb (Ascii.eqb (GoStrings.at_ line 5) "/"%char)
  || negb (Ascii.eqb (GoStrings.at_ line 8) "/"%char)
  || negb (Ascii.eqb (GoStrings.at_ line 11) " "%char)
  || negb (Ascii.eqb (GoStrings.at_ line 14) ":"%char)
  || negb (Ascii.eqb (GoStrings.at_ line 17) ":"%char).

Definition digitColumns : list nat :=
  [1; 2; 3; 4; 6; 7; 9; 10; 12; 13; 15; 16; 18; 19]%nat.

(** The check for digits: some column holds a byte below '0' or above '9'. *)
Definition wrongDigits (line : string) : bool :=
  existsb (fun i => (GoStrings.byte (GoStrings.at_ line i) <? 48)
                    || (57 <? GoStrings.byte (GoStrings.at_ line i)))
          digitColumns.

(** The three guards a line passes to count as timestamp-prefixed. *)
Definition qualifies (line : string) : bool :=
  negb (GoStrings.len line <? Z.of_nat lenPrefix)
  && negb (wrongSeparators line) && negb (wrongDigits line).

Definition setLatestStartCmd (p4m : P4DMetrics) (buf : string) (t : GoTime.Time) : P4DMetrics :=
  {| config := config p4m; historical := historical p4m;
     timeLatestStartCmd := t;
     latestStartCmdBuf := buf;
     cmdRunning := cmdRunning p4m;
     cmdCounter := cmdCounter p4m;
     cmdErrorCounter := cmdErrorCounter p4m;
     cmdCumulative := cmdCumulative p4m;
     cmduCPUCumulative := cmduCPUCumulative p4m;
     cmdsCPUCumulative := cmdsCPUCumulative p4m;
     cmdByUserCounter := cmdByUserCounter p4m;
     cmdByUserCumulative := cmdByUserCumulative p4m;
     cmdByIPCounter := cmdByIPCounter p4m;
     cmdByIPCumulative := cmdByIPCumulative p4m;
     cmdByReplicaCounter := cmdByReplicaCounter p4m;
     cmdByReplicaCumulative := cmdByReplicaCumulative p4m;
     cmdByProgramCounter := cmdByProgramCounter p4m;
     cmdByProgramCumulative := cmdByProgramCumulative p4m;
     cmdByUserDetailCounter := cmdByUserDetailCounter p4m;
     cmdByUserDetailCumulative := cmdByUserDetailCumulative p4m;
     totalReadWait := totalReadWait p4m;
     totalReadHeld := totalReadHeld p4m;
     totalWriteWait := totalWriteWait p4m;
     totalWriteHeld := totalWriteHeld p4m;
     totalTriggerLapse := totalTriggerLapse p4m;
     syncFilesAdded := syncFilesAdded p4m;
     syncFilesUpdated := syncFilesUpdated p4m;
     syncFilesDeleted := syncFilesDeleted p4m;
     syncBytesAdded := syncBytesAdded p4m;
     syncBytesUpdated := syncBytesUpdated p4m;
     cmdsProcessed := cmdsProcessed p4m;
     linesRead := linesRead p4m;
     outputCmdsByUserRegex := outputCmdsByUserRegex p4m |}.

(** What one call leaves behind: the state, the time sent on [timeChan] if
    any, and the returned flag. *)
Record Boundary := {
  after : P4DMetrics;
  notified : option GoTime.Time;
  required : bool
}.

Definition noUpdate (p4m : P4DMetrics) : Boundary :=
  {| after := p4m; notified := None; required := false |}.

(** Searches for log lines starting with a <tab>date. *)
Definition historicalUpdateRequired (p4m : P4DMetrics) (line : string) : Boundary :=
  if negb (historical p4m) then noUpdate p4m
  else if GoStrings.len line <? Z.of_nat lenPrefix then noUpdate p4m
  else if wrongSeparators line then noUpdate p4m
  else if wrongDigits line then noUpdate p4m
  else
    let buf := latestStartCmdBuf p4m in
    let prefix := GoStrings.slice line 0 lenPrefix in
    if GoStrings.len buf =? 0
    then noUpdate (setLatestStartCmd p4m prefix (GoTime.Parse (GoStrings.slice line 1 lenPrefix)))
    else if (0 <? GoStrings.len buf) && String.eqb buf prefix then noUpdate p4m
    else if GoStrings.Compare prefix buf <=? 0 then noUpdate p4m
    else
      let dt := GoTime.Parse (GoStrings.slice line 1 lenPrefix) in
      let gap := GoTime.Sub dt (timeLatestStartCmd p4m) in
      let note := if 3 * GoTime.Second <=? gap then Some dt else None in
      if UpdateInterval (config p4m) <=? gap
      then {| after := setLatestStartCmd p4m prefix dt; notified := note; required := true |}
      else {| after := p4m; notified := note; required := false |}.

(* ===================================================================== *)
(** ** Rendering                                                          *)
(* ===================================================================== *)

(** defines metrics label *)
Record labelStruct := { name : string; value : string }.

Definition printMetricHeader (p4m : P4DMetrics) (mname help metricType : string) : string :=
  if historical p4m then EmptyString
  else "# HELP " +:+ mname +:+ " " +:+ help +:+ GoStrings.str GoStrings.newline
       +:+ "# TYPE " +:+ mname +:+ " " +:+ metricType +:+ GoStrings.str GoStrings.newline.

(** Prometheus format: metric_name{label1="val1",label2="val2"};
    Graphite format: metric_name;label1=val1;label2=val2 *)
Definition formatLabels (p4m : P4DMetrics) (mname : string) (labels : list labelStruct) : string :=
  let quote (l : labelStruct) :=
    if historical p4m then l
    else {| name := name l;
            value := GoStrings.str GoStrings.dquote +:+ value l
                     +:+ GoStrings.str GoStrings.dquote |} in
  let nonBlankLabels :=
    map quote (List.filter (fun l => negb (String.eqb (value l) EmptyString)) labels) in
  let vals := map (fun l => name l +:+ "=" +:+ value l) nonBlankLabels in
  if historical p4m then
    let labelStr := GoStrings.Join vals ";" in
    if 0 <? GoStrings.len labelStr then mname +:+ ";" +:+ labelStr else mname
  else mname +:+ "{" +:+ GoStrings.Join vals "," +:+ "}".

Definition formatMetric (p4m : P4DMetrics) (mname : string) (labels : list labelStruct)
    (metricVal : string) : string :=
  if historical p4m then
    formatLabels p4m mname labels +:+ " " +:+ metricVal +:+ " "
    +:+ GoFmt.formatInt (GoTime.Unix (timeLatestStartCmd p4m))
    +:+ GoStrings.str GoStrings.newline
  else formatLabels p4m mname labels +:+ " " +:+ metricVal
       +:+ GoStrings.str GoStrings.newline.

(** The text [printMetric] appends: node_exporter requires doubling of
    backslashes. *)
Definition printMetric (p4m : P4DMetrics) (mname : string) (labels : list labelStruct)
    (metricVal : string) : string :=
  GoStrings.ReplaceAll (formatMetric p4m mname labels metricVal) "\" "\\".

(** The verb a value is printed with. *)
Inductive Verb := VerbD | Verb3f | Verb6f.

Inductive Value := IntVal (n : Z) | FloatVal (f : float).

(** [fmt.Sprintf] with ["%d"] on an integer, ["%0.3f"] and ["%.6f"] on a
    float; no block of the source pairs a verb with the other kind. *)
Definition sprintf (v : Verb) (x : Value) : string :=
  match v, x with
  | VerbD, IntVal n => GoFmt.formatInt n
  | Verb3f, FloatVal f => GoFmt.formatFloat 3 f
  | Verb6f, FloatVal f => GoFmt.formatFloat 6 f
  | _, _ => "%!"
  end.

(** One block of [getCumulativeMetrics]: the header of a metric and the
    samples printed under it, each with its labels, verb and value. *)
Record Family := {
  famName : string;
  famHelp : string;
  famType : string;
  famVerb : Verb;
  famSamples : list (list labelStruct * Value)
}.

(** What [getCumulativeMetrics] reads outside the aggregate state:
    [getCPUStats()] and [p4m.fp.CmdsPendingCount()]. *)
Record Probe := { userCPU : float; systemCPU : float; cmdsPending : Z }.

Definition fixedLabels (p4m : P4DMetrics) : list labelStruct :=
  [ {| name := "serverid"; value := ServerID (config p4m) |};
    {| name := "sdpinst"; value := SDPInstance (config p4m) |} ].

Definition scalarFamily (p4m : P4DMetrics) (mname help ty : string) (v : Verb) (x : Value) : Family :=
  {| famName := mname; famHelp := help; famType := ty; famVerb := v;
     famSamples := [(fixedLabels p4m, x)] |}.

(** [for key, val := range m { labels := append(fixedLabels, {label, key}) ... }] *)
Definition mapFamily {V : Type} (p4m : P4DMetrics) (mname help : string) (v : Verb)
    (label : string) (inj : V -> Value) (m : gmap string V) : Family :=
  {| famName := mname; famHelp := help; famType := "gauge"; famVerb := v;
     famSamples :=
       map (fun kv => (fixedLabels p4m ++ [ {| name := label; value := kv.1 |} ], inj kv.2))
           (map_to_list m) |}.

(** The nested loops over a user-detail map. *)
Definition detailFamily {V : Type} (p4m : P4DMetrics) (mname help : string) (v : Verb)
    (inj : V -> Value) (m : gmap string (gmap string V)) : Family :=
  {| famName := mname; famHelp := help; famType := "gauge"; famVerb := v;
     famSamples :=
       flat_map (fun um =>
         map (fun kv => (fixedLabels p4m ++ [ {| name := "user"; value := um.1 |};
                                               {| name := "cmd"; value := kv.1 |} ],
                         inj kv.2))
             (map_to_list um.2))
         (map_to_list m) |}.

(** The blocks of [getCumulativeMetrics], in the order of the source. *)
Definition metricFamilies (pr : Probe) (p4m : P4DMetrics) : list Family :=
  [ scalarFamily p4m "p4_prom_log_lines_read" "A count of log lines read" "gauge"
      VerbD (IntVal (linesRead p4m));
    scalarFamily p4m "p4_prom_cmds_processed" "A count of all cmds processed" "counter"
      VerbD (IntVal (cmdsProcessed p4m));
    scalarFamily p4m "p4_prom_cmds_pending" "A count of all current cmds (not completed)"
      "gauge" VerbD (IntVal (cmdsPending pr));
    scalarFamily p4m "p4_cmd_running" "The number of running commands at any one time"
      "gauge" VerbD (IntVal (cmdRunning p4m));
    scalarFamily p4m "p4_prom_cpu_user" "User CPU used by p4prometheus" "counter"
      Verb6f (FloatVal (userCPU pr));
    scalarFamily p4m "p4_prom_cpu_system" "System CPU used by p4prometheus" "counter"
      Verb6f (FloatVal (systemCPU pr));
    scalarFamily p4m "p4_sync_files_added"
      "The number of files added to workspaces by syncs" "gauge"
      VerbD (IntVal (syncFilesAdded p4m));
    scalarFamily p4m "p4_sync_files_updated"
      "The number of files updated in workspaces by syncs" "gauge"
      VerbD (IntVal (syncFilesUpdated p4m));
    scalarFamily p4m "p4_sync_files_deleted"
      "The number of files deleted in workspaces by syncs" "gauge"
      VerbD (IntVal (syncFilesDeleted p4m));
    scalarFamily p4m "p4_sync_bytes_added"
      "The number of bytes added to workspaces by syncs" "gauge"
      VerbD (IntVal (syncBytesAdded p4m));
    scalarFamily p4m "p4_sync_bytes_updated"
      "The number of bytes updated in workspaces by syncs" "gauge"
      VerbD (IntVal (syncBytesUpdated p4m));
    mapFamily p4m "p4_cmd_counter" "A count of completed p4 cmds (by cmd)"
      VerbD "cmd" IntVal (cmdCounter p4m);
    mapFamily p4m "p4_cmd_cumulative_seconds" "The total in seconds (by cmd)"
      Verb3f "cmd" FloatVal (cmdCumulative p4m);
    mapFamily p4m "p4_cmd_cpu_user_cumulative_seconds"
      "The total in user CPU seconds (by cmd)"
      Verb3f "cmd" FloatVal (cmduCPUCumulative p4m);
    mapFamily p4m "p4_cmd_cpu_system_cumulative_seconds"
      "The total in system CPU seconds (by cmd)"
      Verb3f "cmd" FloatVal (cmdsCPUCumulative p4m);
    mapFamily p4m "p4_cmd_error_counter" "A count of cmd errors (by cmd)"
      VerbD "cmd" IntVal (cmdErrorCounter p4m) ]
  ++ (if OutputCmdsByUser (config p4m) then
        [ mapFamily p4m "p4_cmd_user_counter" "A count of completed p4 cmds (by user)"
            VerbD "user" IntVal (cmdByUserCounter p4m);
          mapFamily p4m "p4_cmd_user_cumulative_seconds" "The total in seconds (by user)"
            Verb3f "user" FloatVal (cmdByUserCumulative p4m) ]
      else [])
  ++ (if OutputCmdsByIP (config p4m) then
        [ mapFamily p4m "p4_cmd_ip_counter" "A count of completed p4 cmds (by IP)"
            VerbD "ip" IntVal (cmdByIPCounter p4m);
          mapFamily p4m "p4_cmd_ip_cumulative_seconds" "The total in seconds (by IP)"
            Verb3f "ip" FloatVal (cmdByIPCumulative p4m) ]
      else [])
  ++ (if negb (String.eqb (OutputCmdsByUserRegex (config p4m)) EmptyString) then
        [ detailFamily p4m "p4_cmd_user_detail_counter"
            "A count of completed p4 cmds (by user and cmd)"
            VerbD IntVal (cmdByUserDetailCounter p4m);
          detailFamily p4m "p4_cmd_user_detail_cumulative_seconds"
            "The total in seconds (by user and cmd)"
            Verb3f FloatVal (cmdByUserDetailCumulative p4m) ]
      else [])
  ++ [ mapFamily p4m "p4_cmd_replica_counter"
         "A count of completed p4 cmds (by broker/replica/proxy)"
         VerbD "replica" IntVal (cmdByReplicaCounter p4m);
       mapFamily p4m "p4_cmd_replica_cumulative_seconds"
         "The total in seconds (by broker/replica/proxy)"
         Verb3f "replica" FloatVal (cmdByReplicaCumulative p4m);
       mapFamily p4m "p4_cmd_program_counter" "A count of completed p4 cmds (by program)"
         VerbD "program" IntVal (cmdByProgramCounter p4m);
       mapFamily p4m "p4_cmd_program_cumulative_seconds" "The total in seconds (by program)"
         Verb3f "program" FloatVal (cmdByProgramCumulative p4m);
       mapFamily p4m "p4_total_read_wait_seconds"
         "The total waiting for read locks in seconds (by table)"
         Verb3f "table" FloatVal (totalReadWait p4m);
       mapFamily p4m "p4_total_read_held_seconds"
         "The total read locks held in seconds (by table)"
         Verb3f "table" FloatVal (totalReadHeld p4m);
       mapFamily p4m "p4_total_write_wait_seconds"
         "The total waiting for write locks in seconds (by table)"
         Verb3f "table" FloatVal (totalWriteWait p4m);
       mapFamily p4m "p4_total_write_held_seconds"
         "The total write locks held in seconds (by table)"
         Verb3f "table" FloatVal (totalWriteHeld p4m) ]
  ++ (if (0 <? Z.of_nat (size (totalTriggerLapse p4m))) then
        [ mapFamily p4m "p4_total_trigger_lapse_seconds"
            "The total lapse time for triggers in seconds (by trigger)"
            Verb3f "trigger" FloatVal (totalTriggerLapse p4m) ]
      else []).

Definition renderFamily (p4m : P4DMetrics) (f : Family) : string :=
  printMetricHeader p4m (famName f) (famHelp f) (famType f)
  +:+ GoStrings.concat
        (map (fun s => printMetric p4m (famName f) s.1 (sprintf (famVerb f) s.2))
             (famSamples f)).

(** Publish cumulative results - called on a ticker or in historical mode. *)
Definition getCumulativeMetrics (pr : Probe) (p4m : P4DMetrics) : string :=
  GoStrings.concat (map (renderFamily p4m) (metricFamilies pr p4m)).

(* ===================================================================== *)
(** ** ProcessEvents                                                      *)
(* ===================================================================== *)

(** [p4m.linesRead++]. *)
Definition countLine (p4m : P4DMetrics) : P4DMetrics :=
  {| config := config p4m; historical := historical p4m;
     timeLatestStartCmd := timeLatestStartCmd p4m;
     latestStartCmdBuf := latestStartCmdBuf p4m;
     cmdRunning := cmdRunning p4m;
     cmdCounter := cmdCounter p4m;
     cmdErrorCounter := cmdErrorCounter p4m;
     cmdCumulative := cmdCumulative p4m;
     cmduCPUCumulative := cmduCPUCumulative p4m;
     cmdsCPUCumulative := cmdsCPUCumulative p4m;
     cmdByUserCounter := cmdByUserCounter p4m;
     cmdByUserCumulative := cmdByUserCumulative p4m;
     cmdByIPCounter := cmdByIPCounter p4m;
     cmdByIPCumulative := cmdByIPCumulative p4m;
     cmdByReplicaCounter := cmdByReplicaCounter p4m;
     cmdByReplicaCumulative := cmdByReplicaCumulative p4m;
     cmdByProgramCounter := cmdByProgramCounter p4m;
     cmdByProgramCumulative := cmdByProgramCumulative p4m;
     cmdByUserDetailCounter := cmdByUserDetailCounter p4m;
     cmdByUserDetailCumulative := cmdByUserDetailCumulative p4m;
     totalReadWait := totalReadWait p4m;
     totalReadHeld := totalReadHeld p4m;
     totalWriteWait := totalWriteWait p4m;
     totalWriteHeld := totalWriteHeld p4m;
     totalTriggerLapse := totalTriggerLapse p4m;
     syncFilesAdded := syncFilesAdded p4m;
     syncFilesUpdated := syncFilesUpdated p4m;
     syncFilesDeleted := syncFilesDeleted p4m;
     syncBytesAdded := syncBytesAdded p4m;
     syncBytesUpdated := syncBytesUpdated p4m;
     cmdsProcessed := cmdsProcessed p4m;
     linesRead := Int64.add (linesRead p4m) 1;
     outputCmdsByUserRegex := outputCmdsByUserRegex p4m |}.

(** [p4m.cmdsProcessed++]. *)
Definition countCmd (p4m : P4DMetrics) : P4DMetrics :=
  {| config := config p4m; historical := historical p4m;
     timeLatestStartCmd := timeLatestStartCmd p4m;
     latestStartCmdBuf := latestStartCmdBuf p4m;
     cmdRunning := cmdRunning p4m;
     cmdCounter := cmdCounter p4m;
     cmdErrorCounter := cmdErrorCounter p4m;
     cmdCumulative := cmdCumulative p4m;
     cmduCPUCumulative := cmduCPUCumulative p4m;
     cmdsCPUCumulative := cmdsCPUCumulative p4m;
     cmdByUserCounter := cmdByUserCounter p4m;
     cmdByUserCumulative := cmdByUserCumulative p4m;
     cmdByIPCounter := cmdByIPCounter p4m;
     cmdByIPCumulative := cmdByIPCumulative p4m;
     cmdByReplicaCounter := cmdByReplicaCounter p4m;
     cmdByReplicaCumulative := cmdByReplicaCumulative p4m;
     cmdByProgramCounter := cmdByProgramCounter p4m;
     cmdByProgramCumulative := cmdByProgramCumulative p4m;
     cmdByUserDetailCounter := cmdByUserDetailCounter p4m;
     cmdByUserDetailCumulative := cmdByUserDetailCumulative p4m;
     totalReadWait := totalReadWait p4m;
     totalReadHeld := totalReadHeld p4m;
     totalWriteWait := totalWriteWait p4m;
     totalWriteHeld := totalWriteHeld p4m;
     totalTriggerLapse := totalTriggerLapse p4m;
     syncFilesAdded := syncFilesAdded p4m;
     syncFilesUpdated := syncFilesUpdated p4m;
     syncFilesDeleted := syncFilesDeleted p4m;
     syncBytesAdded := syncBytesAdded p4m;
     syncBytesUpdated := syncBytesUpdated p4m;
     cmdsProcessed := Int64.add (cmdsProcessed p4m) 1;
     linesRead := linesRead p4m;
     outputCmdsByUserRegex := outputCmdsByUserRegex p4m |}.

(** What one iteration of the [select] receives. *)
Inductive Event :=
| EvDone                      (* <-ctx.Done() *)
| EvTick                      (* <-ticker.C *)
| EvCmd (cmd : Command)       (* cmd, ok := <-cmdsInChan with ok *)
| EvCmdsClosed                (* cmd, ok := <-cmdsInChan with !ok *)
| EvLine (line : string)      (* line, ok := <-linesInChan with ok *)
| EvLinesClosed.              (* line, ok := <-linesInChan with !ok *)

(** What the goroutine does to its channels, in order. *)
Inductive Output :=
| OutMetrics (text : string)  (* metricsChan <- text *)
| OutCmd (cmd : Command)      (* cmdsOutChan <- cmd *)
| OutLine (line : string)     (* fpLinesChan <- line *)
| OutTime (t : GoTime.Time)   (* p4m.timeChan <- dt *)
| CloseLines                  (* close(fpLinesChan) *)
| CloseCmdsOut                (* close(cmdsOutChan) *)
| CloseMetrics.               (* close(metricsChan) *)

(** The goroutine of [ProcessEvents]: the aggregate state, whether the
    caller asked for [cmdsOutChan], whether [fpLinesChan] is still non-nil,
    and whether the loop has not yet returned.  Sends are taken not to block
    for ever (their readers drain the buffered channels). *)
Record Loop := {
  metrics : P4DMetrics;
  needCmdChan : bool;
  fpLinesChan : bool;
  running : bool
}.

Definition withMetrics (l : Loop) (p4m : P4DMetrics) : Loop :=
  {| metrics := p4m; needCmdChan := needCmdChan l;
     fpLinesChan := fpLinesChan l; running := running l |}.

(** The deferred calls run on return, last registered first. *)
Definition deferred (l : Loop) : list Output :=
  (if needCmdChan l then [CloseCmdsOut] else []) ++ [CloseMetrics].

Definition returns (l : Loop) : Loop :=
  {| metrics := metrics l; needCmdChan := needCmdChan l;
     fpLinesChan := fpLinesChan l; running := false |}.

(** The set-up of [ProcessEvents]; [time.NewTicker] panics on an interval
    that is not positive. *)
Definition ProcessEvents (p4m : P4DMetrics) (needCmd : bool) : option Loop :=
  if UpdateInterval (config p4m) <=? 0 then None
  else Some {| metrics := p4m; needCmdChan := needCmd;
               fpLinesChan := true; running := true |}.

Section EventLoop.

Variable ToLower : string -> string.
Variable MustCompile : string -> option (string -> bool).

(** One iteration of the [for { select { ... } }] on the event received,
    with the readings a snapshot would take.  [None]: [publishEvent]
    panics, or the event cannot be received (a line after the line channel
    was seen closed). *)
Definition iteration (pr : Probe) (l : Loop) (ev : Event) : option (Loop * list Output) :=
  let p4m := metrics l in
  match ev with
  | EvDone => Some (returns l, deferred l)
  | EvTick =>
      if negb (historical p4m)
      then Some (withMetrics l (resetToZero p4m), [OutMetrics (getCumulativeMetrics pr p4m)])
      else Some (l, [])
  | EvCmd cmd =>
      p4m' ← publishEvent ToLower MustCompile (countCmd p4m) cmd;
      Some (withMetrics l p4m', if needCmdChan l then [OutCmd cmd] else [])
  | EvCmdsClosed =>
      Some (returns l, OutMetrics (getCumulativeMetrics pr p4m) :: deferred l)
  | EvLine line =>
      if fpLinesChan l then
        let counted := countLine p4m in
        let b := if historical counted then historicalUpdateRequired counted line
                 else noUpdate counted in
        Some (withMetrics l (after b),
              [OutLine line]
              ++ match notified b with Some dt => [OutTime dt] | None => [] end
              ++ (if required b then [OutMetrics (getCumulativeMetrics pr (after b))]
                  else []))
      else None
  | EvLinesClosed =>
      if fpLinesChan l
      then Some ({| metrics := p4m; needCmdChan := needCmdChan l;
                    fpLinesChan := false; running := running l |}, [CloseLines])
      else Some (l, [])
  end.

(** The loop over the events received; once it has returned, nothing more
    is received. *)
Fixpoint run (l : Loop) (evs : list (Probe * Event)) : option (Loop * list Output) :=
  match evs with
  | [] => Some (l, [])
  | (pr, ev) :: rest =>
      if running l then
        match iteration pr l ev with
        | Some (l1, out1) =>
            match run l1 rest with
            | Some (l2, out2) => Some (l2, out1 ++ out2)
            | None => None
            end
        | None => None
        end
      else Some (l, [])
  end.

End EventLoop.

(* ===================================================================== *)
(** ** Reachable states and the vocabulary of the properties              *)
(* ===================================================================== *)

Section Reachability.

Variable ToLower : string -> string.
Variable MustCompile : string -> option (string -> bool).

(** The loops an execution of [ProcessEvents] on a fresh
    [NewP4DMetricsLogParser] can be in. *)
Inductive reachable : Loop -> Prop :=
| reachable_start cfg hist needCmd l :
    ProcessEvents (NewP4DMetricsLogParser cfg hist) needCmd = Some l ->
    reachable l
| reachable_iteration l pr ev l' out :
    reachable l -> running l = true ->
    iteration ToLower MustCompile pr l ev = Some (l', out) ->
    reachable l'.

End Reachability.

(** Every value of the map is [z]. *)
Definition allZero {V : Type} (z : V) (m : gmap string V) : Prop :=
  forall k v, m !! k = Some v -> v = z.

(** The counter-class aggregates are all zero. *)
Definition countersZero (p4m : P4DMetrics) : Prop :=
  allZero 0 (cmdCounter p4m) /\ allZero 0 (cmdErrorCounter p4m) /\
  allZero 0 (cmdByUserCounter p4m) /\ allZero 0 (cmdByIPCounter p4m) /\
  allZero 0 (cmdByReplicaCounter p4m) /\ allZero 0 (cmdByProgramCounter p4m) /\
  (forall user inner, cmdByUserDetailCounter p4m !! user = Some inner -> allZero 0 inner) /\
  cmdRunning p4m = 0 /\ linesRead p4m = 0 /\
  syncFilesAdded p4m = 0 /\ syncFilesUpdated p4m = 0 /\ syncFilesDeleted p4m = 0 /\
  syncBytesAdded p4m = 0 /\ syncBytesUpdated p4m = 0 /\
  allZero Float64.zero (totalReadWait p4m) /\ allZero Float64.zero (totalReadHeld p4m) /\
  allZero Float64.zero (totalWriteWait p4m) /\ allZero Float64.zero (totalWriteHeld p4m) /\
  allZero Float64.zero (totalTriggerLapse p4m).

(** [b] is [a] with the count under [k] one more, an absent count being
    zero, and every other entry as it was. *)
Definition incrementedAt (k : string) (a b : gmap string Z) : Prop :=
  b !! k = Some (Int64.add (default 0 (a !! k)) 1)
  /\ forall j, j <> k -> b !! j = a !! j.

(** [b] is [a] with [x] added to the total under [k], an absent total being
    zero, and every other entry as it was. *)
Definition addedAt (k : string) (x : float) (a b : gmap string float) : Prop :=
  b !! k = Some (PrimFloat.add (default Float64.zero (a !! k)) x)
  /\ forall j, j <> k -> b !! j = a !! j.

(** Every entry of [a] is still in [b], with its value or with its value
    plus one (an [int64] increment). *)
Definition keptOrIncremented (a b : gmap string Z) : Prop :=
  forall k v, a !! k = Some v -> b !! k = Some v \/ b !! k = Some (Int64.add v 1).

(** Every entry of [a] is still in [b], with its value or with its value
    plus [x]. *)
Definition keptOrAddedBy (x : float) (a b : gmap string float) : Prop :=
  forall k v, a !! k = Some v -> b !! k = Some v \/ b !! k = Some (PrimFloat.add v x).

(** [w] is [v] with some of the amounts [xs] added to it, in their order. *)
Inductive addedFrom : list float -> float -> float -> Prop :=
| addedFrom_nil v : addedFrom [] v v
| addedFrom_skip x xs v w : addedFrom xs v w -> addedFrom (x :: xs) v w
| addedFrom_take x xs v w : addedFrom xs (PrimFloat.add v x) w -> addedFrom (x :: xs) v w.

(** Every entry of [a] is still in [b], with some of the amounts [xs] added
    to its value. *)
Definition keptOrAddedFrom (xs : list float) (a b : gmap string float) : Prop :=
  forall k v, a !! k = Some v -> exists w, b !! k = Some w /\ addedFrom xs v w.

(** The user a command is counted under. *)
Definition userKey (ToLower : string -> string) (p4m : P4DMetrics) (cmd : Command) : string :=
  if CaseSensitiveServer (config p4m) then User cmd else ToLower (User cmd).

(** The cumulative-seconds aggregates and the total-processed count after
    the event [ev]: a command adds one to the count and its own amounts to
    the totals under its own keys; every other event leaves all of them
    exactly as they were. *)
Definition cumulativesAfter (ToLower : string -> string) (ev : Event)
    (a b : P4DMetrics) : Prop :=
  match ev with
  | EvCmd cmd =>
      let lapse := CompletedLapse cmd in
      let ip := (splitIP (IP cmd)).1 in
      let replica := (splitIP (IP cmd)).2 in
      cmdsProcessed b = Int64.add (cmdsProcessed a) 1
      /\ addedAt (Cmd cmd) lapse (cmdCumulative a) (cmdCumulative b)
      /\ addedAt (Cmd cmd) (Float64.perThousand (UCpu cmd))
           (cmduCPUCumulative a) (cmduCPUCumulative b)
      /\ addedAt (Cmd cmd) (Float64.perThousand (SCpu cmd))
           (cmdsCPUCumulative a) (cmdsCPUCumulative b)
      /\ addedAt (userKey ToLower a cmd) lapse (cmdByUserCumulative a) (cmdByUserCumulative b)
      /\ addedAt ip lapse (cmdByIPCumulative a) (cmdByIPCumulative b)
      /\ (if String.eqb replica EmptyString
          then cmdByReplicaCumulative b = cmdByReplicaCumulative a
          else addedAt replica lapse (cmdByReplicaCumulative a) (cmdByReplicaCumulative b))
      /\ addedAt (programKey (App cmd)) lapse
           (cmdByProgramCumulative a) (cmdByProgramCumulative b)
      /\ (forall user inner, cmdByUserDetailCumulative a !! user = Some inner ->
            exists inner', cmdByUserDetailCumulative b !! user = Some inner'
                           /\ keptOrAddedBy lapse inner inner')
  | _ =>
      cmdsProcessed b = cmdsProcessed a
      /\ cmdCumulative b = cmdCumulative a
      /\ cmduCPUCumulative b = cmduCPUCumulative a
      /\ cmdsCPUCumulative b = cmdsCPUCumulative a
      /\ cmdByUserCumulative b = cmdByUserCumulative a
      /\ cmdByIPCumulative b = cmdByIPCumulative a
      /\ cmdByReplicaCumulative b = cmdByReplicaCumulative a
      /\ cmdByProgramCumulative b = cmdByProgramCumulative a
      /\ cmdByUserDetailCumulative b = cmdByUserDetailCumulative a
  end.

(** The counter-class maps after the event [ev], where no reset takes
    place: a command increments its counts under its own keys and adds the
    durations of its table entries to the lock and trigger totals; every
    other event leaves the maps exactly as they were. *)
Definition counterMapsAfter (ToLower : string -> string) (ev : Event)
    (a b : P4DMetrics) : Prop :=
  match ev with
  | EvCmd cmd =>
      let ip := (splitIP (IP cmd)).1 in
      let replica := (splitIP (IP cmd)).2 in
      let amounts (ms : Table -> Z) := map (fun t => Float64.perThousand (ms t)) (Tables cmd) in
      incrementedAt (Cmd cmd) (cmdCounter a) (cmdCounter b)
      /\ (if CmdError cmd
          then incrementedAt (Cmd cmd) (cmdErrorCounter a) (cmdErrorCounter b)
          else cmdErrorCounter b = cmdErrorCounter a)
      /\ incrementedAt (userKey ToLower a cmd) (cmdByUserCounter a) (cmdByUserCounter b)
      /\ incrementedAt ip (cmdByIPCounter a) (cmdByIPCounter b)
      /\ (if String.eqb replica EmptyString
          then cmdByReplicaCounter b = cmdByReplicaCounter a
          else incrementedAt replica (cmdByReplicaCounter a) (cmdByReplicaCounter b))
      /\ incrementedAt (programKey (App cmd)) (cmdByProgramCounter a) (cmdByProgramCounter b)
      /\ (forall user inner, cmdByUserDetailCounter a !! user = Some inner ->
            exists inner', cmdByUserDetailCounter b !! user = Some inner'
                           /\ keptOrIncremented inner inner')
      /\ keptOrAddedFrom (amounts TotalReadWait) (totalReadWait a) (totalReadWait b)
      /\ keptOrAddedFrom (amounts TotalReadHeld) (totalReadHeld a) (totalReadHeld b)
      /\ keptOrAddedFrom (amounts TotalWriteWait) (totalWriteWait a) (totalWriteWait b)
      /\ keptOrAddedFrom (amounts TotalWriteHeld) (totalWriteHeld a) (totalWriteHeld b)
      /\ keptOrAddedFrom (map TriggerLapse (Tables cmd))
           (totalTriggerLapse a) (totalTriggerLapse b)
  | _ =>
      cmdCounter b = cmdCounter a
      /\ cmdErrorCounter b = cmdErrorCounter a
      /\ cmdByUserCounter b = cmdByUserCounter a
      /\ cmdByIPCounter b = cmdByIPCounter a
      /\ cmdByReplicaCounter b = cmdByReplicaCounter a
      /\ cmdByProgramCounter b = cmdByProgramCounter a
      /\ cmdByUserDetailCounter b = cmdByUserDetailCounter a
      /\ totalReadWait b = totalReadWait a
      /\ totalReadHeld b = totalReadHeld a
      /\ totalWriteWait b = totalWriteWait a
      /\ totalWriteHeld b = totalWriteHeld a
      /\ totalTriggerLapse b = totalTriggerLapse a
  end.

(** The counter-class scalars of [b] after the event [ev] from [a]: a
    command assigns the running gauge and adds its net sync counts, a line
    increments the lines-read count, and nothing else changes them. *)
Definition counterScalarsContinue (ev : Event) (a b : P4DMetrics) : Prop :=
  match ev with
  | EvCmd cmd =>
      cmdRunning b = Running cmd /\ linesRead b = linesRead a /\
      syncFilesAdded b = Int64.add (syncFilesAdded a) (NetFilesAdded cmd) /\
      syncFilesUpdated b = Int64.add (syncFilesUpdated a) (NetFilesUpdated cmd) /\
      syncFilesDeleted b = Int64.add (syncFilesDeleted a) (NetFilesDeleted cmd) /\
      syncBytesAdded b = Int64.add (syncBytesAdded a) (NetBytesAdded cmd) /\
      syncBytesUpdated b = Int64.add (syncBytesUpdated a) (NetBytesUpdated cmd)
  | EvLine _ =>
      cmdRunning b = cmdRunning a /\ linesRead b = Int64.add (linesRead a) 1 /\
      syncFilesAdded b = syncFilesAdded a /\ syncFilesUpdated b = syncFilesUpdated a /\
      syncFilesDeleted b = syncFilesDeleted a /\ syncBytesAdded b = syncBytesAdded a /\
      syncBytesUpdated b = syncBytesUpdated a
  | _ =>
      cmdRunning b = cmdRunning a /\ linesRead b = linesRead a /\
      syncFilesAdded b = syncFilesAdded a /\ syncFilesUpdated b = syncFilesUpdated a /\
      syncFilesDeleted b = syncFilesDeleted a /\ syncBytesAdded b = syncBytesAdded a /\
      syncBytesUpdated b = syncBytesUpdated a
  end.

(** The four per-table lock maps have the same key set. *)
Definition lockKeysAgree (p4m : P4DMetrics) : Prop :=
  dom (totalReadWait p4m) = dom (totalReadHeld p4m) /\
  dom (totalWriteWait p4m) = dom (totalReadHeld p4m) /\
  dom (totalWriteHeld p4m) = dom (totalReadHeld p4m).

(* ===================================================================== *)
(** ** The specification's wording, for comparison with the code          *)
(* ===================================================================== *)

Module Spec.

(** A column of the pattern tab YYYY/MM/DD HH:MM:SS: a literal byte or a
    decimal digit. *)
Inductive Col := Lit (c : ascii) | Dig.

Definition timestampPattern : list Col :=
  [ Lit GoStrings.tab; Dig; Dig; Dig; Dig; Lit "/"%char; Dig; Dig; Lit "/"%char;
    Dig; Dig; Lit " "%char; Dig; Dig; Lit ":"%char; Dig; Dig; Lit ":"%char;
    Dig; Dig ].

Definition isDigit (c : ascii) : bool :=
  (48 <=? GoStrings.byte c) && (GoStrings.byte c <=? 57).

Definition colMatches (col : Col) (c : ascii) : bool :=
  match col with
  | Lit l => Ascii.eqb c l
  | Dig => isDigit c
  end.

(** The leading bytes of [s] match the columns, one byte per column. *)
Fixpoint matchesAt (cols : list Col) (s : string) : bool :=
  match cols, s with
  | [], _ => true
  | _ :: _, EmptyString => false
  | col :: cols', String c s' => colMatches col c && matchesAt cols' s'
  end.

(** A line is timestamp-prefixed when it is at least 20 characters long
    and its bytes match the pattern. *)
Definition timestampPrefixed (line : string) : bool :=
  (20 <=? GoStrings.len line) && matchesAt timestampPattern line.

(** [s] without the suffix [suffix], if it ends with it. *)
Definition trimSuffix (s suffix : string) : string :=
  let n := String.length s in
  let k := String.length suffix in
  if (k <=? n)%nat && String.eqb (substring (n - k) k s) suffix
  then substring 0 (n - k) s
  else s.

(** The program key as worded: the literal suffix stripped, then the
    characters outside the allow-list replaced. *)
Definition programKey (app : string) : string :=
  GoRegexp.ReplaceAllString (trimSuffix app " (brokered)").

(** A table name starts with [trigger_]. *)
Definition isTrigger (tableName : string) : bool := String.prefix "trigger_" tableName.

(** A metric of CPU seconds, by its name. *)
Definition isCPUSeconds (mname : string) : bool :=
  match String.index 0 "cpu" mname with Some _ => true | None => false end.

(** The routing of a table entry as worded: a name that starts with
    [trigger_] adds the lapse to the trigger total under the name with
    the prefix stripped and leaves the lock totals alone; any other name
    adds to the four lock totals and leaves the trigger total alone. *)
Definition triggerRouting (p4m : P4DMetrics) (t : Table) : Prop :=
  let p4m' := recordTable p4m t in
  if isTrigger (TableName t)
  then totalTriggerLapse p4m'
         = accum (GoStrings.sliceFrom (TableName t) 8) (TriggerLapse t)
                 (totalTriggerLapse p4m)
       /\ totalReadWait p4m' = totalReadWait p4m
       /\ totalReadHeld p4m' = totalReadHeld p4m
       /\ totalWriteWait p4m' = totalWriteWait p4m
       /\ totalWriteHeld p4m' = totalWriteHeld p4m
  else totalReadWait p4m'
         = accum (TableName t) (Float64.perThousand (TotalReadWait t)) (totalReadWait p4m)
       /\ totalReadHeld p4m'
         = accum (TableName t) (Float64.perThousand (TotalReadHeld t)) (totalReadHeld p4m)
       /\ totalWriteWait p4m'
         = accum (TableName t) (Float64.perThousand (TotalWriteWait t)) (totalWriteWait p4m)
       /\ totalWriteHeld p4m'
         = accum (TableName t) (Float64.perThousand (TotalWriteHeld t)) (totalWriteHeld p4m)
       /\ totalTriggerLapse p4m' = totalTriggerLapse p4m.

(** The program aggregates after a command as worded: incremented under
    [programKey]. *)
Definition programKeyed (cmd : Command) (p4m p4m' : P4DMetrics) : Prop :=
  cmdByProgramCounter p4m' = incr (programKey (App cmd)) (cmdByProgramCounter p4m)
  /\ cmdByProgramCumulative p4m'
      = accum (programKey (App cmd)) (CompletedLapse cmd) (cmdByProgramCumulative p4m).

(** The rendering of CPU seconds as worded: every such metric at six
    decimal places. *)
Definition cpuSecondsAtSix (fams : list Family) : Prop :=
  forall f, In f fams -> isCPUSeconds (famName f) = true -> famVerb f = Verb6f.

(** The family order as worded: after the two CPU metrics come exactly
    four sync counters, then the per-command counter. *)
Definition fourSyncCounters (names : list string) : Prop :=
  exists s1 s2 s3 s4 rest,
    names = [ "p4_prom_log_lines_read"; "p4_prom_cmds_processed"; "p4_prom_cmds_pending";
              "p4_cmd_running"; "p4_prom_cpu_user"; "p4_prom_cpu_system";
              s1; s2; s3; s4; "p4_cmd_counter" ] ++ rest.

(** The live reset as worded: after every flush, that is every iteration
    that sends a snapshot, the counter-class aggregates are zero. *)
Definition resetAfterEachFlush (out : list Output) (after : P4DMetrics) : Prop :=
  (exists text, In (OutMetrics text) out) -> countersZero after.

End Spec.

(* ===================================================================== *)
(** ** Sample inputs                                                      *)
(* ===================================================================== *)

Module Sample.

(** [strings.ToLower] on ASCII input. *)
Definition lowerByte (c : ascii) : ascii :=
  let b := GoStrings.byte c in
  if (65 <=? b) && (b <=? 90) then ascii_of_nat (nat_of_ascii c + 32) else c.

Fixpoint ToLower (s : string) : string :=
  match s with
  | EmptyString => EmptyString
  | String c s' => String (lowerByte c) (ToLower s')
  end.

(** A regular-expression engine that compiles every expression to the
    test "the user name starts with [b]", enough to run the detail block. *)
Definition MustCompile (expr : string) : option (string -> bool) :=
  Some (String.prefix "b").

Definition cfg : Config :=
  {| Debug := 0; ServerID := "master.1"; SDPInstance := EmptyString;
     UpdateInterval := GoTime.Minute;
     OutputCmdsByUser := false; OutputCmdsByUserRegex := EmptyString;
     OutputCmdsByIP := false; CaseSensitiveServer := false |}.

Definition cfgDetail : Config :=
  {| Debug := 0; ServerID := "master.1"; SDPInstance := "1";
     UpdateInterval := GoTime.Minute;
     OutputCmdsByUser := true; OutputCmdsByUserRegex := "b.*";
     OutputCmdsByIP := true; CaseSensitiveServer := false |}.

Definition live : P4DMetrics := NewP4DMetricsLogParser cfg false.
Definition replay : P4DMetrics := NewP4DMetricsLogParser cfg true.

Definition probe : Probe :=
  {| userCPU := 0.25%float; systemCPU := 0.5%float; cmdsPending := 0 |}.

Definition dbTable : Table :=
  {| TableName := "db.have"; TotalReadWait := 5; TotalReadHeld := 1500;
     TotalWriteWait := 0; TotalWriteHeld := 250; TriggerLapse := 0%float |}.

Definition trigTable : Table :=
  {| TableName := "trigger_mytrig"; TotalReadWait := 0; TotalReadHeld := 0;
     TotalWriteWait := 0; TotalWriteHeld := 0; TriggerLapse := 0.5%float |}.

(** A table entry named by the bare prefix. *)
Definition barePrefixTable : Table :=
  {| TableName := "trigger_"; TotalReadWait := 0; TotalReadHeld := 2000;
     TotalWriteWait := 0; TotalWriteHeld := 0; TriggerLapse := 0.5%float |}.

Definition sync (ip app : string) (tables : list Table) : Command :=
  {| Cmd := "user-sync"; User := "Bruno"; IP := ip; App := app;
     CompletedLapse := 1.5%float; UCpu := 1500; SCpu := 250; Running := 3;
     NetFilesAdded := 2; NetFilesUpdated := 1; NetFilesDeleted := 0;
     NetBytesAdded := 1024; NetBytesUpdated := 512; CmdError := false;
     Tables := tables |}.

Definition viaRelay : Command := sync "relay1/10.0.0.5" "p4/2020.1 (brokered)" [dbTable; trigTable].
Definition direct : Command := sync "10.0.0.5" "p4/2020.1" [dbTable].
Definition brokeredInside : Command := sync "10.0.0.5" "p4 (brokered) x" [].
Definition barePrefix : Command := sync "10.0.0.5" "p4" [barePrefixTable].

Definition line (stamp rest : string) : string :=
  String GoStrings.tab (stamp +:+ rest).

Definition line1 : string := line "2024/01/01 00:00:00" " pid 1 bruno@ws 10.0.0.5 [p4] 'user-sync'".
Definition line2 : string := line "2024/01/01 00:00:02" " pid 2 bruno@ws 10.0.0.5 [p4] 'user-sync'".
Definition line3 : string := line "2024/01/01 00:05:00" " pid 3 bruno@ws 10.0.0.5 [p4] 'user-sync'".
Definition line4 : string := line "2024/01/01 00:05:03" "".

(** The loops of a live and of a replaying engine, fresh and after the
    command [viaRelay]. *)
Definition startLive : Loop :=
  {| metrics := live; needCmdChan := false; fpLinesChan := true; running := true |}.

Definition startReplay : Loop :=
  {| metrics := replay; needCmdChan := true; fpLinesChan := true; running := true |}.

Definition published (p4m : P4DMetrics) (cmd : Command) : P4DMetrics :=
  match publishEvent ToLower MustCompile p4m cmd with
  | Some p4m' => p4m'
  | None => p4m
  end.

Definition step (l : Loop) (ev : Event) : Loop * list Output :=
  match iteration ToLower MustCompile probe l ev with
  | Some r => r
  | None => (l, [])
  end.

Definition busyLive : Loop := (step startLive (EvCmd viaRelay)).1.

(** A fresh engine with the user-detail expression set. *)
Definition detailed : P4DMetrics := NewP4DMetricsLogParser cfgDetail false.

Definition ran (l : Loop) (evs : list (Probe * Event)) : Loop * list Output :=
  match run ToLower MustCompile l evs with
  | Some r => r
  | None => (l, [])
  end.

(** A replaying engine that has stored the stamp of [line1]. *)
Definition stored : P4DMetrics :=
  setLatestStartCmd replay (String GoStrings.tab "2024/01/01 00:00:00") 1704067200.

Definition line5 : string := line "2024/01/01 00:00:05" " pid 5 completed".

(** A run to the end: a command, the line channel seen closed twice, a
    tick, then the command channel closed and a late tick. *)
Definition untilLinesClosed : list (Probe * Event) := [(probe, EvCmd viaRelay)].
Definition draining : list (Probe * Event) := [(probe, EvLinesClosed); (probe, EvTick)].
Definition afterwards : list (Probe * Event) := [(probe, EvTick); (probe, EvLinesClosed)].

End Sample.

(** [s] ends with [suffix]. *)
Definition endsWith (s suffix : string) : bool :=
  let n := String.length s in
  let k := String.length suffix in
  (k <=? n)%nat && String.eqb (substring (n - k) k s) suffix.

(** The metrics printed with ["%.6f"]: the CPU time of the process. *)
Definition processCPU (mname : string) : bool :=
  String.eqb mname "p4_prom_cpu_user" || String.eqb mname "p4_prom_cpu_system".

(** The metrics printed with ["%0.3f"]: the totals in seconds. *)
Definition secondsTotal (mname : string) : bool := endsWith mname "_seconds".

Definition isInt (x : Value) : bool := match x with IntVal _ => true | _ => false end.
Definition isFloat (x : Value) : bool := match x with FloatVal _ => true | _ => false end.

(** A float that is a number: not NaN, not an infinity. *)
Definition finite (f : float) : bool :=
  match Prim2SF f with
  | S754_zero _ | S754_finite _ _ _ => true
  | _ => false
  end.

(** The verb and the kind of value of a block, by the name of its metric. *)
Definition wellFormatted (f : Family) : Prop :=
  (processCPU (famName f) = true ->
     famVerb f = Verb6f /\ Forall (fun s => isFloat s.2 = true) (famSamples f))
  /\ (secondsTotal (famName f) = true ->
        famVerb f = Verb3f /\ Forall (fun s => isFloat s.2 = true) (famSamples f))
  /\ (processCPU (famName f) = false -> secondsTotal (famName f) = false ->
        famVerb f = VerbD /\ Forall (fun s => isInt s.2 = true) (famSamples f)).

(** The closing of the forwarding queue, and a snapshot sent, among the
    outputs. *)
Definition closesLines (o : Output) : bool :=
  match o with CloseLines => true | _ => false end.

Definition isSnapshot (o : Output) : bool :=
  match o with OutMetrics _ => true | _ => false end.

(** The byte [/] does not occur in [s]. *)
Definition slashFree (s : string) : Prop := ~ In "/"%char (list_ascii_of_string s).

(** The two user-detail maps have the same users. *)
Definition detailKeysAgree (p4m : P4DMetrics) : Prop :=
  dom (cmdByUserDetailCounter p4m) = dom (cmdByUserDetailCumulative p4m).

(** The fields the loop over [cmd.Tables] never assigns. *)
Definition outsideTables (p4m : P4DMetrics) :=
  (config p4m, historical p4m, timeLatestStartCmd p4m, latestStartCmdBuf p4m,
   cmdRunning p4m, cmdCounter p4m, cmdErrorCounter p4m, cmdCumulative p4m,
   cmduCPUCumulative p4m, cmdsCPUCumulative p4m,
   cmdByUserCounter p4m, cmdByUserCumulative p4m,
   cmdByIPCounter p4m, cmdByIPCumulative p4m,
   cmdByReplicaCounter p4m, cmdByReplicaCumulative p4m,
   cmdByProgramCounter p4m, cmdByProgramCumulative p4m,
   cmdByUserDetailCounter p4m, cmdByUserDetailCumulative p4m,
   syncFilesAdded p4m, syncFilesUpdated p4m, syncFilesDeleted p4m,
   syncBytesAdded p4m, syncBytesUpdated p4m,
   cmdsProcessed p4m, linesRead p4m, outputCmdsByUserRegex p4m).

(** The fields the loop over [cmd.Tables] works on. *)
Definition tableTotals (p4m : P4DMetrics) :=
  (totalReadWait p4m, totalReadHeld p4m, totalWriteWait p4m, totalWriteHeld p4m,
   totalTriggerLapse p4m).

(* ===================================================================== *)
(** ** Vocabulary of the further properties                               *)
(* ===================================================================== *)

(** The commands and the lines among the events received, in order, and
    the ticks among them. *)
Definition cmdsOf (evs : list (Probe * Event)) : list Command :=
  flat_map (fun pe => match pe.2 with EvCmd cmd => [cmd] | _ => [] end) evs.

Definition linesOf (evs : list (Probe * Event)) : list string :=
  flat_map (fun pe => match pe.2 with EvLine line => [line] | _ => [] end) evs.

Definition isTick (pe : Probe * Event) : bool :=
  match pe.2 with EvTick => true | _ => false end.

(** The events received after the last tick. *)
Definition sinceTick (evs : list (Probe * Event)) : list (Probe * Event) :=
  fold_left (fun acc pe => if isTick pe then [] else acc ++ [pe]) evs [].

(** The lines, the commands and the times among the outputs, in order. *)
Definition outLines (out : list Output) : list string :=
  flat_map (fun o => match o with OutLine line => [line] | _ => [] end) out.

Definition outCmds (out : list Output) : list Command :=
  flat_map (fun o => match o with OutCmd cmd => [cmd] | _ => [] end) out.

Definition outTimes (out : list Output) : list GoTime.Time :=
  flat_map (fun o => match o with OutTime t => [t] | _ => [] end) out.

Definition closesOutput (o : Output) : bool :=
  match o with CloseCmdsOut | CloseMetrics => true | _ => false end.

(** The number of commands named [c]. *)
Definition named (c : string) (cmds : list Command) : nat :=
  length (List.filter (fun cmd => String.eqb (Cmd cmd) c) cmds).

(** Each counter map and the cumulative maps kept beside it have the same
    keys; an error count, a user-detail user and a user-detail command are
    only known under a key the per-command or per-user counter has too. *)
Definition pairedKeys (p4m : P4DMetrics) : Prop :=
  dom (cmdCumulative p4m) = dom (cmdCounter p4m)
  /\ dom (cmduCPUCumulative p4m) = dom (cmdCounter p4m)
  /\ dom (cmdsCPUCumulative p4m) = dom (cmdCounter p4m)
  /\ dom (cmdErrorCounter p4m) ⊆ dom (cmdCounter p4m)
  /\ dom (cmdByUserCumulative p4m) = dom (cmdByUserCounter p4m)
  /\ dom (cmdByIPCumulative p4m) = dom (cmdByIPCounter p4m)
  /\ dom (cmdByReplicaCumulative p4m) = dom (cmdByReplicaCounter p4m)
  /\ dom (cmdByProgramCumulative p4m) = dom (cmdByProgramCounter p4m)
  /\ (forall user, dom <$> (cmdByUserDetailCumulative p4m !! user)
                   = dom <$> (cmdByUserDetailCounter p4m !! user))
  /\ dom (cmdByUserDetailCounter p4m) ⊆ dom (cmdByUserCounter p4m)
  /\ (forall user inner, cmdByUserDetailCounter p4m !! user = Some inner ->
        dom inner ⊆ dom (cmdCounter p4m)).

(** The keys that become label values are well formed: a replica is not
    empty and has no [/], a program has only bytes of the allow-list, a
    trigger name is not empty, and no lock table has a trigger's name. *)
Definition labelsValid (p4m : P4DMetrics) : Prop :=
  (forall k, k ∈ dom (cmdByReplicaCounter p4m) -> k <> EmptyString /\ slashFree k)
  /\ (forall k, k ∈ dom (cmdByProgramCounter p4m) ->
        Forall (fun c => GoRegexp.allowed c = true) (list_ascii_of_string k))
  /\ (forall k, k ∈ dom (totalTriggerLapse p4m) -> k <> EmptyString)
  /\ (forall k, k ∈ dom (totalReadHeld p4m) -> isTrigger k = false).

(** The user detail follows the configured filter: with no expression
    configured nothing is compiled and the detail is empty; a compiled
    filter is the compilation of the configured expression; and every user
    of the detail matches it. *)
Definition detailFiltered (MustCompile : string -> option (string -> bool))
    (p4m : P4DMetrics) : Prop :=
  (OutputCmdsByUserRegex (config p4m) = EmptyString ->
     cmdByUserDetailCounter p4m = ∅ /\ outputCmdsByUserRegex p4m = None)
  /\ (forall re, outputCmdsByUserRegex p4m = Some re ->
        MustCompile ("(" +:+ OutputCmdsByUserRegex (config p4m) +:+ ")") = Some re)
  /\ (forall user, user ∈ dom (cmdByUserDetailCounter p4m) ->
        exists re, outputCmdsByUserRegex p4m = Some re /\ re user = true).

(** The keys the loop over the tables writes are well formed. *)
Definition tableKeysValid (p4m : P4DMetrics) : Prop :=
  (forall k, k ∈ dom (totalTriggerLapse p4m) -> k <> EmptyString)
  /\ (forall k, k ∈ dom (totalReadHeld p4m) -> isTrigger k = false).


(** Further sample loops: an engine with the user-detail expression set,
    fresh and after the command [Sample.viaRelay]. *)
Module Scenario.

Definition startDetailed : Loop :=
  {| metrics := Sample.detailed; needCmdChan := true; fpLinesChan := true; running := true |}.

Definition busyDetailed : Loop := (Sample.step startDetailed (EvCmd Sample.viaRelay)).1.

(** A replaying engine after the line [Sample.line1]. *)
Definition afterLine1 : Loop := (Sample.step Sample.startReplay (EvLine Sample.line1)).1.

End Scenario.

(** The stored boundary is consistent: nothing is stored yet (and the time
    is the zero time), or the stored prefix is 20 bytes of the pattern and
    the stored time is the parse of its stamp; outside historical mode
    nothing is ever stored. *)
Definition boundaryConsistent (p4m : P4DMetrics) : Prop :=
  ((latestStartCmdBuf p4m = EmptyString /\ timeLatestStartCmd p4m = GoTime.zeroTime)
   \/ (String.length (latestStartCmdBuf p4m) = lenPrefix
       /\ qualifies (latestStartCmdBuf p4m) = true
       /\ timeLatestStartCmd p4m
          = GoTime.Parse (GoStrings.slice (latestStartCmdBuf p4m) 1 lenPrefix)))
  /\ (historical p4m = false -> latestStartCmdBuf p4m = EmptyString).

(** The label lists of the sample lines a snapshot prints under the metric
    name [mname]. *)
Definition sampleLabels (mname : string) (pr : Probe) (p4m : P4DMetrics)
    : list (list labelStruct) :=
  flat_map (fun f => if String.eqb (famName f) mname then map fst (famSamples f) else [])
           (metricFamilies pr p4m).

(** The metrics kept side by side: a counter and the totals beside it, and
    the four lock totals. *)
Definition pairedFamilies : list (string * string) :=
  [ ("p4_cmd_counter", "p4_cmd_cumulative_seconds");
    ("p4_cmd_counter", "p4_cmd_cpu_user_cumulative_seconds");
    ("p4_cmd_counter", "p4_cmd_cpu_system_cumulative_seconds");
    ("p4_cmd_user_counter", "p4_cmd_user_cumulative_seconds");
    ("p4_cmd_ip_counter", "p4_cmd_ip_cumulative_seconds");
    ("p4_cmd_user_detail_counter", "p4_cmd_user_detail_cumulative_seconds");
    ("p4_cmd_replica_counter", "p4_cmd_replica_cumulative_seconds");
    ("p4_cmd_program_counter", "p4_cmd_program_cumulative_seconds");
    ("p4_total_read_held_seconds", "p4_total_read_wait_seconds");
    ("p4_total_read_held_seconds", "p4_total_write_wait_seconds");
    ("p4_total_read_held_seconds", "p4_total_write_held_seconds") ].

(** The command [cmd] as issued by the user [user]. *)
Definition issuedBy (user : string) (cmd : Command) : Command :=
  {| Cmd := Cmd cmd; User := user; IP := IP cmd; App := App cmd;
     CompletedLapse := CompletedLapse cmd; UCpu := UCpu cmd; SCpu := SCpu cmd;
     Running := Running cmd;
     NetFilesAdded := NetFilesAdded cmd; NetFilesUpdated := NetFilesUpdated cmd;
     NetFilesDeleted := NetFilesDeleted cmd;
     NetBytesAdded := NetBytesAdded cmd; NetBytesUpdated := NetBytesUpdated cmd;
     CmdError := CmdError cmd; Tables := Tables cmd |}.

(* ===================================================================== *)
(** * Properties                                                          *)
(* ===================================================================== *)

(** *** Maps *)

Lemma elem_of_keys {V : Type} (m : gmap string V) (k : string) :
  k ∈ keys m <-> is_Some (m !! k).
Proof.
  unfold keys. rewrite list_elem_of_fmap. split.
  - intros [[k' v] [-> Hin]]. apply elem_of_map_to_list in Hin. eauto.
  - intros [v Hv]. exists (k, v). split; [done|]. by apply elem_of_map_to_list.
Qed.

Lemma zeroKeys_lookup {V : Type} (z : V) (ks : list string) (m : gmap string V) (k : string) :
  zeroKeys z ks m !! k = if decide (k ∈ ks) then Some z else m !! k.
Proof.
  unfold zeroKeys. revert m. induction ks as [|t ks IH]; intros m; simpl.
  - destruct (decide (k ∈ [])) as [H|H]; [by apply elem_of_nil in H | done].
  - rewrite IH. destruct (decide (k ∈ ks)) as [Hin|Hnin].
    + rewrite decide_True; [done | by right].
    + destruct (decide (t = k)) as [->|Hne].
      * rewrite lookup_insert_eq. rewrite decide_True; [done | by left].
      * rewrite lookup_insert_ne by done.
        rewrite decide_False; [done|].
        intros [->|?]%elem_of_cons; congruence.
Qed.

Lemma zeroAll_lookup {V : Type} (z : V) (m : gmap string V) (k : string) :
  zeroAll z m !! k = (fun _ => z) <$> m !! k.
Proof.
  unfold zeroAll. rewrite zeroKeys_lookup.
  destruct (m !! k) as [v|] eqn:Hk.
  - rewrite decide_True; [done|]. apply elem_of_keys. eauto.
  - rewrite decide_False; [done|]. rewrite elem_of_keys, Hk. by intros [? ?].
Qed.

Lemma zeroAll_allZero {V : Type} (z : V) (m : gmap string V) : allZero z (zeroAll z m).
Proof.
  intros k v. rewrite zeroAll_lookup. destruct (m !! k); simpl; congruence.
Qed.

Lemma zeroAll_dom {V : Type} (z : V) (m : gmap string V) : dom (zeroAll z m) = dom m.
Proof.
  apply set_eq. intros k. rewrite !elem_of_dom, zeroAll_lookup.
  destruct (m !! k); simpl; split; intros [? ?]; eauto; discriminate.
Qed.

(** Zeroing under the keys of another map with the same key set zeroes
    every entry. *)
Lemma zeroKeys_same_dom {V : Type} (z : V) (m other : gmap string V) :
  dom m = dom other -> allZero z (zeroKeys z (keys other) m).
Proof.
  intros Hdom k v. rewrite zeroKeys_lookup.
  destruct (decide (k ∈ keys other)) as [Hin|Hin]; [congruence|].
  intros Hk. exfalso. apply Hin. apply elem_of_keys, elem_of_dom.
  rewrite <- Hdom. apply elem_of_dom. eauto.
Qed.

Lemma zeroKeys_dom {V : Type} (z : V) (m other : gmap string V) :
  dom m = dom other -> dom (zeroKeys z (keys other) m) = dom other.
Proof.
  intros Hdom. apply set_eq. intros k.
  rewrite elem_of_dom, zeroKeys_lookup.
  destruct (decide (k ∈ keys other)) as [Hin|Hin].
  - split; [|eauto]. intros _. apply elem_of_dom. by apply elem_of_keys.
  - rewrite <- Hdom. by rewrite elem_of_dom.
Qed.

Lemma accum_dom (k : string) (x : float) (m : gmap string float) :
  dom (accum k x m) = {[k]} ∪ dom m.
Proof. unfold accum. by rewrite dom_insert_L. Qed.

(** *** The loop over the tables *)

Lemma foldl_recordTable_outside (ts : list Table) (p4m : P4DMetrics) :
  outsideTables (foldl recordTable p4m ts) = outsideTables p4m.
Proof.
  revert p4m. induction ts as [|t ts IH]; intros p4m; simpl; [done|].
  by rewrite IH.
Qed.

Lemma recordTable_totals (a b : P4DMetrics) (t : Table) :
  tableTotals a = tableTotals b ->
  tableTotals (recordTable a t) = tableTotals (recordTable b t).
Proof.
  unfold tableTotals. intros [= H1 H2 H3 H4 H5]. simpl. by rewrite H1, H2, H3, H4, H5.
Qed.

Lemma foldl_recordTable_totals (ts : list Table) (a b : P4DMetrics) :
  tableTotals a = tableTotals b ->
  tableTotals (foldl recordTable a ts) = tableTotals (foldl recordTable b ts).
Proof.
  revert a b. induction ts as [|t ts IH]; intros a b H; simpl; [done|].
  by apply IH, recordTable_totals.
Qed.

Lemma lockKeysAgree_totals (a b : P4DMetrics) :
  tableTotals a = tableTotals b -> lockKeysAgree a -> lockKeysAgree b.
Proof.
  unfold tableTotals, lockKeysAgree. intros [= H1 H2 H3 H4 H5].
  by rewrite H1, H2, H3, H4.
Qed.

(** A table entry is inserted into all four lock maps or into none. *)
Lemma recordTable_lock_doms (p4m : P4DMetrics) (t : Table) :
  let p4m' := recordTable p4m t in
  let added (d : gset string) : gset string :=
    if isTrigger (TableName t) then d else {[TableName t]} ∪ d in
  dom (totalReadWait p4m') = added (dom (totalReadWait p4m)) /\
  dom (totalReadHeld p4m') = added (dom (totalReadHeld p4m)) /\
  dom (totalWriteWait p4m') = added (dom (totalWriteWait p4m)) /\
  dom (totalWriteHeld p4m') = added (dom (totalWriteHeld p4m)).
Proof.
  simpl. destruct (isTrigger (TableName t)); [done|].
  by rewrite !accum_dom.
Qed.

Lemma recordTable_lockKeysAgree (p4m : P4DMetrics) (t : Table) :
  lockKeysAgree p4m -> lockKeysAgree (recordTable p4m t).
Proof.
  intros (H1 & H2 & H3).
  destruct (recordTable_lock_doms p4m t) as (E1 & E2 & E3 & E4).
  unfold lockKeysAgree. rewrite E1, E2, E3, E4.
  destruct (isTrigger (TableName t)); [done|]. by rewrite H1, H2, H3.
Qed.

Lemma foldl_recordTable_lockKeysAgree (ts : list Table) (p4m : P4DMetrics) :
  lockKeysAgree p4m -> lockKeysAgree (foldl recordTable p4m ts).
Proof.
  revert p4m. induction ts as [|t ts IH]; intros p4m H; simpl; [done|].
  by apply IH, recordTable_lockKeysAgree.
Qed.

(** *** Inversion of [publishEvent] *)

Ltac publish_inv H :=
  unfold publishEvent in H;
  match type of H with
  | context [userDetail ?mc ?m ?u ?c] =>
      let re := fresh "re" in let dc := fresh "dc" in let dcum := fresh "dcum" in
      let Hud := fresh "Hdetail" in
      destruct (userDetail mc m u c) as [[[re dc] dcum]|] eqn:Hud;
      simpl in H; [|discriminate H]
  end;
  match type of H with
  | context [splitIP ?a] =>
      let ip := fresh "ip" in let replica := fresh "replica" in
      let Hs := fresh "Hsplit" in
      destruct (splitIP a) as [ip replica] eqn:Hs
  end;
  injection H as H; symmetry in H.

Lemma publishEvent_totals ToLower MustCompile (p4m p4m' : P4DMetrics) (cmd : Command) :
  publishEvent ToLower MustCompile p4m cmd = Some p4m' ->
  tableTotals p4m' = tableTotals (foldl recordTable p4m (Tables cmd)).
Proof.
  intros H. publish_inv H. subst p4m'.
  by apply foldl_recordTable_totals.
Qed.

Lemma publishEvent_lockKeysAgree ToLower MustCompile (p4m p4m' : P4DMetrics) (cmd : Command) :
  publishEvent ToLower MustCompile p4m cmd = Some p4m' ->
  lockKeysAgree p4m -> lockKeysAgree p4m'.
Proof.
  intros H Hinv. apply publishEvent_totals in H.
  eapply lockKeysAgree_totals; [symmetry; exact H|].
  by apply foldl_recordTable_lockKeysAgree.
Qed.

Lemma resetToZero_lockKeysAgree (p4m : P4DMetrics) :
  lockKeysAgree p4m -> lockKeysAgree (resetToZero p4m).
Proof.
  intros (H1 & H2 & H3). unfold lockKeysAgree; simpl.
  by rewrite !zeroKeys_dom.
Qed.

Lemma historicalUpdateRequired_totals (p4m : P4DMetrics) (line : string) :
  tableTotals (after (historicalUpdateRequired p4m line)) = tableTotals p4m.
Proof.
  unfold historicalUpdateRequired.
  repeat match goal with |- context [if ?b then _ else _] => destruct b end; done.
Qed.

Lemma iteration_lockKeysAgree ToLower MustCompile pr (l l' : Loop) ev out :
  iteration ToLower MustCompile pr l ev = Some (l', out) ->
  lockKeysAgree (metrics l) -> lockKeysAgree (metrics l').
Proof.
  intros H Hinv. destruct ev; simpl in H.
  - by injection H as <- _.
  - destruct (historical (metrics l)); injection H as <- _; simpl; [done|].
    by apply resetToZero_lockKeysAgree.
  - destruct (publishEvent _ _ _ _) as [p4m'|] eqn:Hp; simpl in H; [|done].
    injection H as <- _. simpl.
    eapply publishEvent_lockKeysAgree; [exact Hp|]. exact Hinv.
  - by injection H as <- _.
  - destruct (fpLinesChan l); [|done]. injection H as <- _. simpl.
    destruct (historical (metrics l)) eqn:Hh; simpl.
    + eapply lockKeysAgree_totals;
        [symmetry; apply historicalUpdateRequired_totals|]. exact Hinv.
    + exact Hinv.
  - destruct (fpLinesChan l); by injection H as <- _.
Qed.

Lemma reachable_lockKeysAgree ToLower MustCompile (l : Loop) :
  reachable ToLower MustCompile l -> lockKeysAgree (metrics l).
Proof.
  induction 1 as [cfg hist needCmd l Hstart | l pr ev l' out _ IH _ Hit].
  - unfold ProcessEvents in Hstart.
    destruct (_ <=? _); [done|]. injection Hstart as <-. done.
  - eapply iteration_lockKeysAgree; eauto.
Qed.

(** *** resetToZero *)

Lemma resetToZero_countersZero (p4m : P4DMetrics) :
  lockKeysAgree p4m -> countersZero (resetToZero p4m).
Proof.
  intros (H1 & H2 & H3). unfold countersZero; simpl.
  repeat split; try apply zeroAll_allZero; try (by apply zeroKeys_same_dom).
  intros user inner. rewrite lookup_fmap.
  destruct (cmdByUserDetailCounter p4m !! user) as [i|]; simpl; [|done].
  intros [= <-]. apply zeroAll_allZero.
Qed.

(** C10: in every reachable state the four per-table lock maps have the
    same key set, since the loop body of [publishEvent] inserts a table name
    into all four maps or into none; hence [resetToZero], which ranges over
    the keys of [totalReadHeld] only, leaves every entry of all four lock
    maps at zero. *)
Theorem lock_maps_share_keys ToLower MustCompile (l : Loop) :
  reachable ToLower MustCompile l ->
  lockKeysAgree (metrics l)
  /\ (forall t : Table,
        let p4m' := recordTable (metrics l) t in
        let added (d : gset string) : gset string :=
          if isTrigger (TableName t) then d else {[TableName t]} ∪ d in
        dom (totalReadWait p4m') = added (dom (totalReadWait (metrics l))) /\
        dom (totalReadHeld p4m') = added (dom (totalReadHeld (metrics l))) /\
        dom (totalWriteWait p4m') = added (dom (totalWriteWait (metrics l))) /\
        dom (totalWriteHeld p4m') = added (dom (totalWriteHeld (metrics l))))
  /\ allZero Float64.zero (totalReadWait (resetToZero (metrics l)))
  /\ allZero Float64.zero (totalReadHeld (resetToZero (metrics l)))
  /\ allZero Float64.zero (totalWriteWait (resetToZero (metrics l)))
  /\ allZero Float64.zero (totalWriteHeld (resetToZero (metrics l)))
  /\ lockKeysAgree (resetToZero (metrics l)).
Proof.
  intros Hr. pose proof (reachable_lockKeysAgree _ _ _ Hr) as Hinv.
  split; [exact Hinv|]. split; [intros t; apply recordTable_lock_doms|].
  pose proof (resetToZero_countersZero _ Hinv) as Hz.
  unfold countersZero in Hz.
  destruct Hz as (_ & _ & _ & _ & _ & _ & _ & _ & _ & _ & _ & _ & _ & _ & Z1 & Z2 & Z3 & Z4 & _).
  repeat split; try assumption; apply (resetToZero_lockKeysAgree _ Hinv).
Qed.

(** *** Entries kept, incremented or added to *)

Lemma incr_incrementedAt (k : string) (m : gmap string Z) : incrementedAt k m (incr k m).
Proof.
  unfold incrementedAt, incr. split; [by rewrite lookup_insert_eq|].
  intros j Hj. by rewrite lookup_insert_ne.
Qed.

Lemma accum_addedAt (k : string) (x : float) (m : gmap string float) :
  addedAt k x m (accum k x m).
Proof.
  unfold addedAt, accum. split; [by rewrite lookup_insert_eq|].
  intros j Hj. by rewrite lookup_insert_ne.
Qed.

Lemma keptOrIncremented_refl (m : gmap string Z) : keptOrIncremented m m.
Proof. intros k v H. by left. Qed.

Lemma keptOrIncremented_incr (k : string) (m : gmap string Z) :
  keptOrIncremented m (incr k m).
Proof.
  intros j v H. unfold incr. destruct (decide (k = j)) as [->|Hne].
  - right. by rewrite lookup_insert_eq, H.
  - left. by rewrite lookup_insert_ne.
Qed.

Lemma keptOrAddedBy_refl (x : float) (m : gmap string float) : keptOrAddedBy x m m.
Proof. intros k v H. by left. Qed.

Lemma keptOrAddedBy_accum (k : string) (x : float) (m : gmap string float) :
  keptOrAddedBy x m (accum k x m).
Proof.
  intros j v H. unfold accum. destruct (decide (k = j)) as [->|Hne].
  - right. by rewrite lookup_insert_eq, H.
  - left. by rewrite lookup_insert_ne.
Qed.

Lemma keptOrAddedFrom_nil (m : gmap string float) : keptOrAddedFrom [] m m.
Proof. intros k v H. exists v. split; [done | constructor]. Qed.

Lemma keptOrAddedFrom_cons (x : float) (xs : list float) (a b c : gmap string float) :
  keptOrAddedBy x a b -> keptOrAddedFrom xs b c -> keptOrAddedFrom (x :: xs) a c.
Proof.
  intros Hab Hbc k v H. destruct (Hab k v H) as [Hb | Hb];
    destruct (Hbc k _ Hb) as (w & Hw & Hadd); exists w; (split; [done|]).
  - by apply addedFrom_skip.
  - by apply addedFrom_take.
Qed.

(** One table entry adds its own durations, or nothing, to each total. *)
Lemma recordTable_keptOrAddedBy (p4m : P4DMetrics) (t : Table) :
  keptOrAddedBy (Float64.perThousand (TotalReadWait t))
    (totalReadWait p4m) (totalReadWait (recordTable p4m t))
  /\ keptOrAddedBy (Float64.perThousand (TotalReadHeld t))
       (totalReadHeld p4m) (totalReadHeld (recordTable p4m t))
  /\ keptOrAddedBy (Float64.perThousand (TotalWriteWait t))
       (totalWriteWait p4m) (totalWriteWait (recordTable p4m t))
  /\ keptOrAddedBy (Float64.perThousand (TotalWriteHeld t))
       (totalWriteHeld p4m) (totalWriteHeld (recordTable p4m t))
  /\ keptOrAddedBy (TriggerLapse t)
       (totalTriggerLapse p4m) (totalTriggerLapse (recordTable p4m t)).
Proof.
  simpl. destruct (isTrigger (TableName t));
    repeat split; (apply keptOrAddedBy_refl || apply keptOrAddedBy_accum).
Qed.

Lemma foldl_recordTable_keptOrAddedFrom (ts : list Table) (p4m : P4DMetrics) :
  keptOrAddedFrom (map (fun t => Float64.perThousand (TotalReadWait t)) ts)
    (totalReadWait p4m) (totalReadWait (foldl recordTable p4m ts))
  /\ keptOrAddedFrom (map (fun t => Float64.perThousand (TotalReadHeld t)) ts)
       (totalReadHeld p4m) (totalReadHeld (foldl recordTable p4m ts))
  /\ keptOrAddedFrom (map (fun t => Float64.perThousand (TotalWriteWait t)) ts)
       (totalWriteWait p4m) (totalWriteWait (foldl recordTable p4m ts))
  /\ keptOrAddedFrom (map (fun t => Float64.perThousand (TotalWriteHeld t)) ts)
       (totalWriteHeld p4m) (totalWriteHeld (foldl recordTable p4m ts))
  /\ keptOrAddedFrom (map TriggerLapse ts)
       (totalTriggerLapse p4m) (totalTriggerLapse (foldl recordTable p4m ts)).
Proof.
  revert p4m. induction ts as [|t ts IH]; intros p4m.
  - repeat split; apply keptOrAddedFrom_nil.
  - destruct (recordTable_keptOrAddedBy p4m t) as (A1 & A2 & A3 & A4 & A5).
    destruct (IH (recordTable p4m t)) as (B1 & B2 & B3 & B4 & B5).
    cbn [foldl map].
    repeat split; eapply keptOrAddedFrom_cons; eassumption.
Qed.

(** *** The user-detail block *)

Lemma userDetail_after MustCompile (p4m : P4DMetrics) user cmd re dc dcum :
  detailKeysAgree p4m ->
  userDetail MustCompile p4m user cmd = Some (re, dc, dcum) ->
  dom dc = dom dcum
  /\ (forall u inner, cmdByUserDetailCounter p4m !! u = Some inner ->
        exists inner', dc !! u = Some inner' /\ keptOrIncremented inner inner')
  /\ (forall u inner, cmdByUserDetailCumulative p4m !! u = Some inner ->
        exists inner', dcum !! u = Some inner'
                       /\ keptOrAddedBy (CompletedLapse cmd) inner inner').
Proof.
  unfold detailKeysAgree, userDetail. intros Hdom H.
  assert (Hsame : dom (cmdByUserDetailCounter p4m) = dom (cmdByUserDetailCumulative p4m)
                  /\ (forall u inner, cmdByUserDetailCounter p4m !! u = Some inner ->
                        exists inner', cmdByUserDetailCounter p4m !! u = Some inner'
                                       /\ keptOrIncremented inner inner')
                  /\ (forall u inner, cmdByUserDetailCumulative p4m !! u = Some inner ->
                        exists inner', cmdByUserDetailCumulative p4m !! u = Some inner'
                                       /\ keptOrAddedBy (CompletedLapse cmd) inner inner')).
  { split; [done|]. split; intros u inner Hu; exists inner;
      (split; [done|]); [apply keptOrIncremented_refl | apply keptOrAddedBy_refl]. }
  destruct (String.eqb _ _); [by injection H as <- <- <-|].
  destruct (match outputCmdsByUserRegex p4m with
            | Some re0 => Some re0 | None => MustCompile _ end) as [re0|]; simpl in H; [|done].
  destruct (re0 user); [|by injection H as <- <- <-].
  destruct (cmdByUserDetailCounter p4m !! user) as [counts|] eqn:Hc.
  - rewrite Hc in H. simpl in H.
    destruct (cmdByUserDetailCumulative p4m !! user) as [totals|] eqn:Ht; simpl in H; [|done].
    injection H as <- <- <-. split; [|split].
    + rewrite !dom_insert_L. by rewrite Hdom.
    + intros u inner Hu. destruct (decide (user = u)) as [->|Hne].
      * rewrite lookup_insert_eq. eexists; split; [done|].
        rewrite Hc in Hu. injection Hu as <-. apply keptOrIncremented_incr.
      * rewrite lookup_insert_ne by done. exists inner. split; [done|].
        apply keptOrIncremented_refl.
    + intros u inner Hu. destruct (decide (user = u)) as [->|Hne].
      * rewrite lookup_insert_eq. eexists; split; [done|].
        rewrite Ht in Hu. injection Hu as <-. apply keptOrAddedBy_accum.
      * rewrite lookup_insert_ne by done. exists inner. split; [done|].
        apply keptOrAddedBy_refl.
  - assert (Ht : cmdByUserDetailCumulative p4m !! user = None).
    { apply not_elem_of_dom. rewrite <- Hdom. by apply not_elem_of_dom. }
    rewrite !lookup_insert_eq in H. simpl in H.
    injection H as <- <- <-. split; [|split].
    + rewrite !dom_insert_L. by rewrite Hdom.
    + intros u inner Hu. destruct (decide (user = u)) as [->|Hne]; [congruence|].
      rewrite !lookup_insert_ne by done. exists inner. split; [done|].
      apply keptOrIncremented_refl.
    + intros u inner Hu. destruct (decide (user = u)) as [->|Hne]; [congruence|].
      rewrite !lookup_insert_ne by done. exists inner. split; [done|].
      apply keptOrAddedBy_refl.
Qed.

(** *** publishEvent: the exact effect of a command *)

Ltac frame_tables :=
  match goal with
  | H : ?m = foldl recordTable ?base ?ts |- _ =>
      let Hf := fresh "Hframe" in
      pose proof (foldl_recordTable_outside ts base) as Hf;
      rewrite <- H in Hf; unfold outsideTables in Hf; simpl in Hf;
      injection Hf as ?F ?F ?F ?F ?F ?F ?F ?F ?F ?F ?F ?F ?F ?F ?F ?F ?F ?F ?F ?F
                      ?F ?F ?F ?F ?F ?F ?F ?F
  end.

Lemma publishEvent_after ToLower MustCompile (p4m p4m' : P4DMetrics) (cmd : Command) :
  detailKeysAgree p4m ->
  publishEvent ToLower MustCompile (countCmd p4m) cmd = Some p4m' ->
  detailKeysAgree p4m'
  /\ cumulativesAfter ToLower (EvCmd cmd) p4m p4m'
  /\ counterMapsAfter ToLower (EvCmd cmd) p4m p4m'
  /\ counterScalarsContinue (EvCmd cmd) p4m p4m'
  /\ config p4m' = config p4m /\ historical p4m' = historical p4m.
Proof.
  intros Hkeys H.
  assert (Hkeys' : detailKeysAgree (countCmd p4m)) by exact Hkeys.
  unfold cumulativesAfter, counterMapsAfter, userKey. cbv zeta.
  publish_inv H.
  destruct (userDetail_after _ _ _ _ _ _ _ Hkeys' Hdetail) as (Hd & Hdc & Hdcum).
  pose proof (foldl_recordTable_keptOrAddedFrom (Tables cmd) (countCmd p4m)) as Htot.
  match type of H with _ = foldl recordTable ?base _ =>
    pose proof (foldl_recordTable_totals (Tables cmd) (countCmd p4m) base eq_refl) as Ht end.
  rewrite <- H in Ht. unfold tableTotals in Ht.
  injection Ht as T1 T2 T3 T4 T5.
  rewrite T1, T2, T3, T4, T5 in Htot. simpl in Htot.
  destruct Htot as (A1 & A2 & A3 & A4 & A5).
  frame_tables. simpl in *.
  unfold detailKeysAgree, counterScalarsContinue.
  repeat match goal with Hx : _ p4m' = _ |- _ => rewrite Hx; clear Hx end.
  destruct (CmdError cmd); destruct (String.eqb replica "");
    repeat split; try assumption; try reflexivity;
    first [ apply accum_addedAt | apply incr_incrementedAt ].
Qed.

(** *** One iteration of the loop *)

Lemma historicalUpdateRequired_after (p4m : P4DMetrics) (line : string) :
  after (historicalUpdateRequired p4m line) = p4m
  \/ exists buf t, after (historicalUpdateRequired p4m line) = setLatestStartCmd p4m buf t.
Proof.
  unfold historicalUpdateRequired.
  repeat match goal with |- context [if ?b then _ else _] => destruct b end;
    simpl; eauto.
Qed.

Lemma iteration_after ToLower MustCompile pr (l l' : Loop) ev out :
  detailKeysAgree (metrics l) ->
  iteration ToLower MustCompile pr l ev = Some (l', out) ->
  detailKeysAgree (metrics l')
  /\ historical (metrics l') = historical (metrics l)
  /\ cumulativesAfter ToLower ev (metrics l) (metrics l')
  /\ (historical (metrics l) = true \/ ev <> EvTick ->
        counterMapsAfter ToLower ev (metrics l) (metrics l')
        /\ counterScalarsContinue ev (metrics l) (metrics l')).
Proof.
  intros Hkeys H. destruct ev; simpl in H.
  - injection H as <- _. simpl. by repeat split.
  - destruct (historical (metrics l)) eqn:Hh; injection H as <- _; simpl.
    + rewrite Hh. by repeat split.
    + split; [unfold detailKeysAgree in *; simpl; by rewrite dom_fmap_L|].
      split; [done|]. split; [by repeat split|]. by intros [?|?].
  - destruct (publishEvent _ _ _ _) as [p4m'|] eqn:Hp; simpl in H; [|done].
    injection H as <- _. simpl.
    apply publishEvent_after in Hp; [|exact Hkeys].
    destruct Hp as (K & C & M & S & _ & Hh).
    split; [done|]. split; [done|]. split; [done|]. by intros _.
  - injection H as <- _. simpl. by repeat split.
  - destruct (fpLinesChan l); [|done]. injection H as <- _. simpl.
    destruct (historical (metrics l)) eqn:Hh; simpl.
    + destruct (historicalUpdateRequired_after (countLine (metrics l)) line)
        as [-> | (buf & t & ->)]; simpl; rewrite ?Hh; by repeat split.
    + rewrite Hh. by repeat split.
  - destruct (fpLinesChan l); injection H as <- _; simpl; by repeat split.
Qed.

Lemma reachable_detailKeysAgree ToLower MustCompile (l : Loop) :
  reachable ToLower MustCompile l -> detailKeysAgree (metrics l).
Proof.
  induction 1 as [cfg hist needCmd l Hstart | l pr ev l' out _ IH _ Hit].
  - unfold ProcessEvents in Hstart.
    destruct (_ <=? _); [done|]. injection Hstart as <-. done.
  - by eapply iteration_after.
Qed.

(** C1, as worded, fails: the snapshot sent when the command channel closes
    is a flush in live mode too, and no reset follows it; the loop returns
    with the counters as they were. *)
Lemma final_flush_resets_nothing :
  historical (metrics Sample.busyLive) = false
  /\ iteration Sample.ToLower Sample.MustCompile Sample.probe Sample.busyLive EvCmdsClosed
     = Some (Sample.step Sample.busyLive EvCmdsClosed)
  /\ (Sample.step Sample.busyLive EvCmdsClosed).2
     = [OutMetrics (getCumulativeMetrics Sample.probe (metrics Sample.busyLive));
        CloseMetrics]
  /\ cmdCounter (metrics (Sample.step Sample.busyLive EvCmdsClosed).1) !! "user-sync"
     = Some 1
  /\ ~ Spec.resetAfterEachFlush (Sample.step Sample.busyLive EvCmdsClosed).2
         (metrics (Sample.step Sample.busyLive EvCmdsClosed).1).
Proof.
  assert (Hout : (Sample.step Sample.busyLive EvCmdsClosed).2
                 = [OutMetrics (getCumulativeMetrics Sample.probe (metrics Sample.busyLive));
                    CloseMetrics]) by (by vm_compute).
  assert (Hcount : cmdCounter (metrics (Sample.step Sample.busyLive EvCmdsClosed).1)
                     !! "user-sync" = Some 1) by (by vm_compute).
  split; [by vm_compute|]. split; [by vm_compute|]. split; [exact Hout|].
  split; [exact Hcount|].
  unfold Spec.resetAfterEachFlush. rewrite Hout. intros Hreset.
  assert (Hzero : countersZero (metrics (Sample.step Sample.busyLive EvCmdsClosed).1)).
  { apply Hreset. eexists. left. reflexivity. }
  destruct Hzero as (Hcmd & _).
  specialize (Hcmd "user-sync"%string 1 Hcount). discriminate Hcmd.
Qed.

(** C1, amended: at a tick in live mode the snapshot of the current state is
    sent and every counter-class aggregate is then zero, while the final
    snapshot, sent when the command channel closes, is followed by no reset.
    The cumulative-seconds aggregates and the total-processed count are
    never reset: a command adds one to the count and its own amounts under
    its own keys, and every other event, the tick with its reset included,
    leaves them exactly as they were.  Outside a live tick no counter-class
    aggregate is reset either: a command increments its counts, assigns the
    running gauge and adds the durations of its table entries, a line
    increments the lines-read count, and nothing else changes; in
    historical mode a tick does nothing at all. *)
Theorem reset_by_class ToLower MustCompile pr (l l' : Loop) (ev : Event) out :
  reachable ToLower MustCompile l ->
  iteration ToLower MustCompile pr l ev = Some (l', out) ->
  (historical (metrics l) = false -> ev = EvTick ->
     out = [OutMetrics (getCumulativeMetrics pr (metrics l))]
     /\ metrics l' = resetToZero (metrics l)
     /\ countersZero (metrics l'))
  /\ (ev = EvCmdsClosed ->
     out = OutMetrics (getCumulativeMetrics pr (metrics l)) :: deferred l
     /\ metrics l' = metrics l
     /\ running l' = false)
  /\ cumulativesAfter ToLower ev (metrics l) (metrics l')
  /\ historical (metrics l') = historical (metrics l)
  /\ (historical (metrics l) = true \/ ev <> EvTick ->
        counterMapsAfter ToLower ev (metrics l) (metrics l')
        /\ counterScalarsContinue ev (metrics l) (metrics l'))
  /\ (historical (metrics l) = true -> ev = EvTick -> l' = l /\ out = []).
Proof.
  intros Hr H.
  pose proof (reachable_detailKeysAgree _ _ _ Hr) as Hkeys.
  pose proof (reachable_lockKeysAgree _ _ _ Hr) as Hlock.
  destruct (iteration_after _ _ _ _ _ _ _ Hkeys H) as (_ & Hh & Hc & Hcount).
  split; [|split; [|split; [exact Hc|split; [exact Hh|split; [exact Hcount|]]]]].
  - intros Hlive ->. simpl in H. rewrite Hlive in H. simpl in H.
    injection H as <- <-. simpl. split; [done|]. split; [done|].
    by apply resetToZero_countersZero.
  - intros ->. simpl in H. by injection H as <- <-.
  - intros Hm ->. simpl in H. rewrite Hm in H. simpl in H. by injection H as <- <-.
Qed.

(** *** The loop over a sequence of events *)

Lemma run_returned ToLower MustCompile (l : Loop) evs :
  running l = false -> run ToLower MustCompile l evs = Some (l, []).
Proof. intros H. destruct evs as [|[pr ev] rest]; simpl; [done|]. by rewrite H. Qed.

Lemma run_app ToLower MustCompile (l : Loop) evs1 evs2 :
  run ToLower MustCompile l (evs1 ++ evs2) =
  match run ToLower MustCompile l evs1 with
  | Some (l1, out1) =>
      match run ToLower MustCompile l1 evs2 with
      | Some (l2, out2) => Some (l2, out1 ++ out2)
      | None => None
      end
  | None => None
  end.
Proof.
  revert l. induction evs1 as [|[pr ev] rest IH]; intros l; simpl.
  - by destruct (run _ _ l evs2) as [[l2 out2]|].
  - destruct (running l) eqn:Hrun.
    + destruct (iteration _ _ pr l ev) as [[l1 out1]|]; [|done].
      rewrite IH. destruct (run _ _ l1 rest) as [[l2 out2]|]; [|done].
      destruct (run _ _ l2 evs2) as [[l3 out3]|]; [|done].
      by rewrite app_assoc.
    + by rewrite run_returned.
Qed.

(** What an iteration does to the loop's own fields. *)
Lemma iteration_loop ToLower MustCompile pr (l l' : Loop) ev out :
  iteration ToLower MustCompile pr l ev = Some (l', out) ->
  needCmdChan l' = needCmdChan l
  /\ (running l' = true -> running l = true)
  /\ (fpLinesChan l' = true -> fpLinesChan l = true)
  /\ (ev = EvLinesClosed -> fpLinesChan l' = false)
  /\ length (List.filter closesLines out)
     = if fpLinesChan l && negb (fpLinesChan l') then 1%nat else 0%nat.
Proof.
  intros H. destruct ev; simpl in H.
  - injection H as <- <-. simpl. unfold deferred.
    destruct (needCmdChan l), (fpLinesChan l); simpl; by repeat split.
  - destruct (negb _); injection H as <- <-; simpl;
      destruct (fpLinesChan l); simpl; by repeat split.
  - destruct (publishEvent _ _ _ _) as [p4m'|]; simpl in H; [|done].
    injection H as <- <-. simpl.
    destruct (needCmdChan l), (fpLinesChan l); simpl; by repeat split.
  - injection H as <- <-. simpl. unfold deferred.
    destruct (needCmdChan l), (fpLinesChan l); simpl; by repeat split.
  - destruct (fpLinesChan l) eqn:Hfp; [|done]. injection H as <- <-. simpl.
    rewrite Hfp. simpl.
    destruct (notified _), (required _); simpl; by repeat split.
  - destruct (fpLinesChan l) eqn:Hfp; injection H as <- <-; simpl;
      rewrite ?Hfp; by repeat split.
Qed.

Lemma run_loop ToLower MustCompile (l l' : Loop) evs out :
  run ToLower MustCompile l evs = Some (l', out) ->
  needCmdChan l' = needCmdChan l
  /\ (running l' = true -> running l = true)
  /\ (fpLinesChan l' = true -> fpLinesChan l = true)
  /\ length (List.filter closesLines out)
     = if fpLinesChan l && negb (fpLinesChan l') then 1%nat else 0%nat.
Proof.
  revert l out. induction evs as [|[pr ev] rest IH]; intros l out H; simpl in H.
  - injection H as <- <-. simpl. destruct (fpLinesChan l); by repeat split.
  - destruct (running l) eqn:Hrun.
    + destruct (iteration _ _ pr l ev) as [[l1 out1]|] eqn:Hit; [|done].
      destruct (run _ _ l1 rest) as [[l2 out2]|] eqn:Hrest; [|done].
      injection H as <- <-.
      destruct (iteration_loop _ _ _ _ _ _ _ Hit) as (N1 & R1 & F1 & _ & C1).
      destruct (IH _ _ Hrest) as (N2 & R2 & F2 & C2).
      split; [congruence|]. split; [done|]. split; [tauto|].
      rewrite List.filter_app, length_app, C1, C2.
      destruct (fpLinesChan l), (fpLinesChan l1), (fpLinesChan l2); simpl; try done.
      * discriminate (F2 eq_refl).
      * discriminate (F1 eq_refl).
    + injection H as <- <-. simpl.
      destruct (fpLinesChan l); repeat split; try done; congruence.
Qed.

(** C3: once the loop has seen the line channel closed (closing the
    forwarding queue, once in the whole run) and then sees the command
    channel closed while still running, it sends one final snapshot of the
    current state, in either mode, closes its output channels and returns;
    whatever events follow, nothing more is sent. *)
Theorem final_snapshot_once ToLower MustCompile (p4m : P4DMetrics) (needCmd : bool)
    (l0 l1 : Loop) pre mid post prL pr out1 :
  ProcessEvents p4m needCmd = Some l0 ->
  run ToLower MustCompile l0 (pre ++ (prL, EvLinesClosed) :: mid) = Some (l1, out1) ->
  running l1 = true ->
  run ToLower MustCompile l0
      ((pre ++ (prL, EvLinesClosed) :: mid) ++ (pr, EvCmdsClosed) :: post)
  = Some (returns l1,
          out1 ++ [OutMetrics (getCumulativeMetrics pr (metrics l1))]
               ++ (if needCmd then [CloseCmdsOut] else []) ++ [CloseMetrics])
  /\ length (List.filter closesLines out1) = 1%nat
  /\ running (returns l1) = false
  /\ forall more, run ToLower MustCompile (returns l1) more = Some (returns l1, []).
Proof.
  intros Hstart Hrun Hrunning.
  assert (Hl0 : fpLinesChan l0 = true /\ needCmdChan l0 = needCmd).
  { unfold ProcessEvents in Hstart. destruct (_ <=? _); [done|].
    by injection Hstart as <-. }
  destruct Hl0 as [Hfp0 Hneed0].
  destruct (run_loop _ _ _ _ _ _ Hrun) as (Hneed & _ & _ & Hcount).
  assert (Hfp1 : fpLinesChan l1 = false).
  { rewrite run_app in Hrun.
    destruct (run _ _ l0 pre) as [[la oa]|] eqn:Hpre; [|done].
    destruct (run _ _ la _) as [[lb ob]|] eqn:Hmid; [|done].
    injection Hrun as -> <-.
    destruct (run_loop _ _ _ _ _ _ Hmid) as (_ & Hra & _ & _).
    simpl in Hmid. rewrite (Hra Hrunning) in Hmid.
    destruct (fpLinesChan la) eqn:Hfpa;
      (destruct (run _ _ _ mid) as [[ld od]|] eqn:Hrest; [|done]);
      injection Hmid as -> <-;
      destruct (run_loop _ _ _ _ _ _ Hrest) as (_ & _ & Hmono & _);
      simpl in Hmono; (destruct (fpLinesChan l1); [|done]);
      specialize (Hmono eq_refl); congruence. }
  split; [|split; [|split]].
  - rewrite run_app, Hrun. simpl. rewrite Hrunning.
    rewrite run_returned by done. unfold deferred. rewrite Hneed, Hneed0.
    by rewrite app_nil_r.
  - by rewrite Hcount, Hfp0, Hfp1.
  - done.
  - intros more. by apply run_returned.
Qed.


(** *** The boundary detector *)

Lemma len_nonneg (s : string) : 0 <= GoStrings.len s.
Proof. unfold GoStrings.len. lia. Qed.

Lemma digit_check (c : ascii) :
  (GoStrings.byte c <? 48) || (57 <? GoStrings.byte c) = negb (Spec.isDigit c).
Proof.
  unfold Spec.isDigit. by rewrite negb_andb, !Z.ltb_antisym.
Qed.

(** The guards of the detector accept exactly the lines of the pattern. *)
Lemma qualifies_spec (line : string) : qualifies line = Spec.timestampPrefixed line.
Proof.
  unfold qualifies, Spec.timestampPrefixed.
  do 20 (destruct line as [|? line]; [reflexivity|]).
  match goal with |- context [GoStrings.len ?s] =>
    replace (GoStrings.len s) with (20 + GoStrings.len line)
      by (unfold GoStrings.len; simpl String.length; lia) end.
  pose proof (len_nonneg line) as Hn.
  replace (20 + GoStrings.len line <? Z.of_nat lenPrefix) with false
    by (symmetry; apply Z.ltb_ge; unfold lenPrefix; lia).
  replace (20 <=? 20 + GoStrings.len line) with true
    by (symmetry; apply Z.leb_le; lia).
  unfold wrongSeparators, wrongDigits, digitColumns.
  cbn [existsb GoStrings.at_ String.get Spec.matchesAt Spec.timestampPattern
       Spec.colMatches negb andb].
  rewrite !digit_check.
  btauto.
Qed.

Lemma historicalUpdateRequired_unqualified (p4m : P4DMetrics) (line : string) :
  qualifies line = false -> historicalUpdateRequired p4m line = noUpdate p4m.
Proof.
  unfold qualifies, historicalUpdateRequired. intros H.
  destruct (negb (historical p4m)); [done|].
  destruct (GoStrings.len line <? Z.of_nat lenPrefix); [done|].
  destruct (wrongSeparators line); [done|].
  destruct (wrongDigits line); [done|]. discriminate H.
Qed.

(** The detector on a line that passes the guards. *)
Lemma historicalUpdateRequired_qualified (p4m : P4DMetrics) (line : string) :
  historical p4m = true -> qualifies line = true ->
  historicalUpdateRequired p4m line =
    let buf := latestStartCmdBuf p4m in
    let prefix := GoStrings.slice line 0 lenPrefix in
    let dt := GoTime.Parse (GoStrings.slice line 1 lenPrefix) in
    let gap := GoTime.Sub dt (timeLatestStartCmd p4m) in
    if GoStrings.len buf =? 0 then noUpdate (setLatestStartCmd p4m prefix dt)
    else if String.eqb buf prefix then noUpdate p4m
    else if GoStrings.Compare prefix buf <=? 0 then noUpdate p4m
    else {| after := if UpdateInterval (config p4m) <=? gap
                     then setLatestStartCmd p4m prefix dt else p4m;
            notified := if 3 * GoTime.Second <=? gap then Some dt else None;
            required := UpdateInterval (config p4m) <=? gap |}.
Proof.
  unfold qualifies, historicalUpdateRequired. intros -> H.
  destruct (GoStrings.len line <? Z.of_nat lenPrefix); [done|].
  destruct (wrongSeparators line); [done|].
  destruct (wrongDigits line); [done|]. simpl.
  destruct (GoStrings.len (latestStartCmdBuf p4m) =? 0) eqn:Hlen; [done|].
  assert ((0 <? GoStrings.len (latestStartCmdBuf p4m)) = true) as ->.
  { apply Z.ltb_lt. apply Z.eqb_neq in Hlen.
    pose proof (len_nonneg (latestStartCmdBuf p4m)). lia. }
  simpl. destruct (String.eqb _ _); [done|].
  destruct (GoStrings.Compare _ _ <=? 0); [done|].
  by destruct (UpdateInterval (config p4m) <=? _).
Qed.

(** A notification is sent only for a gap of at least three seconds. *)
Lemma notified_gap (p4m : P4DMetrics) (line : string) (dt : GoTime.Time) :
  notified (historicalUpdateRequired p4m line) = Some dt ->
  dt = GoTime.Parse (GoStrings.slice line 1 lenPrefix)
  /\ 3 * GoTime.Second <= GoTime.Sub dt (timeLatestStartCmd p4m).
Proof.
  destruct (historical p4m) eqn:Hh.
  - destruct (qualifies line) eqn:Hq.
    + rewrite historicalUpdateRequired_qualified by done. simpl.
      repeat match goal with |- context [if ?b then _ else _] =>
        let E := fresh "E" in destruct b eqn:E; simpl end; try done.
      all: intros [= <-]; split; [done | by apply Z.leb_le].
    + by rewrite historicalUpdateRequired_unqualified.
  - unfold historicalUpdateRequired. by rewrite Hh.
Qed.

(** A line made of a tab, a 19-byte stamp and a tail: what the detector
    reads of it does not depend on the tail. *)
Lemma stamped_line (stamp rest : string) :
  String.length stamp = 19%nat ->
  GoStrings.slice (Sample.line stamp rest) 0 lenPrefix = String GoStrings.tab stamp
  /\ GoStrings.slice (Sample.line stamp rest) 1 lenPrefix = stamp
  /\ qualifies (Sample.line stamp rest) = qualifies (String GoStrings.tab stamp).
Proof.
  intros Hlen. unfold Sample.line.
  do 19 (destruct stamp as [|? stamp]; [discriminate Hlen|]).
  destruct stamp; [|discriminate Hlen].
  split; [by destruct rest|]. split; [by destruct rest|].
  rewrite !qualifies_spec. unfold Spec.timestampPrefixed.
  replace (20 <=? GoStrings.len _) with true.
  - reflexivity.
  - symmetry. apply Z.leb_le. unfold GoStrings.len. simpl String.length.
    pose proof (len_nonneg rest). lia.
Qed.

Lemma compare_greater_differs (a b : string) :
  0 < GoStrings.Compare a b -> String.eqb b a = false.
Proof.
  unfold GoStrings.Compare. intros H. apply String.eqb_neq. intros ->.
  assert (String.compare a a = Eq) as E.
  { pose proof (String.compare_antisym a a) as Ha.
    destruct (String.compare a a); simpl in Ha; congruence. }
  rewrite E in H. lia.
Qed.

(** C2: with a one-minute interval, of three lines stamped 00:00:00,
    00:00:02 and 00:05:00 on 2024/01/01 only the third requires an update.
    The first only records its prefix and time; the second changes nothing
    and sends no notification, its gap of two seconds being under three; the
    third advances the stored prefix and time and sends its time.  A
    notification is only ever sent for a gap of at least three seconds, and
    a line takes part only if it is at least 20 bytes long and matches the
    pattern tab YYYY/MM/DD HH:MM:SS. *)
Theorem boundary_three_lines (p4m : P4DMetrics) (rest1 rest2 rest3 : string) :
  historical p4m = true ->
  latestStartCmdBuf p4m = EmptyString ->
  UpdateInterval (config p4m) = GoTime.Minute ->
  let stamp1 := "2024/01/01 00:00:00"%string in
  let stamp2 := "2024/01/01 00:00:02"%string in
  let stamp3 := "2024/01/01 00:05:00"%string in
  let b1 := historicalUpdateRequired p4m (Sample.line stamp1 rest1) in
  let b2 := historicalUpdateRequired (after b1) (Sample.line stamp2 rest2) in
  let b3 := historicalUpdateRequired (after b2) (Sample.line stamp3 rest3) in
  (required b1 = false /\ notified b1 = None
   /\ after b1 = setLatestStartCmd p4m (String GoStrings.tab stamp1) 1704067200)
  /\ (required b2 = false /\ notified b2 = None /\ after b2 = after b1)
  /\ (required b3 = true /\ notified b3 = Some 1704067500
      /\ after b3 = setLatestStartCmd (after b2) (String GoStrings.tab stamp3) 1704067500)
  /\ (forall p line dt,
        notified (historicalUpdateRequired p line) = Some dt ->
        3 * GoTime.Second <= GoTime.Sub dt (timeLatestStartCmd p))
  /\ (forall line, qualifies line = Spec.timestampPrefixed line)
  /\ (forall p line, Spec.timestampPrefixed line = false ->
        historicalUpdateRequired p line = noUpdate p).
Proof.
  intros Hh Hbuf Hint stamp1 stamp2 stamp3 b1 b2 b3.
  destruct (stamped_line stamp1 rest1 eq_refl) as (P1 & S1 & Q1).
  destruct (stamped_line stamp2 rest2 eq_refl) as (P2 & S2 & Q2).
  destruct (stamped_line stamp3 rest3 eq_refl) as (P3 & S3 & Q3).
  assert (E1 : b1 = noUpdate (setLatestStartCmd p4m (String GoStrings.tab stamp1) 1704067200)).
  { subst b1. rewrite historicalUpdateRequired_qualified; [|done|by rewrite Q1].
    cbv zeta. rewrite Hbuf, P1, S1. reflexivity. }
  assert (E2 : b2 = noUpdate (after b1)).
  { subst b2. rewrite E1. cbn [after noUpdate].
    rewrite historicalUpdateRequired_qualified; [|done|by rewrite Q2].
    cbv zeta. rewrite P2, S2. cbn [latestStartCmdBuf timeLatestStartCmd config setLatestStartCmd].
    rewrite Hint. reflexivity. }
  assert (E3 : b3 = {| after := setLatestStartCmd (after b2) (String GoStrings.tab stamp3) 1704067500;
                       notified := Some 1704067500; required := true |}).
  { subst b3. rewrite E2, E1. cbn [after noUpdate].
    rewrite historicalUpdateRequired_qualified; [|done|by rewrite Q3].
    cbv zeta. rewrite P3, S3. cbn [latestStartCmdBuf timeLatestStartCmd config setLatestStartCmd].
    rewrite Hint. reflexivity. }
  split; [by rewrite E1|]. split; [by rewrite E2|]. split; [by rewrite E3|].
  split; [intros p line dt H; by apply notified_gap in H as [_ ?]|].
  split; [apply qualifies_spec|].
  intros p line H. apply historicalUpdateRequired_unqualified. by rewrite qualifies_spec.
Qed.

(** C9: when the prefix of a qualifying line sorts after the stored prefix
    and its time is at least three seconds but less than the update interval
    after the stored time, the detector sends the new time on the
    notification channel, reports no update and leaves the state, with its
    stored prefix and time, as it was. *)
Theorem notify_without_update (p4m : P4DMetrics) (line : string) :
  historical p4m = true ->
  qualifies line = true ->
  latestStartCmdBuf p4m <> EmptyString ->
  0 < GoStrings.Compare (GoStrings.slice line 0 lenPrefix) (latestStartCmdBuf p4m) ->
  3 * GoTime.Second
    <= GoTime.Sub (GoTime.Parse (GoStrings.slice line 1 lenPrefix)) (timeLatestStartCmd p4m)
    < UpdateInterval (config p4m) ->
  historicalUpdateRequired p4m line =
    {| after := p4m;
       notified := Some (GoTime.Parse (GoStrings.slice line 1 lenPrefix));
       required := false |}.
Proof.
  intros Hh Hq Hbuf Hgt [H3 Hint].
  rewrite historicalUpdateRequired_qualified by done. cbv zeta.
  assert ((GoStrings.len (latestStartCmdBuf p4m) =? 0) = false) as ->.
  { apply Z.eqb_neq. unfold GoStrings.len.
    destruct (latestStartCmdBuf p4m); [done | simpl; lia]. }
  rewrite (compare_greater_differs _ _ Hgt).
  assert ((GoStrings.Compare (GoStrings.slice line 0 lenPrefix) (latestStartCmdBuf p4m) <=? 0)
          = false) as -> by (apply Z.leb_gt; lia).
  assert ((UpdateInterval (config p4m)
           <=? GoTime.Sub (GoTime.Parse (GoStrings.slice line 1 lenPrefix))
                 (timeLatestStartCmd p4m)) = false) as -> by (apply Z.leb_gt; lia).
  assert ((3 * GoTime.Second
           <=? GoTime.Sub (GoTime.Parse (GoStrings.slice line 1 lenPrefix))
                 (timeLatestStartCmd p4m)) = true) as -> by (apply Z.leb_le; lia).
  reflexivity.
Qed.

(** *** Strings: slices and the index of a byte *)

Lemma substring_0_0 (s : string) : substring 0 0 s = EmptyString.
Proof. by destruct s. Qed.

Lemma substring_whole (s : string) : substring 0 (String.length s) s = s.
Proof. induction s as [|c s IH]; simpl; [done | by rewrite IH]. Qed.

Lemma substring_head (p t : string) : substring 0 (String.length p) (p +:+ t) = p.
Proof.
  induction p as [|c p IH]; simpl; [apply substring_0_0 | by rewrite IH].
Qed.

Lemma substring_skip (p t : string) (m : nat) :
  substring (String.length p) m (p +:+ t) = substring 0 m t.
Proof. induction p as [|c p IH]; simpl; [done | exact IH]. Qed.

Lemma length_append (p t : string) :
  String.length (p +:+ t) = (String.length p + String.length t)%nat.
Proof. induction p as [|c p IH]; simpl; [done | by rewrite IH]. Qed.

Lemma slice_prefix (p t : string) :
  GoStrings.slice (p +:+ "/" +:+ t) 0 (String.length p) = p.
Proof. unfold GoStrings.slice. rewrite Nat.sub_0_r. apply substring_head. Qed.

Lemma sliceFrom_suffix (p t : string) :
  GoStrings.sliceFrom (p +:+ "/" +:+ t) (String.length p + 1) = t.
Proof.
  unfold GoStrings.sliceFrom. induction p as [|c p IH]; simpl.
  - rewrite Nat.sub_0_r. apply substring_whole.
  - exact IH.
Qed.

Lemma indexFrom_cons (c : ascii) (s : string) (i : Z) :
  GoStrings.indexFrom "/" (String c s) i =
  if Ascii.ascii_dec "/" c then i else GoStrings.indexFrom "/" s (i + 1).
Proof.
  cbn [GoStrings.indexFrom String.prefix].
  destruct (Ascii.ascii_dec "/" c); [by destruct s | done].
Qed.

Lemma indexFrom_slashFree (s : string) (i : Z) :
  slashFree s -> GoStrings.indexFrom "/" s i = -1.
Proof.
  unfold slashFree. revert i. induction s as [|c s IH]; intros i H; [done|].
  rewrite indexFrom_cons. destruct (Ascii.ascii_dec "/" c) as [<-|Hne].
  - exfalso. apply H. by left.
  - apply IH. intros Hin. apply H. by right.
Qed.

Lemma indexFrom_first (p t : string) (i : Z) :
  slashFree p -> GoStrings.indexFrom "/" (p +:+ "/" +:+ t) i = i + GoStrings.len p.
Proof.
  unfold slashFree, GoStrings.len. revert i.
  induction p as [|c p IH]; intros i H.
  - change ("" +:+ "/" +:+ t) with (String "/" t). rewrite indexFrom_cons.
    destruct (Ascii.ascii_dec "/" "/") as [_|Hne]; [simpl; lia | done].
  - change (String c p +:+ "/" +:+ t) with (String c (p +:+ "/" +:+ t)).
    rewrite indexFrom_cons.
    destruct (Ascii.ascii_dec "/" c) as [<-|Hne].
    + exfalso. apply H. by left.
    + rewrite IH; [simpl String.length; lia|]. intros Hin. apply H. by right.
Qed.

Lemma indexFrom_found (s : string) (i j : Z) :
  GoStrings.indexFrom "/" s i = j -> 0 <= i -> j <> -1 ->
  exists p t, s = p +:+ "/" +:+ t /\ slashFree p /\ j = i + GoStrings.len p.
Proof.
  revert i. induction s as [|c s IH]; intros i H Hi Hj; [simpl in H; congruence|].
  rewrite indexFrom_cons in H.
  destruct (Ascii.ascii_dec "/" c) as [<-|Hne].
  - exists EmptyString, s. split; [done|]. split; [by intros []|].
    unfold GoStrings.len. simpl. lia.
  - destruct (IH (i + 1) H) as (p & t & -> & Hfree & ->); [lia | done |].
    exists (String c p), t. split; [done|]. split.
    + intros [->|Hin]; [done | by apply Hfree].
    + unfold GoStrings.len. simpl String.length. lia.
Qed.

(** The three cases of [splitIP]. *)
Lemma splitIP_prefixed (p t : string) :
  p <> EmptyString -> slashFree p -> splitIP (p +:+ "/" +:+ t) = (t, p).
Proof.
  intros Hp Hfree. unfold splitIP, GoStrings.Index.
  rewrite indexFrom_first by done. rewrite Z.add_0_l.
  assert (0 < GoStrings.len p) as Hlen.
  { unfold GoStrings.len. destruct p; [done | simpl; lia]. }
  replace (0 <? GoStrings.len p) with true by (symmetry; by apply Z.ltb_lt).
  unfold GoStrings.len. rewrite Nat2Z.id.
  by rewrite sliceFrom_suffix, slice_prefix.
Qed.

Lemma splitIP_bare (addr : string) :
  slashFree addr -> splitIP addr = (addr, EmptyString).
Proof.
  intros H. unfold splitIP, GoStrings.Index. by rewrite indexFrom_slashFree.
Qed.

Lemma splitIP_leading (t : string) : splitIP ("/" +:+ t) = ("/" +:+ t, EmptyString).
Proof.
  unfold splitIP, GoStrings.Index. change ("/" +:+ t) with (String "/" t).
  rewrite indexFrom_cons. by destruct (Ascii.ascii_dec "/" "/").
Qed.

Lemma splitIP_replica (addr ip replica : string) :
  splitIP addr = (ip, replica) -> replica <> EmptyString ->
  addr = replica +:+ "/" +:+ ip /\ slashFree replica.
Proof.
  unfold splitIP, GoStrings.Index. intros H Hr.
  destruct (0 <? GoStrings.indexFrom "/" addr 0) eqn:Hpos; [|congruence].
  apply Z.ltb_lt in Hpos.
  destruct (indexFrom_found addr 0 _ eq_refl) as (p & t & -> & Hfree & Hj); [lia | lia |].
  rewrite Hj, Z.add_0_l in H. unfold GoStrings.len in H. rewrite Nat2Z.id in H.
  rewrite sliceFrom_suffix, slice_prefix in H. by injection H as <- <-.
Qed.

(** The address maps after [publishEvent], in terms of [splitIP]. *)
Lemma publishEvent_address ToLower MustCompile (p4m p4m' : P4DMetrics) (cmd : Command) :
  publishEvent ToLower MustCompile p4m cmd = Some p4m' ->
  let ip := (splitIP (IP cmd)).1 in
  let replica := (splitIP (IP cmd)).2 in
  cmdByIPCounter p4m' = incr ip (cmdByIPCounter p4m)
  /\ cmdByIPCumulative p4m' = accum ip (CompletedLapse cmd) (cmdByIPCumulative p4m)
  /\ cmdByReplicaCounter p4m' =
       (if String.eqb replica EmptyString then cmdByReplicaCounter p4m
        else incr replica (cmdByReplicaCounter p4m))
  /\ cmdByReplicaCumulative p4m' =
       (if String.eqb replica EmptyString then cmdByReplicaCumulative p4m
        else accum replica (CompletedLapse cmd) (cmdByReplicaCumulative p4m)).
Proof.
  intros H. cbv zeta. publish_inv H. frame_tables. simpl. done.
Qed.

(** C4: [publishEvent] splits the address at its first [/].  With a
    non-empty prefix before that [/], the replica counter of the prefix and
    the IP counter of the suffix read one more than before and their
    cumulatives the command's lapse more, every other entry being as it
    was; with no [/] at all only the IP aggregates, under the whole address,
    are so updated and the replica maps are unchanged; the replica
    aggregates change only when such a prefix is present (an address that
    starts with [/] has none and counts as a whole). *)
Theorem address_split ToLower MustCompile (p4m p4m' : P4DMetrics) (cmd : Command) :
  publishEvent ToLower MustCompile p4m cmd = Some p4m' ->
  (forall prefix suffix,
     IP cmd = prefix +:+ "/" +:+ suffix -> prefix <> EmptyString -> slashFree prefix ->
     incrementedAt prefix (cmdByReplicaCounter p4m) (cmdByReplicaCounter p4m')
     /\ addedAt prefix (CompletedLapse cmd)
          (cmdByReplicaCumulative p4m) (cmdByReplicaCumulative p4m')
     /\ incrementedAt suffix (cmdByIPCounter p4m) (cmdByIPCounter p4m')
     /\ addedAt suffix (CompletedLapse cmd) (cmdByIPCumulative p4m) (cmdByIPCumulative p4m'))
  /\ (slashFree (IP cmd) ->
      incrementedAt (IP cmd) (cmdByIPCounter p4m) (cmdByIPCounter p4m')
      /\ addedAt (IP cmd) (CompletedLapse cmd) (cmdByIPCumulative p4m) (cmdByIPCumulative p4m')
      /\ cmdByReplicaCounter p4m' = cmdByReplicaCounter p4m
      /\ cmdByReplicaCumulative p4m' = cmdByReplicaCumulative p4m)
  /\ (cmdByReplicaCounter p4m' <> cmdByReplicaCounter p4m
      \/ cmdByReplicaCumulative p4m' <> cmdByReplicaCumulative p4m ->
      exists prefix suffix,
        IP cmd = prefix +:+ "/" +:+ suffix /\ prefix <> EmptyString /\ slashFree prefix)
  /\ (forall rest, IP cmd = "/" +:+ rest ->
      incrementedAt (IP cmd) (cmdByIPCounter p4m) (cmdByIPCounter p4m')
      /\ addedAt (IP cmd) (CompletedLapse cmd) (cmdByIPCumulative p4m) (cmdByIPCumulative p4m')
      /\ cmdByReplicaCounter p4m' = cmdByReplicaCounter p4m
      /\ cmdByReplicaCumulative p4m' = cmdByReplicaCumulative p4m).
Proof.
  intros H. destruct (publishEvent_address _ _ _ _ _ H) as (A1 & A2 & A3 & A4).
  split; [|split; [|split]].
  - intros prefix suffix Hip Hne Hfree.
    rewrite Hip, splitIP_prefixed in A1, A2, A3, A4 by done. cbn [fst snd] in *.
    apply String.eqb_neq in Hne. rewrite Hne in A3, A4.
    rewrite A1, A2, A3, A4.
    split; [apply incr_incrementedAt|]. split; [apply accum_addedAt|].
    split; [apply incr_incrementedAt | apply accum_addedAt].
  - intros Hfree. rewrite splitIP_bare in A1, A2, A3, A4 by done. cbn [fst snd] in *.
    rewrite A1, A2.
    split; [apply incr_incrementedAt|]. split; [apply accum_addedAt|]. by split.
  - intros Hchanged.
    destruct (splitIP (IP cmd)) as [ip replica] eqn:Hsplit. cbn [fst snd] in *.
    destruct (String.eqb replica "") eqn:Hr.
    + destruct Hchanged as [Hc|Hc]; congruence.
    + apply String.eqb_neq in Hr.
      destruct (splitIP_replica _ _ _ Hsplit Hr) as [Hip Hfree].
      by exists replica, ip.
  - intros rest Hip. rewrite Hip, splitIP_leading in A1, A2, A3, A4. cbn [fst snd] in *.
    rewrite Hip, A1, A2.
    split; [apply incr_incrementedAt|]. split; [apply accum_addedAt|]. by split.
Qed.

(** *** Trigger entries *)

Lemma sliceFrom_append (p x : string) :
  GoStrings.sliceFrom (p +:+ x) (String.length p) = x.
Proof.
  unfold GoStrings.sliceFrom. rewrite length_append.
  replace (String.length p + String.length x - String.length p)%nat
    with (String.length x) by lia.
  rewrite substring_skip. apply substring_whole.
Qed.

Lemma prefix_append (p x : string) : String.prefix p (p +:+ x) = true.
Proof. apply String.prefix_correct, substring_head. Qed.

(** The test of the source: the prefix and at least one byte after it. *)
Lemma isTrigger_spec (tableName : string) :
  isTrigger tableName
  = String.prefix "trigger_" tableName && (8 <? GoStrings.len tableName).
Proof.
  unfold isTrigger, GoStrings.slice. rewrite andb_comm. f_equal.
  destruct (String.prefix "trigger_" tableName) eqn:Hp.
  - apply String.prefix_correct in Hp. apply String.eqb_eq. exact Hp.
  - apply String.eqb_neq. intros Heq.
    assert (String.prefix "trigger_" tableName = true) as Hp'
      by (apply String.prefix_correct; exact Heq).
    congruence.
Qed.

Lemma isTrigger_named (x : string) :
  isTrigger ("trigger_" +:+ x) = negb (String.eqb x EmptyString).
Proof.
  rewrite isTrigger_spec, prefix_append. simpl andb.
  unfold GoStrings.len. rewrite length_append. simpl String.length.
  destruct x as [|c x]; simpl String.length; simpl negb.
  - reflexivity.
  - apply Z.ltb_lt. lia.
Qed.

(** C5, as worded, fails: an entry named by the bare prefix [trigger_]
    starts with the prefix, yet it is added to the lock totals and not to
    the trigger total. *)
Lemma bare_trigger_prefix_is_a_table :
  Spec.isTrigger (TableName Sample.barePrefixTable) = true
  /\ totalReadHeld (recordTable Sample.live Sample.barePrefixTable) !! "trigger_"
     = Some 2%float
  /\ totalTriggerLapse (recordTable Sample.live Sample.barePrefixTable) = ∅
  /\ ~ Spec.triggerRouting Sample.live Sample.barePrefixTable.
Proof.
  split; [reflexivity|]. split; [by vm_compute|]. split; [reflexivity|].
  unfold Spec.triggerRouting. intros (_ & _ & H & _).
  apply (f_equal (fun m => m !! "trigger_")) in H. vm_compute in H. discriminate H.
Qed.

(** C5, amended: a table entry whose name starts with [trigger_] and goes on
    after it adds its lapse to the trigger total under the rest of the name
    (the total there reads the lapse more, every other entry being as it
    was) and leaves the four lock totals alone; any other entry (the bare
    prefix included) adds its four durations, divided by 1000, to the lock
    totals under its name and leaves the trigger total alone.  Nothing else
    is touched, and [publishEvent] applies this to each entry in turn. *)
Theorem trigger_routing (p4m : P4DMetrics) (t : Table) :
  let p4m' := recordTable p4m t in
  (forall x, TableName t = "trigger_" +:+ x -> x <> EmptyString ->
     addedAt x (TriggerLapse t) (totalTriggerLapse p4m) (totalTriggerLapse p4m')
     /\ totalReadWait p4m' = totalReadWait p4m
     /\ totalReadHeld p4m' = totalReadHeld p4m
     /\ totalWriteWait p4m' = totalWriteWait p4m
     /\ totalWriteHeld p4m' = totalWriteHeld p4m)
  /\ (String.prefix "trigger_" (TableName t) = true /\ 8 < GoStrings.len (TableName t) ->
      exists x, TableName t = "trigger_" +:+ x /\ x <> EmptyString)
  /\ (~ (String.prefix "trigger_" (TableName t) = true /\ 8 < GoStrings.len (TableName t)) ->
      addedAt (TableName t) (Float64.perThousand (TotalReadWait t))
        (totalReadWait p4m) (totalReadWait p4m')
      /\ addedAt (TableName t) (Float64.perThousand (TotalReadHeld t))
           (totalReadHeld p4m) (totalReadHeld p4m')
      /\ addedAt (TableName t) (Float64.perThousand (TotalWriteWait t))
           (totalWriteWait p4m) (totalWriteWait p4m')
      /\ addedAt (TableName t) (Float64.perThousand (TotalWriteHeld t))
           (totalWriteHeld p4m) (totalWriteHeld p4m')
      /\ totalTriggerLapse p4m' = totalTriggerLapse p4m)
  /\ outsideTables p4m' = outsideTables p4m
  /\ (forall ToLower MustCompile cmd after,
        publishEvent ToLower MustCompile p4m cmd = Some after ->
        tableTotals after = tableTotals (foldl recordTable p4m (Tables cmd))).
Proof.
  cbv zeta. split; [|split; [|split; [|split]]].
  - intros x Hname Hx. simpl. rewrite Hname, isTrigger_named.
    apply String.eqb_neq in Hx. rewrite Hx. simpl.
    change (String.length triggerPrefix) with (String.length "trigger_").
    rewrite sliceFrom_append. split; [apply accum_addedAt | done].
  - intros [Hp Hlen]. exists (GoStrings.sliceFrom (TableName t) 8).
    apply String.prefix_correct in Hp. simpl String.length in Hp.
    assert (TableName t = "trigger_" +:+ GoStrings.sliceFrom (TableName t) 8) as Hsplit.
    { unfold GoStrings.sliceFrom. rewrite <- Hp at 1.
      generalize (TableName t). clear. intros s.
      do 8 (destruct s as [|? s]; [reflexivity|]).
      simpl. by rewrite Nat.sub_0_r, substring_whole, substring_0_0. }
    split; [exact Hsplit|]. intros Hx. rewrite Hx in Hsplit.
    rewrite Hsplit in Hlen. unfold GoStrings.len in Hlen. simpl in Hlen. lia.
  - intros Hnot. simpl. rewrite isTrigger_spec.
    assert (String.prefix "trigger_" (TableName t) && (8 <? GoStrings.len (TableName t))
            = false) as ->.
    { destruct (String.prefix "trigger_" (TableName t)) eqn:Hp; simpl; [|done].
      destruct (8 <? GoStrings.len (TableName t)) eqn:Hlen; [|done].
      exfalso. apply Hnot. split; [done|]. by apply Z.ltb_lt. }
    split; [apply accum_addedAt|]. split; [apply accum_addedAt|].
    split; [apply accum_addedAt|]. split; [apply accum_addedAt | done].
  - reflexivity.
  - intros ToLower MustCompile cmd after. apply publishEvent_totals.
Qed.

(** *** The program label *)

Lemma publishEvent_program ToLower MustCompile (p4m p4m' : P4DMetrics) (cmd : Command) :
  publishEvent ToLower MustCompile p4m cmd = Some p4m' ->
  cmdByProgramCounter p4m' = incr (programKey (App cmd)) (cmdByProgramCounter p4m)
  /\ cmdByProgramCumulative p4m'
     = accum (programKey (App cmd)) (CompletedLapse cmd) (cmdByProgramCumulative p4m).
Proof. intros H. publish_inv H. frame_tables. done. Qed.

Lemma prefix_cons (a b : ascii) (p s : string) :
  String.prefix (String a p) (String b s)
  = if Ascii.ascii_dec a b then String.prefix p s else false.
Proof. reflexivity. Qed.

Lemma replaceFrom_cons (old new : string) (c : ascii) (s : string) :
  GoStrings.replaceFrom old new (String c s) 0 =
  if String.prefix old (String c s)
  then new +:+ GoStrings.replaceFrom old new s (String.length old - 1)
  else String c (GoStrings.replaceFrom old new s 0).
Proof. reflexivity. Qed.

Lemma replaceFrom_drop (old new p s : string) :
  GoStrings.replaceFrom old new (p +:+ s) (String.length p)
  = GoStrings.replaceFrom old new s 0.
Proof. induction p as [|c p IH]; [done | exact IH]. Qed.

(** An occurrence of the literal is removed wherever it stands: after a
    stretch [a] without a space, it is dropped and the rest is treated the
    same way. *)
Lemma ReplaceAll_brokered (a b : string) :
  ~ In " "%char (list_ascii_of_string a) ->
  GoStrings.ReplaceAll (a +:+ " (brokered)" +:+ b) " (brokered)" EmptyString
  = a +:+ GoStrings.ReplaceAll b " (brokered)" EmptyString.
Proof.
  unfold GoStrings.ReplaceAll. induction a as [|c a IH]; intros Hfree.
  - change ("" +:+ " (brokered)" +:+ b) with (String " " ("(brokered)" +:+ b)).
    rewrite replaceFrom_cons.
    change (String " " ("(brokered)" +:+ b)) with (" (brokered)" +:+ b).
    rewrite prefix_append.
    change (String.length " (brokered)" - 1)%nat with (String.length "(brokered)").
    by rewrite replaceFrom_drop.
  - change (String c a +:+ " (brokered)" +:+ b) with (String c (a +:+ " (brokered)" +:+ b)).
    rewrite replaceFrom_cons.
    destruct (a +:+ " (brokered)" +:+ b) as [|d rest] eqn:Hrest.
    + by destruct a.
    + rewrite prefix_cons. destruct (Ascii.ascii_dec " " c) as [<-|Hne].
      * exfalso. apply Hfree. by left.
      * change (String c a +:+ GoStrings.replaceFrom " (brokered)" "" b 0)
          with (String c (a +:+ GoStrings.replaceFrom " (brokered)" "" b 0)).
        f_equal. apply IH. intros Hin. apply Hfree. by right.
Qed.

Lemma allowed_underscore : GoRegexp.allowed "_" = true.
Proof. reflexivity. Qed.

(** Every byte of a sanitized string is in the allow-list. *)
Lemma sanitizeFrom_allowed (s : string) (skip : nat) :
  Forall (fun c => GoRegexp.allowed c = true)
         (list_ascii_of_string (GoRegexp.sanitizeFrom s skip)).
Proof.
  revert skip. induction s as [|c s IH]; intros skip; [constructor|].
  cbn [GoRegexp.sanitizeFrom]. destruct skip as [|k]; [|apply IH].
  destruct (GoStrings.byte c <? 128).
  - cbn [list_ascii_of_string]. constructor; [|apply IH].
    destruct (GoRegexp.allowed c) eqn:Hc; [exact Hc | reflexivity].
  - cbn [list_ascii_of_string]. constructor; [reflexivity | apply IH].
Qed.

(** On ASCII input the replacement is bytewise. *)
Lemma sanitize_ascii (s : string) :
  Forall (fun c => GoStrings.byte c < 128) (list_ascii_of_string s) ->
  list_ascii_of_string (GoRegexp.ReplaceAllString s)
  = map (fun c => if GoRegexp.allowed c then c else "_"%char) (list_ascii_of_string s).
Proof.
  unfold GoRegexp.ReplaceAllString. induction s as [|c s IH]; intros H; [done|].
  cbn [list_ascii_of_string] in H. apply Forall_cons in H as [Hc Hs].
  cbn [GoRegexp.sanitizeFrom].
  replace (GoStrings.byte c <? 128) with true by (symmetry; by apply Z.ltb_lt).
  cbn [list_ascii_of_string map]. by rewrite IH.
Qed.

(** C6, as worded, fails: [" (brokered)"] inside the name is no suffix, yet
    it is removed, and the counter is kept under [p4_x], not under the key
    the wording gives. *)
Lemma brokered_inside_is_removed :
  publishEvent Sample.ToLower Sample.MustCompile Sample.live Sample.brokeredInside
    = Some (Sample.published Sample.live Sample.brokeredInside)
  /\ Spec.programKey (App Sample.brokeredInside) = "p4_(brokered)_x"%string
  /\ cmdByProgramCounter (Sample.published Sample.live Sample.brokeredInside)
       !! "p4_(brokered)_x" = None
  /\ cmdByProgramCounter (Sample.published Sample.live Sample.brokeredInside)
       !! "p4_x" = Some 1
  /\ ~ Spec.programKeyed Sample.brokeredInside Sample.live
         (Sample.published Sample.live Sample.brokeredInside).
Proof.
  split; [by vm_compute|]. split; [by vm_compute|].
  split; [by vm_compute|]. split; [by vm_compute|].
  intros [H _]. apply (f_equal (fun m => m !! "p4_x")) in H.
  vm_compute in H. discriminate H.
Qed.

(** *** The program label, for every name *)

Lemma prefix_split (p s : string) :
  String.prefix p s = true -> exists b, s = p +:+ b.
Proof.
  revert s. induction p as [|a p IH]; intros s H.
  - by exists s.
  - destruct s as [|c s]; [done|]. rewrite prefix_cons in H.
    destruct (Ascii.ascii_dec a c) as [->|]; [|done].
    destruct (IH _ H) as [b ->]. by exists b.
Qed.

(** A name in which the literal does not occur is left as it is. *)
Lemma ReplaceAll_no_occurrence (lit new s : string) :
  (forall a b, s <> a +:+ lit +:+ b) -> GoStrings.ReplaceAll s lit new = s.
Proof.
  unfold GoStrings.ReplaceAll. induction s as [|c s IH]; intros Hno; [done|].
  rewrite replaceFrom_cons.
  destruct (String.prefix lit (String c s)) eqn:Hp.
  - destruct (prefix_split _ _ Hp) as [b Hb]. destruct (Hno EmptyString b). exact Hb.
  - rewrite IH; [done|]. intros a b ->. by apply (Hno (String c a) b).
Qed.

(** The first occurrence of the literal is replaced and the scan goes on
    after it. *)
Lemma ReplaceAll_first_occurrence (lit new a b : string) :
  lit <> EmptyString ->
  (forall a' b', a +:+ lit +:+ b = a' +:+ lit +:+ b' ->
     (String.length a <= String.length a')%nat) ->
  GoStrings.ReplaceAll (a +:+ lit +:+ b) lit new
  = a +:+ new +:+ GoStrings.ReplaceAll b lit new.
Proof.
  unfold GoStrings.ReplaceAll. intros Hlit. induction a as [|c a IH]; intros Hfirst.
  - change (EmptyString +:+ ?x) with x.
    destruct lit as [|l lit]; [done|].
    change (String l lit +:+ b) with (String l (lit +:+ b)).
    rewrite replaceFrom_cons.
    change (String l (lit +:+ b)) with (String l lit +:+ b).
    rewrite prefix_append.
    change (String.length (String l lit) - 1)%nat with (String.length lit - 0)%nat.
    rewrite Nat.sub_0_r. by rewrite replaceFrom_drop.
  - change (String c a +:+ ?x) with (String c (a +:+ x)).
    rewrite replaceFrom_cons.
    destruct (String.prefix lit (String c (a +:+ lit +:+ b))) eqn:Hp.
    + destruct (prefix_split _ _ Hp) as [b' Hb'].
      specialize (Hfirst EmptyString b' Hb'). simpl in Hfirst. lia.
    + rewrite IH; [done|]. intros a' b' Heq.
      apply (f_equal (String c)) in Heq.
      specialize (Hfirst (String c a') b' Heq). simpl in Hfirst. lia.
Qed.

(** Every name is in one of the two cases. *)
Lemma occurrence_cases (lit s : string) :
  (forall a b, s <> a +:+ lit +:+ b)
  \/ exists a b, s = a +:+ lit +:+ b
       /\ forall a' b', s = a' +:+ lit +:+ b' -> (String.length a <= String.length a')%nat.
Proof.
  induction s as [|c s IH].
  - destruct lit as [|l lit].
    + right. exists EmptyString, EmptyString. split; [done|]. intros; simpl; lia.
    + left. intros [|? a] b; discriminate.
  - destruct (String.prefix lit (String c s)) eqn:Hp.
    + right. destruct (prefix_split _ _ Hp) as [b Hb].
      exists EmptyString, b. split; [exact Hb|]. intros; simpl; lia.
    + assert (Hhead : forall b, String c s <> lit +:+ b).
      { intros b Hb. rewrite Hb, prefix_append in Hp. discriminate. }
      destruct IH as [Hno | (a & b & -> & Hfirst)].
      * left. intros [|c' a] b Hb; [by apply (Hhead b)|].
        injection Hb as _ Hb. by apply (Hno a b).
      * right. exists (String c a), b. split; [done|].
        intros [|c' a'] b' Hb; [by destruct (Hhead b')|].
        injection Hb as _ Hb. specialize (Hfirst _ _ Hb). simpl. lia.
Qed.

Lemma sliceFrom_cons (c : ascii) (s : string) (k : nat) :
  GoStrings.sliceFrom (String c s) (S k) = GoStrings.sliceFrom s k.
Proof. reflexivity. Qed.

Lemma sanitizeFrom_skip (s : string) (k : nat) :
  GoRegexp.sanitizeFrom s k = GoRegexp.sanitizeFrom (GoStrings.sliceFrom s k) 0.
Proof.
  revert k. induction s as [|c s IH]; intros k.
  - unfold GoStrings.sliceFrom. by destruct k.
  - destruct k as [|k].
    + unfold GoStrings.sliceFrom. by rewrite Nat.sub_0_r, substring_whole.
    + rewrite sliceFrom_cons. apply IH.
Qed.

Lemma continuation_length (s : string) (i : nat) (lo hi : Z) :
  GoRegexp.continuation s i lo hi = true -> (i < String.length s)%nat.
Proof.
  unfold GoRegexp.continuation. revert i. induction s as [|c s IH]; intros i H.
  - by destruct i.
  - destruct i as [|i]; simpl; [lia|]. simpl in H. specialize (IH i H). lia.
Qed.

(** The rune read at the head of a non-empty string is one to four bytes
    wide and lies within the string. *)
Lemma runeSize_range (c : ascii) (s : string) :
  (1 <= GoRegexp.runeSize (String c s) <= String.length (String c s))%nat.
Proof.
  unfold GoRegexp.runeSize.
  repeat match goal with
         | |- context [if ?b then _ else _] =>
             lazymatch b with
             | context [GoRegexp.continuation] => fail
             | _ => destruct b
             end
         end;
    cbv iota beta;
    repeat match goal with
           | |- context [GoRegexp.continuation ?s ?i ?lo ?hi] =>
               let E := fresh "E" in
               destruct (GoRegexp.continuation s i lo hi) eqn:E;
               [apply continuation_length in E|]
           end;
    cbn [andb]; cbn [String.length] in *; lia.
Qed.

(** C6, amended: the program key of a command is its program name with
    every occurrence of [" (brokered)"] removed, wherever it stands, and
    then every character outside the allow-list (alphanumerics and
    [_/+:@{}&%<>*\.,()[]-]) replaced with an underscore; under that key the
    per-program counter reads one more than before and the cumulative the
    command's lapse more, every other entry being as it was.  The removal,
    for every name: a name without the literal is kept whole, and otherwise
    the first occurrence is dropped and the rest treated the same way.  The
    replacement, for every name: an ASCII byte is kept if it is in the
    allow-list and becomes an underscore if not, and a rune that is not
    ASCII, of whatever width, becomes one underscore. *)
Theorem program_key ToLower MustCompile (p4m p4m' : P4DMetrics) (cmd : Command) :
  publishEvent ToLower MustCompile p4m cmd = Some p4m' ->
  let stripped := GoStrings.ReplaceAll (App cmd) " (brokered)" EmptyString in
  let key := GoRegexp.ReplaceAllString stripped in
  incrementedAt key (cmdByProgramCounter p4m) (cmdByProgramCounter p4m')
  /\ addedAt key (CompletedLapse cmd)
       (cmdByProgramCumulative p4m) (cmdByProgramCumulative p4m')
  /\ Forall (fun c => GoRegexp.allowed c = true) (list_ascii_of_string key)
  /\ (forall s, (forall a b, s <> a +:+ " (brokered)" +:+ b) ->
        GoStrings.ReplaceAll s " (brokered)" EmptyString = s)
  /\ (forall a b,
        (forall a' b', a +:+ " (brokered)" +:+ b = a' +:+ " (brokered)" +:+ b' ->
           (String.length a <= String.length a')%nat) ->
        GoStrings.ReplaceAll (a +:+ " (brokered)" +:+ b) " (brokered)" EmptyString
        = a +:+ GoStrings.ReplaceAll b " (brokered)" EmptyString)
  /\ (forall s,
        (forall a b, s <> a +:+ " (brokered)" +:+ b)
        \/ exists a b, s = a +:+ " (brokered)" +:+ b
             /\ forall a' b', s = a' +:+ " (brokered)" +:+ b' ->
                  (String.length a <= String.length a')%nat)
  /\ GoRegexp.ReplaceAllString EmptyString = EmptyString
  /\ (forall c s, GoStrings.byte c < 128 ->
        GoRegexp.ReplaceAllString (String c s)
        = String (if GoRegexp.allowed c then c else "_"%char) (GoRegexp.ReplaceAllString s))
  /\ (forall c s, 128 <= GoStrings.byte c ->
        (1 <= GoRegexp.runeSize (String c s) <= String.length (String c s))%nat
        /\ GoRegexp.ReplaceAllString (String c s)
           = String "_"%char
               (GoRegexp.ReplaceAllString
                  (GoStrings.sliceFrom (String c s) (GoRegexp.runeSize (String c s))))).
Proof.
  intros H. cbv zeta. destruct (publishEvent_program _ _ _ _ _ H) as (A & B).
  unfold programKey in A, B. rewrite A, B.
  split; [apply incr_incrementedAt|]. split; [apply accum_addedAt|].
  split; [apply sanitizeFrom_allowed|].
  split; [intros s; apply ReplaceAll_no_occurrence|].
  split.
  { intros a b Hfirst.
    by rewrite (ReplaceAll_first_occurrence " (brokered)" EmptyString a b). }
  split; [intros s; apply occurrence_cases|].
  split; [reflexivity|].
  split.
  { intros c s Hc. unfold GoRegexp.ReplaceAllString. cbn [GoRegexp.sanitizeFrom].
    by replace (GoStrings.byte c <? 128) with true by (symmetry; by apply Z.ltb_lt). }
  intros c s Hc. pose proof (runeSize_range c s) as Hrange. split; [exact Hrange|].
  unfold GoRegexp.ReplaceAllString. cbn [GoRegexp.sanitizeFrom].
  replace (GoStrings.byte c <? 128) with false by (symmetry; apply Z.ltb_ge; lia).
  f_equal. rewrite sanitizeFrom_skip.
  destruct (GoRegexp.runeSize (String c s)) as [|n]; [lia|].
  by rewrite sliceFrom_cons, Nat.sub_succ, Nat.sub_0_r.
Qed.

(** *** Rendering *)

Lemma lastDigits_length (n : nat) (z : Z) (acc : string) :
  String.length (GoFmt.lastDigits n z acc) = (n + String.length acc)%nat.
Proof.
  revert z acc. induction n as [|n IH]; intros z acc; simpl; [done|].
  rewrite IH. simpl. lia.
Qed.

(** A number printed with [prec] decimals has a sign, an integer part, a
    point and exactly [prec] digits after it. *)
Lemma formatFloat_decimals (prec : nat) (f : float) :
  finite f = true ->
  exists sign whole digits,
    GoFmt.formatFloat prec f = sign +:+ whole +:+ "." +:+ digits
    /\ String.length digits = prec.
Proof.
  unfold finite, GoFmt.formatFloat, GoFmt.fixedDigits.
  destruct (Prim2SF f) as [s|s| |s m e]; intros H; try discriminate H.
  - eexists _, _, _. split; [reflexivity|].
    rewrite lastDigits_length. simpl. lia.
  - eexists _, _, _. split; [reflexivity|].
    rewrite lastDigits_length. simpl. lia.
Qed.

Lemma scalarFamily_samples (p4m : P4DMetrics) mname help ty v x (P : Value -> bool) :
  P x = true ->
  Forall (fun s => P s.2 = true) (famSamples (scalarFamily p4m mname help ty v x)).
Proof. intros H. simpl. by repeat constructor. Qed.

Lemma mapFamily_samples {V : Type} (p4m : P4DMetrics) mname help v label
    (inj : V -> Value) (m : gmap string V) (P : Value -> bool) :
  (forall x, P (inj x) = true) ->
  Forall (fun s => P s.2 = true) (famSamples (mapFamily p4m mname help v label inj m)).
Proof.
  intros H. simpl. apply List.Forall_forall. intros s Hs.
  apply in_map_iff in Hs as (kv & <- & _). apply H.
Qed.

Lemma detailFamily_samples {V : Type} (p4m : P4DMetrics) mname help v
    (inj : V -> Value) (m : gmap string (gmap string V)) (P : Value -> bool) :
  (forall x, P (inj x) = true) ->
  Forall (fun s => P s.2 = true) (famSamples (detailFamily p4m mname help v inj m)).
Proof.
  intros H. simpl. apply List.Forall_forall. intros s Hs.
  apply in_flat_map in Hs as (um & _ & Hs).
  apply in_map_iff in Hs as (kv & <- & _). apply H.
Qed.

Ltac family_samples :=
  first [ apply scalarFamily_samples; reflexivity
        | apply mapFamily_samples; reflexivity
        | apply detailFamily_samples; reflexivity ].

Ltac family_case H :=
  first [ (cbv in H; discriminate H) | (split; [reflexivity | family_samples]) ].

Ltac family_format :=
  unfold wellFormatted; split; [|split];
  [ intros Hc; family_case Hc
  | intros Hc; family_case Hc
  | intros Hc1 Hc2;
    first [ (cbv in Hc1; discriminate Hc1) | (cbv in Hc2; discriminate Hc2)
          | (split; [reflexivity | family_samples]) ] ].

Lemma metricFamilies_wellFormatted (pr : Probe) (p4m : P4DMetrics) (f : Family) :
  In f (metricFamilies pr p4m) -> wellFormatted f.
Proof.
  unfold metricFamilies. intros Hin.
  repeat (apply in_app_or in Hin as [Hin|Hin]).
  - cbn [In] in Hin.
    repeat (destruct Hin as [<-|Hin]; [family_format|]). destruct Hin.
  - destruct (OutputCmdsByUser (config p4m)); cbn [In] in Hin;
      repeat (destruct Hin as [<-|Hin]; [family_format|]); destruct Hin.
  - destruct (OutputCmdsByIP (config p4m)); cbn [In] in Hin;
      repeat (destruct Hin as [<-|Hin]; [family_format|]); destruct Hin.
  - destruct (negb _); cbn [In] in Hin;
      repeat (destruct Hin as [<-|Hin]; [family_format|]); destruct Hin.
  - cbn [In] in Hin.
    repeat (destruct Hin as [<-|Hin]; [family_format|]). destruct Hin.
  - destruct (0 <? _); cbn [In] in Hin;
      repeat (destruct Hin as [<-|Hin]; [family_format|]); destruct Hin.
Qed.

(** C7, as worded, fails: the user CPU seconds by command are a CPU-seconds
    metric, and its block prints with ["%0.3f"]: 1500 milliseconds come out
    as [1.500]. *)
Lemma cpu_seconds_by_command_at_three :
  let p4m := Sample.published Sample.replay Sample.viaRelay in
  let f := mapFamily p4m "p4_cmd_cpu_user_cumulative_seconds"
             "The total in user CPU seconds (by cmd)"
             Verb3f "cmd" FloatVal (cmduCPUCumulative p4m) in
  In f (metricFamilies Sample.probe p4m)
  /\ Spec.isCPUSeconds (famName f) = true
  /\ famVerb f = Verb3f
  /\ renderFamily p4m f
     = ("p4_cmd_cpu_user_cumulative_seconds;serverid=master.1;cmd=user-sync 1.500 -62135596800"
        +:+ GoStrings.str GoStrings.newline)%string
  /\ ~ Spec.cpuSecondsAtSix (metricFamilies Sample.probe p4m).
Proof.
  cbv zeta.
  assert (Hin : In (mapFamily (Sample.published Sample.replay Sample.viaRelay)
                      "p4_cmd_cpu_user_cumulative_seconds"
                      "The total in user CPU seconds (by cmd)" Verb3f "cmd" FloatVal
                      (cmduCPUCumulative (Sample.published Sample.replay Sample.viaRelay)))
                   (metricFamilies Sample.probe
                      (Sample.published Sample.replay Sample.viaRelay))).
  { unfold metricFamilies. apply in_or_app. left. cbn [In]. do 13 right. by left. }
  split; [exact Hin|]. split; [reflexivity|]. split; [reflexivity|].
  split; [by vm_compute|].
  intros H. specialize (H _ Hin eq_refl). discriminate H.
Qed.

(** C7, amended: in every block of a snapshot the integer-valued metrics
    are printed with ["%d"], plain decimal; the totals in seconds, the CPU
    seconds by command among them, with ["%0.3f"]; and the CPU time of the
    process, [p4_prom_cpu_user] and [p4_prom_cpu_system], with ["%.6f"].  A
    float that is a number then has exactly three, respectively six, digits
    after the point. *)
Theorem value_formats (pr : Probe) (p4m : P4DMetrics) (f : Family) :
  In f (metricFamilies pr p4m) ->
  (processCPU (famName f) = true ->
     famVerb f = Verb6f /\ Forall (fun s => isFloat s.2 = true) (famSamples f))
  /\ (secondsTotal (famName f) = true ->
        famVerb f = Verb3f /\ Forall (fun s => isFloat s.2 = true) (famSamples f))
  /\ (processCPU (famName f) = false -> secondsTotal (famName f) = false ->
        famVerb f = VerbD /\ Forall (fun s => isInt s.2 = true) (famSamples f))
  /\ (forall n, sprintf VerbD (IntVal n) = GoFmt.formatInt n)
  /\ (forall x, finite x = true ->
        exists sign whole digits,
          sprintf Verb3f (FloatVal x) = sign +:+ whole +:+ "." +:+ digits
          /\ String.length digits = 3%nat)
  /\ (forall x, finite x = true ->
        exists sign whole digits,
          sprintf Verb6f (FloatVal x) = sign +:+ whole +:+ "." +:+ digits
          /\ String.length digits = 6%nat)
  /\ renderFamily p4m f
     = printMetricHeader p4m (famName f) (famHelp f) (famType f)
       +:+ GoStrings.concat
             (map (fun s => printMetric p4m (famName f) s.1 (sprintf (famVerb f) s.2))
                  (famSamples f)).
Proof.
  intros Hin. destruct (metricFamilies_wellFormatted _ _ _ Hin) as (A & B & C).
  split; [exact A|]. split; [exact B|]. split; [exact C|].
  split; [reflexivity|].
  split; [intros x; apply formatFloat_decimals|].
  split; [intros x; apply formatFloat_decimals|]. reflexivity.
Qed.

(** *** The order of the blocks *)

(** C8, as worded, fails: five sync counters, not four, stand between the
    CPU metrics and the per-command counter. *)
Lemma five_sync_counters :
  firstn 12 (map famName (metricFamilies Sample.probe Sample.live))
  = [ "p4_prom_log_lines_read"; "p4_prom_cmds_processed"; "p4_prom_cmds_pending";
      "p4_cmd_running"; "p4_prom_cpu_user"; "p4_prom_cpu_system";
      "p4_sync_files_added"; "p4_sync_files_updated"; "p4_sync_files_deleted";
      "p4_sync_bytes_added"; "p4_sync_bytes_updated"; "p4_cmd_counter" ]%string
  /\ ~ Spec.fourSyncCounters (map famName (metricFamilies Sample.probe Sample.live)).
Proof.
  split; [reflexivity|].
  intros (s1 & s2 & s3 & s4 & rest & H).
  apply (f_equal (fun l => nth 10 l EmptyString)) in H.
  vm_compute in H. discriminate H.
Qed.

(** C8, amended: every snapshot has its blocks in this order: lines read,
    commands processed, pending and running, user and system CPU, five sync
    counters (files added, updated and deleted, bytes added and updated),
    the per-command counter, cumulative, user-CPU and system-CPU totals and
    error counter, the per-user pair if [OutputCmdsByUser], the per-IP pair
    if [OutputCmdsByIP], the user-detail pair if [OutputCmdsByUserRegex] is
    not empty, the per-replica and per-program pairs, the four lock totals,
    and last the trigger lapse total if and only if a trigger has been
    recorded. *)
Theorem family_order (pr : Probe) (p4m : P4DMetrics) :
  map famName (metricFamilies pr p4m)
  = [ "p4_prom_log_lines_read"; "p4_prom_cmds_processed"; "p4_prom_cmds_pending";
      "p4_cmd_running"; "p4_prom_cpu_user"; "p4_prom_cpu_system";
      "p4_sync_files_added"; "p4_sync_files_updated"; "p4_sync_files_deleted";
      "p4_sync_bytes_added"; "p4_sync_bytes_updated";
      "p4_cmd_counter"; "p4_cmd_cumulative_seconds";
      "p4_cmd_cpu_user_cumulative_seconds"; "p4_cmd_cpu_system_cumulative_seconds";
      "p4_cmd_error_counter" ]%string
    ++ (if OutputCmdsByUser (config p4m)
        then [ "p4_cmd_user_counter"; "p4_cmd_user_cumulative_seconds" ]%string else [])
    ++ (if OutputCmdsByIP (config p4m)
        then [ "p4_cmd_ip_counter"; "p4_cmd_ip_cumulative_seconds" ]%string else [])
    ++ (if String.eqb (OutputCmdsByUserRegex (config p4m)) EmptyString then []
        else [ "p4_cmd_user_detail_counter";
               "p4_cmd_user_detail_cumulative_seconds" ]%string)
    ++ [ "p4_cmd_replica_counter"; "p4_cmd_replica_cumulative_seconds";
         "p4_cmd_program_counter"; "p4_cmd_program_cumulative_seconds";
         "p4_total_read_wait_seconds"; "p4_total_read_held_seconds";
         "p4_total_write_wait_seconds"; "p4_total_write_held_seconds" ]%string
    ++ (if bool_decide (totalTriggerLapse p4m = ∅) then []
        else [ "p4_total_trigger_lapse_seconds" ]%string)
  /\ getCumulativeMetrics pr p4m
     = GoStrings.concat (map (renderFamily p4m) (metricFamilies pr p4m))
  /\ (forall t, isTrigger (TableName t) = true ->
        totalTriggerLapse (recordTable p4m t) <> ∅)
  /\ (forall t, isTrigger (TableName t) = false ->
        totalTriggerLapse (recordTable p4m t) = totalTriggerLapse p4m).
Proof.
  split; [|split; [reflexivity|split]].
  - unfold metricFamilies. rewrite !map_app.
    assert ((0 <? Z.of_nat (size (totalTriggerLapse p4m)))
            = negb (bool_decide (totalTriggerLapse p4m = ∅))) as ->.
    { destruct (bool_decide (totalTriggerLapse p4m = ∅)) eqn:Hd; simpl.
      - apply bool_decide_eq_true in Hd. rewrite Hd. reflexivity.
      - apply bool_decide_eq_false in Hd. apply Z.ltb_lt.
        assert (size (totalTriggerLapse p4m) <> 0%nat)
          by (intros H0; by apply map_size_empty_iff in H0). lia. }
    destruct (OutputCmdsByUser (config p4m)), (OutputCmdsByIP (config p4m)),
      (String.eqb (OutputCmdsByUserRegex (config p4m)) ""),
      (bool_decide (totalTriggerLapse p4m = ∅)); reflexivity.
  - intros t Ht. simpl. rewrite Ht. unfold accum. apply insert_non_empty.
  - intros t Ht. simpl. by rewrite Ht.
Qed.

(** *** The theorems at the sample inputs *)

Lemma sample_busyLive_reachable :
  reachable Sample.ToLower Sample.MustCompile Sample.busyLive.
Proof.
  apply (reachable_iteration Sample.ToLower Sample.MustCompile
           Sample.startLive Sample.probe (EvCmd Sample.viaRelay) Sample.busyLive []).
  - by apply (reachable_start _ _ Sample.cfg false false).
  - reflexivity.
  - by vm_compute.
Defined.

Lemma reset_by_class_witness :
  reachable Sample.ToLower Sample.MustCompile Sample.busyLive
  /\ iteration Sample.ToLower Sample.MustCompile Sample.probe Sample.busyLive EvTick
     = Some (Sample.step Sample.busyLive EvTick)
  /\ cmdCounter (metrics Sample.busyLive) !! "user-sync" = Some 1
  /\ cmdCumulative (metrics Sample.busyLive) !! "user-sync" = Some 1.5%float
  /\ countersZero (metrics (Sample.step Sample.busyLive EvTick).1)
  /\ cmdCumulative (metrics (Sample.step Sample.busyLive EvTick).1)
     = cmdCumulative (metrics Sample.busyLive)
  /\ cmdsProcessed (metrics (Sample.step Sample.busyLive EvTick).1)
     = cmdsProcessed (metrics Sample.busyLive).
Proof.
  assert (Hit : iteration Sample.ToLower Sample.MustCompile Sample.probe Sample.busyLive EvTick
                = Some ((Sample.step Sample.busyLive EvTick).1,
                        (Sample.step Sample.busyLive EvTick).2)) by (by vm_compute).
  split; [exact sample_busyLive_reachable|].
  split; [by vm_compute|]. split; [by vm_compute|]. split; [by vm_compute|].
  destruct (reset_by_class _ _ _ _ _ _ _ sample_busyLive_reachable Hit)
    as (Hlive & _ & Hcum & _).
  destruct (Hlive eq_refl eq_refl) as (_ & _ & Hzero).
  destruct Hcum as (Hp & Hc & _).
  split; [exact Hzero|]. split; [exact Hc | exact Hp].
Defined.

Lemma lock_maps_share_keys_witness :
  reachable Sample.ToLower Sample.MustCompile Sample.busyLive
  /\ dom (totalReadHeld (metrics Sample.busyLive)) = {["db.have"%string]}
  /\ lockKeysAgree (metrics Sample.busyLive)
  /\ allZero Float64.zero (totalWriteHeld (resetToZero (metrics Sample.busyLive))).
Proof.
  split; [exact sample_busyLive_reachable|]. split; [by vm_compute|].
  destruct (lock_maps_share_keys _ _ _ sample_busyLive_reachable)
    as (Hkeys & _ & _ & _ & _ & Hz & _).
  by split.
Defined.

Lemma boundary_three_lines_witness :
  historical Sample.replay = true
  /\ latestStartCmdBuf Sample.replay = EmptyString
  /\ UpdateInterval (config Sample.replay) = GoTime.Minute
  /\ required (historicalUpdateRequired Sample.replay Sample.line1) = false
  /\ required (historicalUpdateRequired
                 (after (historicalUpdateRequired Sample.replay Sample.line1))
                 Sample.line2) = false
  /\ required (historicalUpdateRequired
                 (after (historicalUpdateRequired
                           (after (historicalUpdateRequired Sample.replay Sample.line1))
                           Sample.line2))
                 Sample.line3) = true.
Proof.
  split; [reflexivity|]. split; [reflexivity|]. split; [reflexivity|].
  destruct (boundary_three_lines Sample.replay
              " pid 1 bruno@ws 10.0.0.5 [p4] 'user-sync'"
              " pid 2 bruno@ws 10.0.0.5 [p4] 'user-sync'"
              " pid 3 bruno@ws 10.0.0.5 [p4] 'user-sync'" eq_refl eq_refl eq_refl)
    as ((R1 & _) & (R2 & _) & (R3 & _) & _).
  split; [exact R1|]. split; [exact R2 | exact R3].
Defined.

Lemma notify_without_update_witness :
  historical Sample.stored = true
  /\ qualifies Sample.line5 = true
  /\ latestStartCmdBuf Sample.stored <> EmptyString
  /\ 0 < GoStrings.Compare (GoStrings.slice Sample.line5 0 lenPrefix)
           (latestStartCmdBuf Sample.stored)
  /\ 3 * GoTime.Second
     <= GoTime.Sub (GoTime.Parse (GoStrings.slice Sample.line5 1 lenPrefix))
          (timeLatestStartCmd Sample.stored)
     < UpdateInterval (config Sample.stored)
  /\ historicalUpdateRequired Sample.stored Sample.line5
     = {| after := Sample.stored; notified := Some 1704067205; required := false |}.
Proof.
  assert (H1 : historical Sample.stored = true) by reflexivity.
  assert (H2 : qualifies Sample.line5 = true) by (by vm_compute).
  assert (H3 : latestStartCmdBuf Sample.stored <> EmptyString) by discriminate.
  assert (H4 : 0 < GoStrings.Compare (GoStrings.slice Sample.line5 0 lenPrefix)
                     (latestStartCmdBuf Sample.stored)) by (by vm_compute).
  assert (H5 : 3 * GoTime.Second
               <= GoTime.Sub (GoTime.Parse (GoStrings.slice Sample.line5 1 lenPrefix))
                    (timeLatestStartCmd Sample.stored)
               < UpdateInterval (config Sample.stored)) by (by vm_compute).
  repeat (split; [assumption|]).
  exact (notify_without_update Sample.stored Sample.line5 H1 H2 H3 H4 H5).
Defined.

Lemma final_snapshot_once_witness :
  ProcessEvents Sample.live false = Some Sample.startLive
  /\ run Sample.ToLower Sample.MustCompile Sample.startLive
       (Sample.untilLinesClosed ++ (Sample.probe, EvLinesClosed) :: Sample.draining)
     = Some (Sample.ran Sample.startLive
               (Sample.untilLinesClosed ++ (Sample.probe, EvLinesClosed) :: Sample.draining))
  /\ length (List.filter isSnapshot
       (Sample.ran Sample.startLive
          ((Sample.untilLinesClosed ++ (Sample.probe, EvLinesClosed) :: Sample.draining)
           ++ (Sample.probe, EvCmdsClosed) :: Sample.afterwards)).2) = 2%nat
  /\ length (List.filter closesLines
       (Sample.ran Sample.startLive
          (Sample.untilLinesClosed ++ (Sample.probe, EvLinesClosed) :: Sample.draining)).2)
     = 1%nat.
Proof.
  assert (H0 : ProcessEvents Sample.live false = Some Sample.startLive) by reflexivity.
  assert (H1 : run Sample.ToLower Sample.MustCompile Sample.startLive
                 (Sample.untilLinesClosed ++ (Sample.probe, EvLinesClosed) :: Sample.draining)
               = Some ((Sample.ran Sample.startLive
                          (Sample.untilLinesClosed
                           ++ (Sample.probe, EvLinesClosed) :: Sample.draining)).1,
                       (Sample.ran Sample.startLive
                          (Sample.untilLinesClosed
                           ++ (Sample.probe, EvLinesClosed) :: Sample.draining)).2))
    by (by vm_compute).
  assert (H2 : running (Sample.ran Sample.startLive
                          (Sample.untilLinesClosed
                           ++ (Sample.probe, EvLinesClosed) :: Sample.draining)).1 = true)
    by (by vm_compute).
  split; [exact H0|]. split; [by vm_compute|]. split; [by vm_compute|].
  by destruct (final_snapshot_once Sample.ToLower Sample.MustCompile Sample.live false
                 Sample.startLive _ Sample.untilLinesClosed Sample.draining
                 Sample.afterwards Sample.probe Sample.probe _ H0 H1 H2)
    as (_ & Hcount & _).
Defined.

Lemma address_split_witness :
  publishEvent Sample.ToLower Sample.MustCompile Sample.live Sample.viaRelay
    = Some (Sample.published Sample.live Sample.viaRelay)
  /\ incrementedAt "relay1" (cmdByReplicaCounter Sample.live)
       (cmdByReplicaCounter (Sample.published Sample.live Sample.viaRelay))
  /\ incrementedAt "10.0.0.5" (cmdByIPCounter Sample.live)
       (cmdByIPCounter (Sample.published Sample.live Sample.viaRelay))
  /\ cmdByReplicaCounter (Sample.published Sample.live Sample.viaRelay) !! "relay1" = Some 1
  /\ cmdByIPCounter (Sample.published Sample.live Sample.viaRelay) !! "10.0.0.5" = Some 1
  /\ cmdByReplicaCumulative (Sample.published Sample.live Sample.viaRelay) !! "relay1"
     = Some 1.5%float
  /\ cmdByIPCumulative (Sample.published Sample.live Sample.viaRelay) !! "10.0.0.5"
     = Some 1.5%float.
Proof.
  assert (H : publishEvent Sample.ToLower Sample.MustCompile Sample.live Sample.viaRelay
              = Some (Sample.published Sample.live Sample.viaRelay)) by (by vm_compute).
  split; [exact H|].
  destruct (address_split _ _ _ _ _ H) as (Hsplit & _).
  destruct (Hsplit "relay1"%string "10.0.0.5"%string eq_refl) as (A & _ & B & _).
  - discriminate.
  - unfold slashFree. simpl. intros Hin.
    repeat (destruct Hin as [Hin|Hin]; [discriminate Hin|]). exact Hin.
  - split; [exact A|]. split; [exact B|].
    split; [by vm_compute|]. split; [by vm_compute|]. split; by vm_compute.
Defined.

Lemma program_key_witness :
  publishEvent Sample.ToLower Sample.MustCompile Sample.live Sample.viaRelay
    = Some (Sample.published Sample.live Sample.viaRelay)
  /\ App Sample.viaRelay = "p4/2020.1 (brokered)"%string
  /\ incrementedAt "p4/2020.1" (cmdByProgramCounter Sample.live)
       (cmdByProgramCounter (Sample.published Sample.live Sample.viaRelay))
  /\ addedAt "p4/2020.1" 1.5%float (cmdByProgramCumulative Sample.live)
       (cmdByProgramCumulative (Sample.published Sample.live Sample.viaRelay))
  /\ cmdByProgramCounter (Sample.published Sample.live Sample.viaRelay) !! "p4/2020.1"
     = Some 1
  /\ cmdByProgramCumulative (Sample.published Sample.live Sample.viaRelay) !! "p4/2020.1"
     = Some 1.5%float.
Proof.
  assert (H : publishEvent Sample.ToLower Sample.MustCompile Sample.live Sample.viaRelay
              = Some (Sample.published Sample.live Sample.viaRelay)) by (by vm_compute).
  assert (Hkey : GoRegexp.ReplaceAllString
                   (GoStrings.ReplaceAll (App Sample.viaRelay) " (brokered)" EmptyString)
                 = "p4/2020.1"%string) by (by vm_compute).
  split; [exact H|]. split; [reflexivity|].
  destruct (program_key _ _ _ _ _ H) as (A & B & _).
  cbv zeta in A, B. rewrite Hkey in A, B.
  split; [exact A|]. split; [exact B|]. split; by vm_compute.
Defined.

Lemma value_formats_witness :
  let f := scalarFamily Sample.live "p4_prom_cpu_user" "User CPU used by p4prometheus"
             "counter" Verb6f (FloatVal (userCPU Sample.probe)) in
  In f (metricFamilies Sample.probe Sample.live)
  /\ famVerb f = Verb6f
  /\ sprintf (famVerb f) (FloatVal (userCPU Sample.probe)) = "0.250000"%string.
Proof.
  cbv zeta.
  assert (Hin : In (scalarFamily Sample.live "p4_prom_cpu_user"
                      "User CPU used by p4prometheus" "counter" Verb6f
                      (FloatVal (userCPU Sample.probe)))
                   (metricFamilies Sample.probe Sample.live)).
  { unfold metricFamilies. apply in_or_app. left. cbn [In]. do 4 right. by left. }
  split; [exact Hin|].
  destruct (value_formats _ _ _ Hin) as (A & _).
  split; [by destruct (A eq_refl) | by vm_compute].
Defined.

(** *** The examples of the specification, run on the code *)

Example trigger_mytrig :
  totalTriggerLapse (recordTable Sample.live Sample.trigTable) !! "mytrig" = Some 0.5%float
  /\ totalReadHeld (recordTable Sample.live Sample.trigTable) = ∅
  /\ totalWriteHeld (recordTable Sample.live Sample.trigTable) = ∅.
Proof. split; [by vm_compute|]. by split. Qed.

Example bare_address :
  splitIP "10.0.0.5" = ("10.0.0.5"%string, EmptyString)
  /\ splitIP "relay1/10.0.0.5" = ("10.0.0.5"%string, "relay1"%string)
  /\ cmdByReplicaCounter (Sample.published Sample.live Sample.direct) = ∅
  /\ cmdByIPCounter (Sample.published Sample.live Sample.direct) !! "10.0.0.5" = Some 1.
Proof. repeat split; by vm_compute. Qed.

Example historical_sample_line :
  formatMetric Sample.stored "p4_cmd_counter" [ {| name := "cmd"; value := "sync" |} ]
    (GoFmt.formatInt 5)
  = ("p4_cmd_counter;cmd=sync 5 1704067200" +:+ GoStrings.str GoStrings.newline)%string.
Proof. by vm_compute. Qed.

Example counters_after_a_tick :
  cmdCounter (metrics (Sample.step Sample.busyLive EvTick).1) !! "user-sync" = Some 0
  /\ cmdCumulative (metrics (Sample.step Sample.busyLive EvTick).1) !! "user-sync"
     = Some 1.5%float
  /\ cmdsProcessed (metrics (Sample.step Sample.busyLive EvTick).1) = 1.
Proof. repeat split; by vm_compute. Qed.

(* ===================================================================== *)
(** * Further properties                                                  *)
(* ===================================================================== *)

(** *** resetToZero: keys and repetition *)

Lemma zeroKeys_dom_union {V : Type} (z : V) (m : gmap string V) {W : Type} (other : gmap string W) :
  dom (zeroKeys z (keys other) m) = dom other ∪ dom m.
Proof.
  apply set_eq. intros k. rewrite elem_of_union, !elem_of_dom, zeroKeys_lookup.
  destruct (decide (k ∈ keys other)) as [Hin|Hin].
  - apply elem_of_keys in Hin. split; [by left | eauto].
  - rewrite elem_of_keys in Hin. split; [by right | by intros [?|?]].
Qed.

Lemma zeroAll_twice {V : Type} (z : V) (m : gmap string V) :
  zeroAll z (zeroAll z m) = zeroAll z m.
Proof.
  apply map_eq. intros k. rewrite !zeroAll_lookup. by destruct (m !! k).
Qed.

Lemma zeroKeys_twice {V : Type} (z : V) (held m : gmap string V) :
  zeroKeys z (keys (zeroKeys z (keys held) held)) (zeroKeys z (keys held) m)
  = zeroKeys z (keys held) m.
Proof.
  apply map_eq. intros k. rewrite !zeroKeys_lookup.
  destruct (decide (k ∈ keys held)) as [Hin|Hin].
  - by destruct (decide (k ∈ keys (zeroKeys z (keys held) held))).
  - rewrite decide_False; [done|].
    rewrite elem_of_keys, zeroKeys_lookup, decide_False by done.
    by rewrite <- elem_of_keys.
Qed.

(** X1: [resetToZero] removes no key.  Every counter map keeps exactly its
    keys (so a label seen once goes on being printed, with value zero), the
    inner maps of the user detail keep theirs, and a lock map ends with its
    own keys and those of [totalReadHeld]; the cumulative maps, the
    processed count, the configuration, the mode and the stored boundary are
    untouched. *)
Theorem resetToZero_keeps_keys (p4m : P4DMetrics) :
  let r := resetToZero p4m in
  dom (cmdCounter r) = dom (cmdCounter p4m)
  /\ dom (cmdErrorCounter r) = dom (cmdErrorCounter p4m)
  /\ dom (cmdByUserCounter r) = dom (cmdByUserCounter p4m)
  /\ dom (cmdByIPCounter r) = dom (cmdByIPCounter p4m)
  /\ dom (cmdByReplicaCounter r) = dom (cmdByReplicaCounter p4m)
  /\ dom (cmdByProgramCounter r) = dom (cmdByProgramCounter p4m)
  /\ dom (totalTriggerLapse r) = dom (totalTriggerLapse p4m)
  /\ (forall user, dom <$> (cmdByUserDetailCounter r !! user)
                   = dom <$> (cmdByUserDetailCounter p4m !! user))
  /\ dom (totalReadHeld r) = dom (totalReadHeld p4m)
  /\ dom (totalReadWait r) = dom (totalReadHeld p4m) ∪ dom (totalReadWait p4m)
  /\ dom (totalWriteWait r) = dom (totalReadHeld p4m) ∪ dom (totalWriteWait p4m)
  /\ dom (totalWriteHeld r) = dom (totalReadHeld p4m) ∪ dom (totalWriteHeld p4m)
  /\ (cmdCumulative r, cmduCPUCumulative r, cmdsCPUCumulative r, cmdByUserCumulative r,
      cmdByIPCumulative r, cmdByReplicaCumulative r, cmdByProgramCumulative r,
      cmdByUserDetailCumulative r, cmdsProcessed r)
     = (cmdCumulative p4m, cmduCPUCumulative p4m, cmdsCPUCumulative p4m,
        cmdByUserCumulative p4m, cmdByIPCumulative p4m, cmdByReplicaCumulative p4m,
        cmdByProgramCumulative p4m, cmdByUserDetailCumulative p4m, cmdsProcessed p4m)
  /\ (config r, historical r, latestStartCmdBuf r, timeLatestStartCmd r,
      outputCmdsByUserRegex r)
     = (config p4m, historical p4m, latestStartCmdBuf p4m, timeLatestStartCmd p4m,
        outputCmdsByUserRegex p4m).
Proof.
  cbv zeta. simpl. rewrite !zeroAll_dom, !zeroKeys_dom_union.
  repeat split; try done.
  - intros user. rewrite lookup_fmap.
    destruct (cmdByUserDetailCounter p4m !! user); simpl; [|done].
    by rewrite zeroAll_dom.
  - by rewrite union_idemp_L.
Qed.

(** X2: resetting twice is resetting once. *)
Theorem resetToZero_twice (p4m : P4DMetrics) :
  resetToZero (resetToZero p4m) = resetToZero p4m.
Proof.
  unfold resetToZero. simpl.
  rewrite !zeroAll_twice, !zeroKeys_twice.
  f_equal. rewrite <- map_fmap_compose. apply map_fmap_ext.
  intros k inner _. simpl. apply zeroAll_twice.
Qed.

(** *** publishEvent: when it panics *)

Lemma userDetail_None MustCompile (p4m : P4DMetrics) (user : string) (cmd : Command) :
  detailKeysAgree p4m ->
  userDetail MustCompile p4m user cmd = None <->
  (OutputCmdsByUserRegex (config p4m) <> EmptyString
   /\ outputCmdsByUserRegex p4m = None
   /\ MustCompile ("(" +:+ OutputCmdsByUserRegex (config p4m) +:+ ")") = None).
Proof.
  unfold detailKeysAgree, userDetail. intros Hdom.
  destruct (String.eqb (OutputCmdsByUserRegex (config p4m)) "") eqn:Hre.
  - apply String.eqb_eq in Hre. split; [done | by intros (? & _)].
  - apply String.eqb_neq in Hre.
    destruct (outputCmdsByUserRegex p4m) as [re|] eqn:Hcompiled; simpl.
    + split; [|by intros (_ & ? & _)].
      destruct (re user); [|done].
      destruct (cmdByUserDetailCounter p4m !! user) as [counts|] eqn:Hc.
      * rewrite Hc. simpl.
        assert (is_Some (cmdByUserDetailCumulative p4m !! user)) as [totals Ht].
        { apply elem_of_dom. rewrite <- Hdom. apply elem_of_dom. eauto. }
        by rewrite Ht.
      * by rewrite !lookup_insert_eq.
    + destruct (MustCompile _) as [re|]; simpl; [|done].
      split; [|by intros (_ & _ & ?)].
      destruct (re user); [|done].
      destruct (cmdByUserDetailCounter p4m !! user) as [counts|] eqn:Hc.
      * rewrite Hc. simpl.
        assert (is_Some (cmdByUserDetailCumulative p4m !! user)) as [totals Ht].
        { apply elem_of_dom. rewrite <- Hdom. apply elem_of_dom. eauto. }
        by rewrite Ht.
      * by rewrite !lookup_insert_eq.
Qed.

(** X3: [publishEvent] panics in one case only.  On a state whose two
    user-detail maps have the same users (every reachable one), it fails
    exactly when a user-detail expression is configured, has not been
    compiled yet and [MustCompile] rejects it; with no expression configured
    it never fails. *)
Theorem publishEvent_panics_only_on_bad_filter ToLower MustCompile
    (p4m : P4DMetrics) (cmd : Command) :
  detailKeysAgree p4m ->
  (publishEvent ToLower MustCompile p4m cmd = None <->
   (OutputCmdsByUserRegex (config p4m) <> EmptyString
    /\ outputCmdsByUserRegex p4m = None
    /\ MustCompile ("(" +:+ OutputCmdsByUserRegex (config p4m) +:+ ")") = None))
  /\ (OutputCmdsByUserRegex (config p4m) = EmptyString ->
      is_Some (publishEvent ToLower MustCompile p4m cmd)).
Proof.
  intros Hdom.
  assert (Hiff : publishEvent ToLower MustCompile p4m cmd = None <->
                 userDetail MustCompile p4m
                   (if CaseSensitiveServer (config p4m) then User cmd
                    else ToLower (User cmd)) cmd = None).
  { unfold publishEvent.
    destruct (userDetail _ _ _ _) as [[[re dc] dcum]|]; simpl; [|done].
    by destruct (splitIP (IP cmd)). }
  split.
  - rewrite Hiff. by apply userDetail_None.
  - intros Hre. apply not_eq_None_Some. intros Hp.
    apply Hiff, userDetail_None in Hp as (Hne & _); done.
Qed.

Lemma publishEvent_panics_only_on_bad_filter_witness :
  detailKeysAgree Sample.detailed
  /\ publishEvent Sample.ToLower (fun _ => None) Sample.detailed Sample.viaRelay = None
  /\ is_Some (publishEvent Sample.ToLower (fun _ => None) Sample.live Sample.viaRelay).
Proof.
  assert (H1 : detailKeysAgree Sample.detailed) by reflexivity.
  assert (H2 : detailKeysAgree Sample.live) by reflexivity.
  split; [exact H1|]. split.
  - apply (publishEvent_panics_only_on_bad_filter Sample.ToLower (fun _ => None)
             Sample.detailed Sample.viaRelay H1).
    split; [discriminate|]. by split.
  - by apply (publishEvent_panics_only_on_bad_filter Sample.ToLower (fun _ => None)
                Sample.live Sample.viaRelay H2).
Defined.

(** *** Invariants of the aggregate state *)

Lemma incr_dom (k : string) (m : gmap string Z) : dom (incr k m) = {[k]} ∪ dom m.
Proof. unfold incr. by rewrite dom_insert_L. Qed.

(** The user-detail block on the keys of the two detail maps. *)
Lemma userDetail_keys MustCompile (p4m : P4DMetrics) user cmd re dc dcum :
  (forall u, dom <$> (cmdByUserDetailCumulative p4m !! u)
             = dom <$> (cmdByUserDetailCounter p4m !! u)) ->
  userDetail MustCompile p4m user cmd = Some (re, dc, dcum) ->
  (forall u, dom <$> (dcum !! u) = dom <$> (dc !! u))
  /\ dom dc ⊆ {[user]} ∪ dom (cmdByUserDetailCounter p4m)
  /\ (forall u inner, dc !! u = Some inner ->
        dom inner ⊆ {[Cmd cmd]}
        \/ exists inner0, cmdByUserDetailCounter p4m !! u = Some inner0
                          /\ dom inner ⊆ {[Cmd cmd]} ∪ dom inner0).
Proof.
  unfold userDetail. intros Hpair H.
  assert (Hsame : (forall u, dom <$> (cmdByUserDetailCumulative p4m !! u)
                             = dom <$> (cmdByUserDetailCounter p4m !! u))
                  /\ dom (cmdByUserDetailCounter p4m)
                     ⊆ {[user]} ∪ dom (cmdByUserDetailCounter p4m)
                  /\ (forall u inner, cmdByUserDetailCounter p4m !! u = Some inner ->
                        dom inner ⊆ {[Cmd cmd]}
                        \/ exists inner0, cmdByUserDetailCounter p4m !! u = Some inner0
                                          /\ dom inner ⊆ {[Cmd cmd]} ∪ dom inner0)).
  { split; [done|]. split; [apply union_subseteq_r|].
    intros u inner Hu. right. exists inner. split; [done | apply union_subseteq_r]. }
  destruct (String.eqb _ _); [by injection H as <- <- <-|].
  destruct (match outputCmdsByUserRegex p4m with
            | Some re0 => Some re0 | None => MustCompile _ end) as [re0|]; simpl in H; [|done].
  destruct (re0 user); [|by injection H as <- <- <-].
  destruct (cmdByUserDetailCounter p4m !! user) as [counts|] eqn:Hc.
  - rewrite Hc in H. simpl in H.
    destruct (cmdByUserDetailCumulative p4m !! user) as [totals|] eqn:Ht; simpl in H; [|done].
    injection H as <- <- <-.
    assert (Hct : dom totals = dom counts).
    { specialize (Hpair user). rewrite Hc, Ht in Hpair. by injection Hpair. }
    split; [|split].
    + intros u. destruct (decide (user = u)) as [->|Hne].
      * rewrite !lookup_insert_eq. simpl. by rewrite accum_dom, incr_dom, Hct.
      * rewrite !lookup_insert_ne by done. apply Hpair.
    + rewrite dom_insert_L. apply union_mono_l. done.
    + intros u inner. destruct (decide (user = u)) as [->|Hne].
      * rewrite lookup_insert_eq. intros [= <-]. right. exists counts.
        split; [done|]. by rewrite incr_dom.
      * rewrite lookup_insert_ne by done. intros Hu. right. exists inner.
        split; [done | apply union_subseteq_r].
  - rewrite !lookup_insert_eq in H. simpl in H. injection H as <- <- <-.
    assert (Ht : cmdByUserDetailCumulative p4m !! user = None).
    { specialize (Hpair user). rewrite Hc in Hpair.
      by destruct (cmdByUserDetailCumulative p4m !! user). }
    split; [|split].
    + intros u. destruct (decide (user = u)) as [->|Hne].
      * rewrite !lookup_insert_eq. simpl. rewrite accum_dom, incr_dom.
        by rewrite !dom_empty_L.
      * rewrite !lookup_insert_ne by done. apply Hpair.
    + rewrite !dom_insert_L. by rewrite (union_assoc_L _ _ _), union_idemp_L.
    + intros u inner. destruct (decide (user = u)) as [->|Hne].
      * rewrite lookup_insert_eq. intros [= <-]. left.
        rewrite incr_dom, dom_empty_L. by rewrite union_empty_r_L.
      * rewrite !lookup_insert_ne by done. intros Hu. right. exists inner.
        split; [done | apply union_subseteq_r].
Qed.

(** The user-detail block against the configured filter. *)
Lemma userDetail_filtered MustCompile (p4m : P4DMetrics) user cmd re dc dcum :
  detailFiltered MustCompile p4m ->
  userDetail MustCompile p4m user cmd = Some (re, dc, dcum) ->
  (OutputCmdsByUserRegex (config p4m) = EmptyString -> dc = ∅ /\ re = None)
  /\ (forall r, re = Some r ->
        MustCompile ("(" +:+ OutputCmdsByUserRegex (config p4m) +:+ ")") = Some r)
  /\ (forall u, u ∈ dom dc -> exists r, re = Some r /\ r u = true).
Proof.
  unfold userDetail. intros (Hoff & Hcompiled & Hmatch) H.
  destruct (String.eqb (OutputCmdsByUserRegex (config p4m)) "") eqn:Hre.
  - injection H as <- <- <-. split; [exact Hoff | split; [exact Hcompiled | exact Hmatch]].
  - apply String.eqb_neq in Hre.
    assert (Hre0 : exists re0,
               match outputCmdsByUserRegex p4m with
               | Some r => Some r
               | None => MustCompile ("(" +:+ OutputCmdsByUserRegex (config p4m) +:+ ")")
               end = Some re0
               /\ MustCompile ("(" +:+ OutputCmdsByUserRegex (config p4m) +:+ ")") = Some re0
               /\ (forall u, u ∈ dom (cmdByUserDetailCounter p4m) -> re0 u = true)).
    { destruct (outputCmdsByUserRegex p4m) as [r|] eqn:Hr.
      - exists r. split; [done|]. split; [by apply Hcompiled|].
        intros u Hu. destruct (Hmatch u Hu) as (r' & [= <-] & Hru). exact Hru.
      - destruct (MustCompile _) as [r|] eqn:Hc; simpl in H; [|done].
        exists r. split; [done|]. split; [done|].
        intros u Hu. by destruct (Hmatch u Hu) as (r' & ? & _). }
    destruct Hre0 as (re0 & Hsel & Hmc & Hold). rewrite Hsel in H. simpl in H.
    destruct (re0 user) eqn:Huser.
    + assert (Hboth : forall X Y : gmap string (gmap string Z),
                 forall Z0 : gmap string Z,
                 dom X ⊆ {[user]} ∪ dom (cmdByUserDetailCounter p4m) ->
                 forall u, u ∈ dom (<[user := Z0]> X) -> re0 u = true).
      { intros X _ Z0 HX u. rewrite dom_insert_L.
        intros [->%elem_of_singleton|Hu]%elem_of_union; [done|].
        apply HX in Hu. apply elem_of_union in Hu as [->%elem_of_singleton|Hu]; [done|].
        by apply Hold. }
      destruct (cmdByUserDetailCounter p4m !! user) as [counts|] eqn:Hc.
      * rewrite Hc in H. simpl in H.
        destruct (cmdByUserDetailCumulative p4m !! user); simpl in H; [|done].
        injection H as <- <- <-. split; [done|]. split; [by intros r [= <-]|].
        intros u Hu. exists re0. split; [done|].
        eapply (Hboth _ ∅); [apply union_subseteq_r | exact Hu].
      * rewrite !lookup_insert_eq in H. simpl in H. injection H as <- <- <-.
        split; [done|]. split; [by intros r [= <-]|].
        intros u Hu. exists re0. split; [done|].
        eapply (Hboth _ ∅); [|exact Hu]. rewrite dom_insert_L. done.
    + injection H as <- <- <-. split; [done|]. split; [by intros r [= <-]|].
      intros u Hu. exists re0. split; [done | by apply Hold].
Qed.

Lemma isTrigger_decompose (tableName : string) :
  isTrigger tableName = true ->
  exists x, tableName = "trigger_" +:+ x /\ x <> EmptyString.
Proof.
  rewrite isTrigger_spec. intros [Hp Hlen]%andb_true_iff.
  apply Z.ltb_lt in Hlen. apply String.prefix_correct in Hp.
  simpl String.length in Hp.
  exists (GoStrings.sliceFrom tableName 8).
  assert (tableName = "trigger_" +:+ GoStrings.sliceFrom tableName 8) as Hsplit.
  { unfold GoStrings.sliceFrom. rewrite <- Hp at 1.
    generalize tableName. clear. intros s.
    do 8 (destruct s as [|? s]; [reflexivity|]).
    simpl. by rewrite Nat.sub_0_r, substring_whole, substring_0_0. }
  split; [exact Hsplit|]. intros Hx. rewrite Hx in Hsplit.
  rewrite Hsplit in Hlen. unfold GoStrings.len in Hlen. simpl in Hlen. lia.
Qed.

Lemma recordTable_tableKeysValid (p4m : P4DMetrics) (t : Table) :
  tableKeysValid p4m -> tableKeysValid (recordTable p4m t).
Proof.
  intros [Htrig Hlock]. unfold tableKeysValid. simpl.
  destruct (isTrigger (TableName t)) eqn:Ht.
  - split; [|exact Hlock]. intros k. rewrite accum_dom.
    intros [->%elem_of_singleton|Hk]%elem_of_union; [|by apply Htrig].
    destruct (isTrigger_decompose _ Ht) as (x & Hname & Hx).
    rewrite Hname. change (String.length triggerPrefix) with (String.length "trigger_").
    by rewrite sliceFrom_append.
  - split; [exact Htrig|]. intros k. rewrite accum_dom.
    intros [->%elem_of_singleton|Hk]%elem_of_union; [done | by apply Hlock].
Qed.

Lemma foldl_recordTable_tableKeysValid (ts : list Table) (p4m : P4DMetrics) :
  tableKeysValid p4m -> tableKeysValid (foldl recordTable p4m ts).
Proof.
  revert p4m. induction ts as [|t ts IH]; intros p4m H; simpl; [done|].
  by apply IH, recordTable_tableKeysValid.
Qed.

Lemma publishEvent_invariants ToLower MustCompile (p4m p4m' : P4DMetrics) (cmd : Command) :
  publishEvent ToLower MustCompile p4m cmd = Some p4m' ->
  pairedKeys p4m -> labelsValid p4m -> detailFiltered MustCompile p4m ->
  pairedKeys p4m' /\ labelsValid p4m' /\ detailFiltered MustCompile p4m'.
Proof.
  intros H (P1 & P2 & P3 & P4 & P5 & P6 & P7 & P8 & P9 & P10 & P11)
         (L1 & L2 & L3 & L4) Hfilter.
  publish_inv H.
  destruct (userDetail_keys _ _ _ _ _ _ _ P9 Hdetail) as (K1 & K2 & K3).
  destruct (userDetail_filtered _ _ _ _ _ _ _ Hfilter Hdetail) as (D1 & D2 & D3).
  assert (Htables : tableKeysValid p4m') .
  { rewrite H. apply foldl_recordTable_tableKeysValid. by split. }
  destruct Htables as [T3 T4].
  frame_tables.
  split; [|split].
  - unfold pairedKeys.
    repeat match goal with Hx : _ p4m' = _ |- _ => rewrite Hx; clear Hx end.
    rewrite !accum_dom, !incr_dom, P1, P2, P3, P5, P6, P8.
    split; [done|]. split; [done|]. split; [done|].
    split.
    { destruct (CmdError cmd); rewrite ?incr_dom;
        [by apply union_mono_l | etrans; [exact P4 | apply union_subseteq_r]]. }
    split; [done|]. split; [done|].
    split. { destruct (String.eqb replica ""); rewrite ?accum_dom, ?incr_dom; by rewrite P7. }
    split; [done|]. split; [exact K1|].
    split. { etrans; [exact K2|]. apply union_mono_l. exact P10. }
    intros user inner Hu. destruct (K3 user inner Hu) as [Hin|(inner0 & Hu0 & Hin)].
    + etrans; [exact Hin|]. apply union_subseteq_l.
    + etrans; [exact Hin|]. apply union_mono_l. by eapply P11.
  - unfold labelsValid. split; [|split; [|split; [exact T3 | exact T4]]].
    + intros k.
      match goal with Hx : cmdByReplicaCounter p4m' = _ |- _ => rewrite Hx end.
      destruct (String.eqb replica "") eqn:Hr; [apply L1|].
      rewrite incr_dom. intros [->%elem_of_singleton|Hk]%elem_of_union; [|by apply L1].
      apply String.eqb_neq in Hr. split; [done|].
      by destruct (splitIP_replica _ _ _ Hsplit Hr).
    + intros k.
      match goal with Hx : cmdByProgramCounter p4m' = _ |- _ => rewrite Hx end.
      rewrite incr_dom. intros [->%elem_of_singleton|Hk]%elem_of_union; [|by apply L2].
      apply sanitizeFrom_allowed.
  - unfold detailFiltered.
    repeat match goal with Hx : _ p4m' = _ |- _ => rewrite Hx; clear Hx end.
    split; [|split; [exact D2 | exact D3]].
    intros Hre. by destruct (D1 Hre) as [-> ->].
Qed.

Lemma resetToZero_invariants MustCompile (p4m : P4DMetrics) :
  pairedKeys p4m -> labelsValid p4m -> detailFiltered MustCompile p4m ->
  pairedKeys (resetToZero p4m) /\ labelsValid (resetToZero p4m)
  /\ detailFiltered MustCompile (resetToZero p4m).
Proof.
  intros (P1 & P2 & P3 & P4 & P5 & P6 & P7 & P8 & P9 & P10 & P11)
         (L1 & L2 & L3 & L4) (D1 & D2 & D3).
  split; [|split].
  - unfold pairedKeys. simpl. rewrite !zeroAll_dom, dom_fmap_L.
    repeat split; try done.
    + intros user. rewrite P9, lookup_fmap.
      destruct (cmdByUserDetailCounter p4m !! user); simpl; [|done].
      by rewrite zeroAll_dom.
    + intros user inner. rewrite lookup_fmap.
      destruct (cmdByUserDetailCounter p4m !! user) as [i|] eqn:Hu; simpl; [|done].
      intros [= <-]. rewrite zeroAll_dom. by eapply P11.
  - unfold labelsValid. simpl. rewrite !zeroAll_dom, zeroKeys_dom_union, union_idemp_L.
    split; [exact L1 | split; [exact L2 | split; [exact L3 | exact L4]]].
  - unfold detailFiltered. simpl. rewrite dom_fmap_L.
    split; [|split; [exact D2 | exact D3]].
    intros Hre. destruct (D1 Hre) as [-> ->]. by rewrite fmap_empty.
Qed.

Lemma iteration_invariants ToLower MustCompile pr (l l' : Loop) ev out :
  iteration ToLower MustCompile pr l ev = Some (l', out) ->
  pairedKeys (metrics l) -> labelsValid (metrics l) ->
  detailFiltered MustCompile (metrics l) ->
  pairedKeys (metrics l') /\ labelsValid (metrics l')
  /\ detailFiltered MustCompile (metrics l').
Proof.
  intros H HP HL HD. destruct ev; simpl in H.
  - by injection H as <- _.
  - destruct (historical (metrics l)); injection H as <- _; simpl; [done|].
    by apply resetToZero_invariants.
  - destruct (publishEvent _ _ _ _) as [p4m'|] eqn:Hp; simpl in H; [|done].
    injection H as <- _. simpl.
    by apply (publishEvent_invariants _ _ _ _ _ Hp).
  - by injection H as <- _.
  - destruct (fpLinesChan l); [|done]. injection H as <- _. simpl.
    destruct (historical (metrics l)) eqn:Hh; simpl; [|done].
    by destruct (historicalUpdateRequired_after (countLine (metrics l)) line)
      as [-> | (buf & t & ->)].
  - destruct (fpLinesChan l); by injection H as <- _.
Qed.

Lemma reachable_invariants ToLower MustCompile (l : Loop) :
  reachable ToLower MustCompile l ->
  pairedKeys (metrics l) /\ labelsValid (metrics l)
  /\ detailFiltered MustCompile (metrics l).
Proof.
  induction 1 as [cfg hist needCmd l Hstart | l pr ev l' out _ IH _ Hit].
  - unfold ProcessEvents in Hstart.
    destruct (_ <=? _); [done|]. injection Hstart as <-.
    split; [|split].
    + unfold pairedKeys. simpl. repeat split; try done;
        intros user inner; by rewrite lookup_empty.
    + unfold labelsValid. simpl.
      split; [|split; [|split]]; intros k Hk; by rewrite dom_empty_L in Hk.
    + unfold detailFiltered. simpl. split; [done|]. split; [done|].
      intros user Hk. by rewrite dom_empty_L in Hk.
  - destruct IH as (HP & HL & HD). by eapply iteration_invariants.
Qed.

(** X4: in every reachable state each counter map has the same keys as the
    cumulative maps kept beside it (per command also the two CPU totals; per
    user, IP, replica, program; and per user and command in the detail),
    every command with an error count has a command count, and every user
    and command of the detail is a key of the per-user and per-command
    counters. *)
Theorem counters_and_cumulatives_share_keys ToLower MustCompile (l : Loop) :
  reachable ToLower MustCompile l -> pairedKeys (metrics l).
Proof. intros Hr. by destruct (reachable_invariants _ _ _ Hr) as (H & _ & _). Qed.

(** X5: in every reachable state the keys printed as label values are well
    formed: a replica key is never empty and holds no [/], a program key
    holds only bytes of the allow-list, a trigger key is never empty, and no
    lock table carries a name that counts as a trigger. *)
Theorem label_keys_well_formed ToLower MustCompile (l : Loop) :
  reachable ToLower MustCompile l -> labelsValid (metrics l).
Proof. intros Hr. by destruct (reachable_invariants _ _ _ Hr) as (_ & H & _). Qed.

(** X6: in every reachable state the user detail follows the configured
    filter: with no expression configured nothing is compiled and the detail
    maps stay empty; the compiled filter, once set, is the compilation of
    the configured expression in parentheses; and every user in the detail
    matches it. *)
Theorem detail_follows_filter ToLower MustCompile (l : Loop) :
  reachable ToLower MustCompile l -> detailFiltered MustCompile (metrics l).
Proof. intros Hr. by destruct (reachable_invariants _ _ _ Hr) as (_ & _ & H). Qed.

Lemma scenario_busyDetailed_reachable :
  reachable Sample.ToLower Sample.MustCompile Scenario.busyDetailed.
Proof.
  apply (reachable_iteration Sample.ToLower Sample.MustCompile
           Scenario.startDetailed Sample.probe (EvCmd Sample.viaRelay)
           Scenario.busyDetailed [OutCmd Sample.viaRelay]).
  - by apply (reachable_start _ _ Sample.cfgDetail false true).
  - reflexivity.
  - by vm_compute.
Defined.

Lemma counters_and_cumulatives_share_keys_witness :
  reachable Sample.ToLower Sample.MustCompile Scenario.busyDetailed
  /\ dom (cmdCounter (metrics Scenario.busyDetailed)) = {["user-sync"%string]}
  /\ pairedKeys (metrics Scenario.busyDetailed).
Proof.
  split; [exact scenario_busyDetailed_reachable|]. split; [by vm_compute|].
  exact (counters_and_cumulatives_share_keys _ _ _ scenario_busyDetailed_reachable).
Defined.

Lemma label_keys_well_formed_witness :
  reachable Sample.ToLower Sample.MustCompile Scenario.busyDetailed
  /\ dom (cmdByReplicaCounter (metrics Scenario.busyDetailed)) = {["relay1"%string]}
  /\ labelsValid (metrics Scenario.busyDetailed).
Proof.
  split; [exact scenario_busyDetailed_reachable|]. split; [by vm_compute|].
  exact (label_keys_well_formed _ _ _ scenario_busyDetailed_reachable).
Defined.

Lemma detail_follows_filter_witness :
  reachable Sample.ToLower Sample.MustCompile Scenario.busyDetailed
  /\ dom (cmdByUserDetailCounter (metrics Scenario.busyDetailed)) = {["bruno"%string]}
  /\ detailFiltered Sample.MustCompile (metrics Scenario.busyDetailed).
Proof.
  split; [exact scenario_busyDetailed_reachable|]. split; [by vm_compute|].
  exact (detail_follows_filter _ _ _ scenario_busyDetailed_reachable).
Defined.

(** *** The boundary detector: what it stores *)

(** The first 20 bytes of a line that is long enough. *)
Lemma prefix_facts (line : string) :
  (GoStrings.len line <? Z.of_nat lenPrefix) = false ->
  String.length (GoStrings.slice line 0 lenPrefix) = lenPrefix
  /\ GoStrings.slice (GoStrings.slice line 0 lenPrefix) 1 lenPrefix
     = GoStrings.slice line 1 lenPrefix
  /\ qualifies (GoStrings.slice line 0 lenPrefix) = qualifies line.
Proof.
  intros Hlen.
  do 20 (destruct line as [|? line]; [discriminate Hlen|]).
  split; [by destruct line|]. split; [by destruct line|].
  rewrite !qualifies_spec. unfold Spec.timestampPrefixed.
  replace (20 <=? GoStrings.len (String _ _)) with true.
  - by destruct line.
  - symmetry. apply Z.leb_le. apply Z.ltb_ge in Hlen. unfold lenPrefix in Hlen. lia.
Qed.

Lemma qualifies_long (line : string) :
  qualifies line = true -> (GoStrings.len line <? Z.of_nat lenPrefix) = false.
Proof. unfold qualifies. by destruct (GoStrings.len line <? Z.of_nat lenPrefix). Qed.

Lemma len_prefix_nonzero (line : string) :
  qualifies line = true -> (GoStrings.len (GoStrings.slice line 0 lenPrefix) =? 0) = false.
Proof.
  intros Hq. destruct (prefix_facts line (qualifies_long _ Hq)) as (Hl & _).
  unfold GoStrings.len. rewrite Hl. reflexivity.
Qed.

(** The detector either leaves the state alone or stores the prefix and the
    parsed stamp of a qualifying line, in historical mode. *)
Lemma historicalUpdateRequired_stores (p4m : P4DMetrics) (line : string) :
  after (historicalUpdateRequired p4m line) = p4m
  \/ (historical p4m = true /\ qualifies line = true
      /\ after (historicalUpdateRequired p4m line)
         = setLatestStartCmd p4m (GoStrings.slice line 0 lenPrefix)
             (GoTime.Parse (GoStrings.slice line 1 lenPrefix))).
Proof.
  destruct (historical p4m) eqn:Hh.
  - destruct (qualifies line) eqn:Hq.
    + rewrite historicalUpdateRequired_qualified by done. cbv zeta.
      repeat match goal with |- context [if ?b then _ else _] => destruct b end;
        simpl; eauto.
    + rewrite historicalUpdateRequired_unqualified by done. by left.
  - left. unfold historicalUpdateRequired. by rewrite Hh.
Qed.

Lemma historicalUpdateRequired_boundaryConsistent (p4m : P4DMetrics) (line : string) :
  boundaryConsistent p4m ->
  boundaryConsistent (after (historicalUpdateRequired p4m line)).
Proof.
  intros Hc.
  destruct (historicalUpdateRequired_stores p4m line) as [-> | (Hh & Hq & ->)]; [done|].
  destruct (prefix_facts line (qualifies_long _ Hq)) as (Hl & Hs & Hqq).
  split; simpl; [|congruence].
  right. split; [exact Hl|]. split; [congruence | by rewrite Hs].
Qed.

Lemma iteration_boundaryConsistent ToLower MustCompile pr (l l' : Loop) ev out :
  iteration ToLower MustCompile pr l ev = Some (l', out) ->
  boundaryConsistent (metrics l) -> boundaryConsistent (metrics l').
Proof.
  intros H Hc. destruct ev; simpl in H.
  - by injection H as <- _.
  - by destruct (historical (metrics l)); injection H as <- _.
  - destruct (publishEvent _ _ _ _) as [p4m'|] eqn:Hp; simpl in H; [|done].
    injection H as <- _. simpl. publish_inv Hp. frame_tables.
    unfold boundaryConsistent in *. simpl in *. congruence.
  - by injection H as <- _.
  - destruct (fpLinesChan l); [|done]. injection H as <- _. simpl.
    destruct (historical (metrics l)) eqn:Hh; simpl; [|done].
    by apply historicalUpdateRequired_boundaryConsistent.
  - destruct (fpLinesChan l); by injection H as <- _.
Qed.

(** X7: in every reachable state the stored boundary is consistent: either
    nothing is stored (empty prefix, zero time), or the stored prefix is
    exactly 20 bytes matching the pattern and the stored time is the parse
    of the 19 bytes after its tab; and a live engine never stores a
    prefix. *)
Theorem stored_boundary_consistent ToLower MustCompile (l : Loop) :
  reachable ToLower MustCompile l -> boundaryConsistent (metrics l).
Proof.
  induction 1 as [cfg hist needCmd l Hstart | l pr ev l' out _ IH _ Hit].
  - unfold ProcessEvents in Hstart.
    destruct (_ <=? _); [done|]. injection Hstart as <-.
    split; [by left | done].
  - by eapply iteration_boundaryConsistent.
Qed.

Lemma stored_boundary_consistent_witness :
  reachable Sample.ToLower Sample.MustCompile Scenario.afterLine1
  /\ timeLatestStartCmd (metrics Scenario.afterLine1) = 1704067200
  /\ boundaryConsistent (metrics Scenario.afterLine1).
Proof.
  assert (Hr : reachable Sample.ToLower Sample.MustCompile Scenario.afterLine1).
  { apply (reachable_iteration Sample.ToLower Sample.MustCompile
             Sample.startReplay Sample.probe (EvLine Sample.line1)
             Scenario.afterLine1 [OutLine Sample.line1]).
    - by apply (reachable_start _ _ Sample.cfg true true).
    - reflexivity.
    - by vm_compute. }
  split; [exact Hr|]. split; [by vm_compute|].
  exact (stored_boundary_consistent _ _ _ Hr).
Defined.

Lemma compare_nonempty_empty (s : string) :
  s <> EmptyString -> 0 < GoStrings.Compare s EmptyString.
Proof. unfold GoStrings.Compare. by destruct s. Qed.

(** X8: the stored prefix only moves forward.  A call of the detector
    leaves the stored prefix as it was or replaces it by one that sorts
    strictly after it; and when it reports an update the new prefix is the
    line's and is strictly later than the old one, which was not empty. *)
Theorem stored_prefix_moves_forward (p4m : P4DMetrics) (line : string) :
  let b := historicalUpdateRequired p4m line in
  (latestStartCmdBuf (after b) = latestStartCmdBuf p4m
   \/ 0 < GoStrings.Compare (latestStartCmdBuf (after b)) (latestStartCmdBuf p4m))
  /\ (required b = true ->
      latestStartCmdBuf p4m <> EmptyString
      /\ latestStartCmdBuf (after b) = GoStrings.slice line 0 lenPrefix
      /\ 0 < GoStrings.Compare (latestStartCmdBuf (after b)) (latestStartCmdBuf p4m)
      /\ UpdateInterval (config p4m)
         <= GoTime.Sub (timeLatestStartCmd (after b)) (timeLatestStartCmd p4m)).
Proof.
  cbv zeta. destruct (historical p4m) eqn:Hh.
  - destruct (qualifies line) eqn:Hq.
    + rewrite historicalUpdateRequired_qualified by done. cbv zeta.
      pose proof (len_prefix_nonzero _ Hq) as Hnz.
      destruct (GoStrings.len (latestStartCmdBuf p4m) =? 0) eqn:Hempty.
      * simpl. split; [|done]. right.
        assert (latestStartCmdBuf p4m = EmptyString) as ->.
        { apply Z.eqb_eq in Hempty. unfold GoStrings.len in Hempty.
          destruct (latestStartCmdBuf p4m); [done | simpl in Hempty; lia]. }
        apply compare_nonempty_empty. intros Hp. by rewrite Hp in Hnz.
      * destruct (String.eqb _ _); [simpl; split; [by left | done]|].
        destruct (GoStrings.Compare _ _ <=? 0) eqn:Hcmp;
          [simpl; split; [by left | done]|].
        apply Z.leb_gt in Hcmp. simpl.
        destruct (UpdateInterval (config p4m) <=? _) eqn:Hint; simpl.
        -- split; [by right|]. intros _. split.
           { intros Hb. by rewrite Hb in Hempty. }
           split; [done|]. split; [done|]. by apply Z.leb_le.
        -- split; [by left | done].
    + rewrite historicalUpdateRequired_unqualified by done. simpl. split; [by left|done].
  - unfold historicalUpdateRequired. rewrite Hh. simpl. split; [by left | done].
Qed.

(** X9: when the update interval is at least three seconds, every reported
    update also sends a notification, and the time sent is the time
    stored. *)
Theorem update_carries_notification (p4m : P4DMetrics) (line : string) :
  3 * GoTime.Second <= UpdateInterval (config p4m) ->
  required (historicalUpdateRequired p4m line) = true ->
  notified (historicalUpdateRequired p4m line)
  = Some (timeLatestStartCmd (after (historicalUpdateRequired p4m line))).
Proof.
  intros Hint. destruct (historical p4m) eqn:Hh.
  - destruct (qualifies line) eqn:Hq.
    + rewrite historicalUpdateRequired_qualified by done. cbv zeta.
      destruct (GoStrings.len (latestStartCmdBuf p4m) =? 0); [done|].
      destruct (String.eqb _ _); [done|].
      destruct (GoStrings.Compare _ _ <=? 0); [done|]. simpl.
      intros Hreq. rewrite Hreq. simpl. apply Z.leb_le in Hreq.
      replace (3 * GoTime.Second <=? _) with true; [done|].
      symmetry. apply Z.leb_le. lia.
    + by rewrite historicalUpdateRequired_unqualified.
  - unfold historicalUpdateRequired. by rewrite Hh.
Qed.

Lemma update_carries_notification_witness :
  3 * GoTime.Second <= UpdateInterval (config Sample.stored)
  /\ required (historicalUpdateRequired Sample.stored Sample.line3) = true
  /\ notified (historicalUpdateRequired Sample.stored Sample.line3) = Some 1704067500.
Proof.
  assert (H1 : 3 * GoTime.Second <= UpdateInterval (config Sample.stored)) by (by vm_compute).
  assert (H2 : required (historicalUpdateRequired Sample.stored Sample.line3) = true)
    by (by vm_compute).
  split; [exact H1|]. split; [exact H2|].
  exact (update_carries_notification Sample.stored Sample.line3 H1 H2).
Defined.

(** X10: offering the same line again never changes the state: if the first
    call stored the line's prefix, the second one finds it stored and
    reports nothing; if the first call stored nothing, the second one
    answers as the first did. *)
Theorem repeated_line_changes_nothing (p4m : P4DMetrics) (line : string) :
  let b := historicalUpdateRequired p4m line in
  let b' := historicalUpdateRequired (after b) line in
  after b' = after b
  /\ (after b = p4m -> b' = b)
  /\ (after b <> p4m -> b' = noUpdate (after b)).
Proof.
  cbv zeta.
  destruct (historicalUpdateRequired_stores p4m line) as [Hsame | (Hh & Hq & Hset)].
  - rewrite Hsame. by repeat split.
  - assert (Hagain : historicalUpdateRequired (after (historicalUpdateRequired p4m line)) line
                     = noUpdate (after (historicalUpdateRequired p4m line))).
    { rewrite Hset. rewrite historicalUpdateRequired_qualified by done. cbv zeta.
      cbn [latestStartCmdBuf setLatestStartCmd].
      rewrite (len_prefix_nonzero _ Hq). by rewrite String.eqb_refl. }
    split; [by rewrite Hagain|]. split; [|done].
    intros Hp. pose proof (f_equal latestStartCmdBuf Hset) as Hbuf.
    rewrite Hp in Hbuf. cbn [latestStartCmdBuf setLatestStartCmd] in Hbuf.
    assert (Hfirst : historicalUpdateRequired p4m line = noUpdate p4m).
    { rewrite historicalUpdateRequired_qualified by done. cbv zeta.
      rewrite Hbuf, (len_prefix_nonzero _ Hq). by rewrite String.eqb_refl. }
    rewrite Hagain, Hfirst. reflexivity.
Qed.

(** *** Runs of the loop: what is forwarded and when the outputs close *)

Lemma iteration_mode ToLower MustCompile pr (l l' : Loop) ev out :
  iteration ToLower MustCompile pr l ev = Some (l', out) ->
  historical (metrics l') = historical (metrics l)
  /\ config (metrics l') = config (metrics l).
Proof.
  intros H. destruct ev; simpl in H.
  - by injection H as <- _.
  - by destruct (negb (historical (metrics l))); injection H as <- _.
  - destruct (publishEvent _ _ _ _) as [p4m'|] eqn:Hp; simpl in H; [|done].
    injection H as <- _. simpl. publish_inv Hp. frame_tables. split; assumption.
  - by injection H as <- _.
  - destruct (fpLinesChan l); [|done]. injection H as <- _. simpl.
    destruct (historical (metrics l)) eqn:Hh; simpl; [|done].
    by destruct (historicalUpdateRequired_after (countLine (metrics l)) line)
      as [-> | (buf & t & ->)].
  - destruct (fpLinesChan l); by injection H as <- _.
Qed.

(** What one iteration sends, by the event received. *)
Lemma iteration_outputs ToLower MustCompile pr (l l' : Loop) ev out :
  iteration ToLower MustCompile pr l ev = Some (l', out) ->
  outLines out = linesOf [(pr, ev)]
  /\ outCmds out = (if needCmdChan l then cmdsOf [(pr, ev)] else [])
  /\ (running l' = true -> List.filter closesOutput out = [])
  /\ (running l = true -> running l' = false ->
      exists body, out = body ++ deferred l /\ List.filter closesOutput body = [])
  /\ (historical (metrics l) = false -> running l' = true ->
      outTimes out = []
      /\ length (List.filter isSnapshot out) = length (List.filter isTick [(pr, ev)])).
Proof.
  intros H. destruct ev; simpl in H.
  - injection H as <- <-. unfold deferred.
    split; [by destruct (needCmdChan l)|]. split; [by destruct (needCmdChan l)|].
    split; [done|]. split; [|done]. intros _ _. by exists [].
  - destruct (historical (metrics l)) eqn:Hh; injection H as <- <-; simpl;
      destruct (needCmdChan l); repeat split; try done; congruence.
  - destruct (publishEvent _ _ _ _) as [p4m'|]; simpl in H; [|done].
    injection H as <- <-. simpl.
    destruct (needCmdChan l); repeat split; try done; congruence.
  - injection H as <- <-. unfold deferred.
    split; [by destruct (needCmdChan l)|]. split; [by destruct (needCmdChan l)|].
    split; [done|]. split; [|done]. intros _ _.
    by exists [OutMetrics (getCumulativeMetrics pr (metrics l))].
  - destruct (fpLinesChan l); [|done]. injection H as <- <-. simpl.
    split.
    { destruct (notified _), (required _); reflexivity. }
    split.
    { destruct (notified _), (required _), (needCmdChan l); reflexivity. }
    split.
    { intros _. destruct (notified _), (required _); reflexivity. }
    split; [congruence|].
    intros Hlive _. rewrite Hlive. done.
  - destruct (fpLinesChan l); injection H as <- <-; simpl;
      destruct (needCmdChan l); repeat split; try done; congruence.
Qed.

(** X11: while the loop runs, every line received is forwarded to the
    parser exactly once and in the order received, and every command
    received is passed on in order on the command output when the caller
    asked for it, and not at all otherwise. *)
Theorem lines_and_commands_are_forwarded ToLower MustCompile (l l' : Loop) evs out :
  run ToLower MustCompile l evs = Some (l', out) ->
  running l' = true ->
  outLines out = linesOf evs
  /\ outCmds out = (if needCmdChan l then cmdsOf evs else []).
Proof.
  revert l out. induction evs as [|[pr ev] rest IH]; intros l out H Hrun; simpl in H.
  - injection H as <- <-. by destruct (needCmdChan l).
  - destruct (running l) eqn:Hl.
    + destruct (iteration _ _ pr l ev) as [[l1 out1]|] eqn:Hit; [|done].
      destruct (run _ _ l1 rest) as [[l2 out2]|] eqn:Hrest; [|done].
      injection H as <- <-.
      destruct (iteration_outputs _ _ _ _ _ _ _ Hit) as (A & B & _).
      destruct (iteration_loop _ _ _ _ _ _ _ Hit) as (Hneed & _).
      destruct (IH _ _ Hrest Hrun) as (C & D).
      unfold outLines, outCmds, linesOf, cmdsOf in *.
      change ((pr, ev) :: rest) with ([(pr, ev)] ++ rest).
      rewrite !flat_map_app. rewrite A, B, C, D, Hneed.
      by destruct (needCmdChan l).
    + injection H as <- <-. congruence.
Qed.

Lemma lines_and_commands_are_forwarded_witness :
  run Sample.ToLower Sample.MustCompile Sample.startReplay
    [(Sample.probe, EvLine Sample.line1); (Sample.probe, EvCmd Sample.direct);
     (Sample.probe, EvLine Sample.line3)]
  = Some (Sample.ran Sample.startReplay
            [(Sample.probe, EvLine Sample.line1); (Sample.probe, EvCmd Sample.direct);
             (Sample.probe, EvLine Sample.line3)])
  /\ outLines (Sample.ran Sample.startReplay
                 [(Sample.probe, EvLine Sample.line1); (Sample.probe, EvCmd Sample.direct);
                  (Sample.probe, EvLine Sample.line3)]).2
     = [Sample.line1; Sample.line3]
  /\ outCmds (Sample.ran Sample.startReplay
                [(Sample.probe, EvLine Sample.line1); (Sample.probe, EvCmd Sample.direct);
                 (Sample.probe, EvLine Sample.line3)]).2
     = [Sample.direct].
Proof.
  set (evs := [(Sample.probe, EvLine Sample.line1); (Sample.probe, EvCmd Sample.direct);
               (Sample.probe, EvLine Sample.line3)]).
  assert (H1 : run Sample.ToLower Sample.MustCompile Sample.startReplay evs
               = Some ((Sample.ran Sample.startReplay evs).1,
                       (Sample.ran Sample.startReplay evs).2)) by (by vm_compute).
  assert (H2 : running (Sample.ran Sample.startReplay evs).1 = true) by (by vm_compute).
  split; [by vm_compute|].
  exact (lines_and_commands_are_forwarded _ _ _ _ _ _ H1 H2).
Defined.

(** X12: the output channels are closed only when the loop returns, as the
    last thing it sends: the outputs of a run are sends that close nothing,
    followed, if the loop has returned, by the deferred closes (the command
    output, if there is one, then the snapshot output) and nothing after. *)
Theorem outputs_close_on_return ToLower MustCompile (l l' : Loop) evs out :
  running l = true ->
  run ToLower MustCompile l evs = Some (l', out) ->
  exists body,
    out = body ++ (if running l' then []
                   else (if needCmdChan l then [CloseCmdsOut] else []) ++ [CloseMetrics])
    /\ List.filter closesOutput body = [].
Proof.
  revert l out. induction evs as [|[pr ev] rest IH]; intros l out Hl H; simpl in H.
  - injection H as <- <-. exists []. by rewrite Hl.
  - rewrite Hl in H.
    destruct (iteration _ _ pr l ev) as [[l1 out1]|] eqn:Hit; [|done].
    destruct (run _ _ l1 rest) as [[l2 out2]|] eqn:Hrest; [|done].
    injection H as <- <-.
    destruct (iteration_outputs _ _ _ _ _ _ _ Hit) as (_ & _ & Hopen & Hclosed & _).
    destruct (iteration_loop _ _ _ _ _ _ _ Hit) as (Hneed & _).
    destruct (running l1) eqn:Hl1.
    + destruct (IH _ _ Hl1 Hrest) as (body & -> & Hbody).
      exists (out1 ++ body). rewrite Hneed, app_assoc. split; [done|].
      by rewrite List.filter_app, (Hopen eq_refl), Hbody.
    + rewrite run_returned in Hrest by done. injection Hrest as <- <-.
      destruct (Hclosed Hl eq_refl) as (body & -> & Hbody).
      exists body. rewrite Hl1, app_nil_r. by split.
Qed.

Lemma outputs_close_on_return_witness :
  running Sample.startLive = true
  /\ run Sample.ToLower Sample.MustCompile Sample.startLive
       [(Sample.probe, EvTick); (Sample.probe, EvDone); (Sample.probe, EvTick)]
     = Some (Sample.ran Sample.startLive
               [(Sample.probe, EvTick); (Sample.probe, EvDone); (Sample.probe, EvTick)])
  /\ exists body,
       (Sample.ran Sample.startLive
          [(Sample.probe, EvTick); (Sample.probe, EvDone); (Sample.probe, EvTick)]).2
       = body ++ [CloseMetrics]
       /\ List.filter closesOutput body = [].
Proof.
  set (evs := [(Sample.probe, EvTick); (Sample.probe, EvDone); (Sample.probe, EvTick)]).
  assert (H1 : run Sample.ToLower Sample.MustCompile Sample.startLive evs
               = Some ((Sample.ran Sample.startLive evs).1,
                       (Sample.ran Sample.startLive evs).2)) by (by vm_compute).
  split; [reflexivity|]. split; [by vm_compute|].
  exact (outputs_close_on_return Sample.ToLower Sample.MustCompile Sample.startLive
           _ evs _ (eq_refl : running Sample.startLive = true) H1).
Defined.

(** *** Runs of the loop: what the counts count *)

Lemma wrap_add (a b : Z) : Int64.add (Int64.wrap a) b = Int64.wrap (a + b).
Proof.
  unfold Int64.add, Int64.wrap.
  replace ((a + 2 ^ 63) mod 2 ^ 64 - 2 ^ 63 + b + 2 ^ 63)
    with ((a + 2 ^ 63) mod 2 ^ 64 + b) by lia.
  rewrite Zplus_mod_idemp_l. f_equal. f_equal. lia.
Qed.

Lemma run_snoc ToLower MustCompile (l l' : Loop) evs pr ev out :
  run ToLower MustCompile l (evs ++ [(pr, ev)]) = Some (l', out) ->
  running l' = true ->
  exists l1 out1 o,
    run ToLower MustCompile l evs = Some (l1, out1)
    /\ running l1 = true
    /\ iteration ToLower MustCompile pr l1 ev = Some (l', o)
    /\ out = out1 ++ o.
Proof.
  rewrite run_app. intros H Hrun.
  destruct (run _ _ l evs) as [[l1 out1]|]; [|done].
  simpl in H. destruct (running l1) eqn:Hl1.
  - destruct (iteration _ _ pr l1 ev) as [[l2 o]|] eqn:Hit; [|done].
    injection H as <- <-. exists l1, out1, o. by rewrite app_nil_r.
  - injection H as <- <-. congruence.
Qed.

Lemma sinceTick_snoc (evs : list (Probe * Event)) (pe : Probe * Event) :
  sinceTick (evs ++ [pe]) = if isTick pe then [] else sinceTick evs ++ [pe].
Proof. unfold sinceTick. by rewrite fold_left_app. Qed.

Lemma named_snoc (c : string) (cmds : list Command) (cmd : Command) :
  named c (cmds ++ [cmd])
  = (named c cmds + if String.eqb (Cmd cmd) c then 1 else 0)%nat.
Proof.
  unfold named. rewrite List.filter_app, length_app. simpl.
  by destruct (String.eqb (Cmd cmd) c).
Qed.

Lemma named_sinceTick_le (c : string) (evs : list (Probe * Event)) :
  (named c (cmdsOf (sinceTick evs)) <= named c (cmdsOf evs))%nat.
Proof.
  induction evs as [|pe evs IH] using rev_ind; [done|].
  rewrite sinceTick_snoc. unfold cmdsOf in *. rewrite flat_map_app.
  destruct pe as [pr ev]. destruct ev; unfold isTick; simpl;
    rewrite ?flat_map_app; simpl; rewrite ?app_nil_r; try exact IH.
  - unfold named. simpl. lia.
  - rewrite !named_snoc. lia.
Qed.

(** What one iteration that does not return does to the counts. *)
Lemma iteration_counts ToLower MustCompile pr (l l' : Loop) ev out :
  iteration ToLower MustCompile pr l ev = Some (l', out) ->
  running l = true -> running l' = true ->
  match ev with
  | EvTick =>
      if historical (metrics l) then metrics l' = metrics l
      else cmdsProcessed (metrics l') = cmdsProcessed (metrics l)
           /\ linesRead (metrics l') = 0
           /\ cmdCounter (metrics l') = zeroAll 0 (cmdCounter (metrics l))
  | EvCmd cmd =>
      cmdsProcessed (metrics l') = Int64.add (cmdsProcessed (metrics l)) 1
      /\ linesRead (metrics l') = linesRead (metrics l)
      /\ cmdCounter (metrics l') = incr (Cmd cmd) (cmdCounter (metrics l))
  | EvLine _ =>
      cmdsProcessed (metrics l') = cmdsProcessed (metrics l)
      /\ linesRead (metrics l') = Int64.add (linesRead (metrics l)) 1
      /\ cmdCounter (metrics l') = cmdCounter (metrics l)
  | EvLinesClosed => metrics l' = metrics l
  | EvDone | EvCmdsClosed => False
  end.
Proof.
  intros H Hl Hl'. destruct ev; simpl in H.
  - injection H as <- _. simpl in Hl'. congruence.
  - destruct (historical (metrics l)); injection H as <- _; simpl; done.
  - destruct (publishEvent _ _ _ _) as [p4m'|] eqn:Hp; simpl in H; [|done].
    injection H as <- _. simpl. publish_inv Hp. frame_tables. by repeat split.
  - injection H as <- _. simpl in Hl'. congruence.
  - destruct (fpLinesChan l); [|done]. injection H as <- _. simpl.
    destruct (historical (metrics l)) eqn:Hh; simpl; [|done].
    by destruct (historicalUpdateRequired_after (countLine (metrics l)) line)
      as [-> | (buf & t & ->)].
  - destruct (fpLinesChan l); by injection H as <- _.
Qed.

Lemma cmdsOf_app (evs evs' : list (Probe * Event)) :
  cmdsOf (evs ++ evs') = cmdsOf evs ++ cmdsOf evs'.
Proof. apply flat_map_app. Qed.

Lemma linesOf_app (evs evs' : list (Probe * Event)) :
  linesOf (evs ++ evs') = linesOf evs ++ linesOf evs'.
Proof. apply flat_map_app. Qed.

Lemma counted_snoc (hist : bool) (evs : list (Probe * Event)) (pe : Probe * Event) :
  (if hist then evs ++ [pe] else sinceTick (evs ++ [pe]))
  = if negb hist && isTick pe then []
    else (if hist then evs else sinceTick evs) ++ [pe].
Proof. rewrite sinceTick_snoc. by destruct hist, (isTick pe). Qed.

Lemma run_counts ToLower MustCompile cfg hist needCmd (l0 l' : Loop) evs out (c : string) :
  ProcessEvents (NewP4DMetricsLogParser cfg hist) needCmd = Some l0 ->
  run ToLower MustCompile l0 evs = Some (l', out) ->
  running l' = true ->
  let counted := if hist then evs else sinceTick evs in
  historical (metrics l') = hist
  /\ cmdsProcessed (metrics l') = Int64.wrap (Z.of_nat (length (cmdsOf evs)))
  /\ linesRead (metrics l') = Int64.wrap (Z.of_nat (length (linesOf counted)))
  /\ cmdCounter (metrics l') !! c
     = if (named c (cmdsOf evs) =? 0)%nat then None
       else Some (Int64.wrap (Z.of_nat (named c (cmdsOf counted)))).
Proof.
  intros Hstart. cbv zeta. revert l' out.
  induction evs as [|[pr ev] evs IH] using rev_ind; intros l' out H Hrun.
  - simpl in H. injection H as <- <-.
    unfold ProcessEvents in Hstart. destruct (_ <=? _); [done|].
    injection Hstart as <-. simpl. by destruct hist.
  - destruct (run_snoc _ _ _ _ _ _ _ _ H Hrun) as (l1 & out1 & o & Hevs & Hl1 & Hit & _).
    destruct (IH _ _ Hevs Hl1) as (Hh & Hp & Hr & Hc). clear IH.
    assert (Hle : (named c (cmdsOf (if hist then evs else sinceTick evs))
                   <= named c (cmdsOf evs))%nat).
    { destruct hist; [done | apply named_sinceTick_le]. }
    pose proof (iteration_counts _ _ _ _ _ _ _ Hit Hl1 Hrun) as Hstep.
    destruct (iteration_mode _ _ _ _ _ _ _ Hit) as (Hmode & _).
    split; [congruence|].
    rewrite counted_snoc, cmdsOf_app.
    set (counted := if hist then evs else sinceTick evs) in *.
    destruct ev; try done; unfold isTick; cbn [snd].
    + (* tick *)
      change (cmdsOf [(pr, EvTick)]) with (@nil Command). rewrite app_nil_r.
      rewrite Hh in Hstep. destruct hist; cbn [negb andb].
      * rewrite Hstep, cmdsOf_app, linesOf_app. simpl. by rewrite !app_nil_r.
      * destruct Hstep as (-> & -> & ->). split; [done|]. split; [done|].
        rewrite zeroAll_lookup, Hc. by destruct (named c _ =? 0)%nat.
    + (* command *)
      rewrite andb_false_r, cmdsOf_app, linesOf_app.
      change (cmdsOf [(pr, EvCmd cmd)]) with [cmd].
      change (linesOf [(pr, EvCmd cmd)]) with (@nil string).
      destruct Hstep as (-> & -> & ->). rewrite Hp, wrap_add, app_nil_r, length_app.
      split; [f_equal; simpl; lia|]. split; [done|].
      rewrite !named_snoc. unfold incr.
      destruct (String.eqb (Cmd cmd) c) eqn:Heq.
      * apply String.eqb_eq in Heq. subst c. rewrite lookup_insert_eq, Hc.
        replace (named (Cmd cmd) (cmdsOf evs) + 1 =? 0)%nat with false
          by (symmetry; apply Nat.eqb_neq; lia).
        f_equal. destruct (named (Cmd cmd) (cmdsOf evs) =? 0)%nat eqn:Hzero; simpl.
        -- apply Nat.eqb_eq in Hzero.
           assert (named (Cmd cmd) (cmdsOf counted) = 0%nat) as -> by lia.
           reflexivity.
        -- rewrite wrap_add. f_equal. lia.
      * apply String.eqb_neq in Heq. rewrite lookup_insert_ne by done.
        rewrite !Nat.add_0_r. exact Hc.
    + (* line *)
      rewrite andb_false_r, cmdsOf_app, linesOf_app.
      change (cmdsOf [(pr, EvLine line)]) with (@nil Command).
      change (linesOf [(pr, EvLine line)]) with [line].
      destruct Hstep as (-> & -> & ->). rewrite Hp, Hr, wrap_add, !app_nil_r, length_app.
      split; [done|]. split; [f_equal; simpl; lia|]. exact Hc.
    + (* line channel closed *)
      rewrite andb_false_r, cmdsOf_app, linesOf_app.
      change (cmdsOf [(pr, EvLinesClosed)]) with (@nil Command).
      change (linesOf [(pr, EvLinesClosed)]) with (@nil string).
      rewrite Hstep, !app_nil_r. by repeat split.
Qed.

(** X13: from a fresh start and while the loop runs, the count of commands
    processed is the number of commands received (as an int64, never reset
    by a flush), and the count of lines read is the number of lines
    received: all of them in historical mode, those since the last tick in
    live mode. *)
Theorem processed_and_read_counts ToLower MustCompile cfg hist needCmd
    (l0 l' : Loop) evs out :
  ProcessEvents (NewP4DMetricsLogParser cfg hist) needCmd = Some l0 ->
  run ToLower MustCompile l0 evs = Some (l', out) ->
  running l' = true ->
  cmdsProcessed (metrics l') = Int64.wrap (Z.of_nat (length (cmdsOf evs)))
  /\ linesRead (metrics l')
     = Int64.wrap (Z.of_nat (length (linesOf (if hist then evs else sinceTick evs)))).
Proof.
  intros Hstart H Hrun.
  destruct (run_counts _ _ _ _ _ _ _ _ _ EmptyString Hstart H Hrun) as (_ & A & B & _).
  by split.
Qed.

Lemma processed_and_read_counts_witness :
  cmdsProcessed (metrics (Sample.ran Sample.startLive
      [(Sample.probe, EvLine Sample.line1); (Sample.probe, EvCmd Sample.direct);
       (Sample.probe, EvTick); (Sample.probe, EvLine Sample.line3)]).1) = 1
  /\ linesRead (metrics (Sample.ran Sample.startLive
      [(Sample.probe, EvLine Sample.line1); (Sample.probe, EvCmd Sample.direct);
       (Sample.probe, EvTick); (Sample.probe, EvLine Sample.line3)]).1) = 1.
Proof.
  set (evs := [(Sample.probe, EvLine Sample.line1); (Sample.probe, EvCmd Sample.direct);
               (Sample.probe, EvTick); (Sample.probe, EvLine Sample.line3)]).
  assert (H0 : ProcessEvents (NewP4DMetricsLogParser Sample.cfg false) false
               = Some Sample.startLive) by (by vm_compute).
  assert (H1 : run Sample.ToLower Sample.MustCompile Sample.startLive evs
               = Some ((Sample.ran Sample.startLive evs).1,
                       (Sample.ran Sample.startLive evs).2)) by (by vm_compute).
  assert (H2 : running (Sample.ran Sample.startLive evs).1 = true) by (by vm_compute).
  exact (processed_and_read_counts _ _ _ _ _ _ _ _ _ H0 H1 H2).
Defined.

(** X14: from a fresh start and while the loop runs, the per-command
    counter has an entry for exactly the command names received so far, and
    its value is the number of commands of that name: all of them in
    historical mode, those since the last tick in live mode. *)
Theorem command_counter_counts ToLower MustCompile cfg hist needCmd
    (l0 l' : Loop) evs out (c : string) :
  ProcessEvents (NewP4DMetricsLogParser cfg hist) needCmd = Some l0 ->
  run ToLower MustCompile l0 evs = Some (l', out) ->
  running l' = true ->
  cmdCounter (metrics l') !! c
  = if (named c (cmdsOf evs) =? 0)%nat then None
    else Some (Int64.wrap (Z.of_nat
                 (named c (cmdsOf (if hist then evs else sinceTick evs))))).
Proof.
  intros Hstart H Hrun.
  by destruct (run_counts _ _ _ _ _ _ _ _ _ c Hstart H Hrun) as (_ & _ & _ & A).
Qed.

Lemma command_counter_counts_witness :
  cmdCounter (metrics (Sample.ran Sample.startReplay
      [(Sample.probe, EvCmd Sample.direct); (Sample.probe, EvTick);
       (Sample.probe, EvCmd Sample.viaRelay)]).1) !! "user-sync"
  = Some 2.
Proof.
  set (evs := [(Sample.probe, EvCmd Sample.direct); (Sample.probe, EvTick);
               (Sample.probe, EvCmd Sample.viaRelay)]).
  assert (H0 : ProcessEvents (NewP4DMetricsLogParser Sample.cfg true) true
               = Some Sample.startReplay) by (by vm_compute).
  assert (H1 : run Sample.ToLower Sample.MustCompile Sample.startReplay evs
               = Some ((Sample.ran Sample.startReplay evs).1,
                       (Sample.ran Sample.startReplay evs).2)) by (by vm_compute).
  assert (H2 : running (Sample.ran Sample.startReplay evs).1 = true) by (by vm_compute).
  exact (command_counter_counts _ _ _ _ _ _ _ _ _ "user-sync" H0 H1 H2).
Defined.

(** X15: in historical mode the ticker does nothing: a run with the ticks
    removed ends in the same state with the same outputs. *)
Theorem historical_ignores_ticks ToLower MustCompile (l : Loop) evs :
  historical (metrics l) = true ->
  run ToLower MustCompile l (List.filter (fun pe => negb (isTick pe)) evs)
  = run ToLower MustCompile l evs.
Proof.
  revert l. induction evs as [|[pr ev] rest IH]; intros l Hh; [done|].
  destruct (running l) eqn:Hl.
  - destruct ev; cbn [List.filter isTick snd negb];
      try (cbn [run]; rewrite Hl;
           destruct (iteration _ _ pr l _) as [[l1 out1]|] eqn:Hit; [|done];
           destruct (iteration_mode _ _ _ _ _ _ _ Hit) as (Hmode & _);
           rewrite IH by congruence; done).
    cbn [run iteration]. rewrite Hl, Hh. cbn [negb].
    rewrite IH by done. by destruct (run _ _ l rest) as [[l2 out2]|].
  - rewrite !run_returned by done. reflexivity.
Qed.

Lemma historical_ignores_ticks_witness :
  run Sample.ToLower Sample.MustCompile Sample.startReplay
    [(Sample.probe, EvLine Sample.line1); (Sample.probe, EvLine Sample.line3)]
  = run Sample.ToLower Sample.MustCompile Sample.startReplay
      [(Sample.probe, EvTick); (Sample.probe, EvLine Sample.line1);
       (Sample.probe, EvTick); (Sample.probe, EvLine Sample.line3)].
Proof.
  exact (historical_ignores_ticks Sample.ToLower Sample.MustCompile Sample.startReplay
           [(Sample.probe, EvTick); (Sample.probe, EvLine Sample.line1);
            (Sample.probe, EvTick); (Sample.probe, EvLine Sample.line3)] eq_refl).
Defined.

(** X16: in live mode and while the loop runs, a snapshot is sent per tick
    and for nothing else, and no time is ever sent on the time channel. *)
Theorem live_snapshots_follow_the_ticker ToLower MustCompile (l l' : Loop) evs out :
  historical (metrics l) = false ->
  run ToLower MustCompile l evs = Some (l', out) ->
  running l' = true ->
  outTimes out = []
  /\ length (List.filter isSnapshot out) = length (List.filter isTick evs).
Proof.
  revert l out. induction evs as [|[pr ev] rest IH]; intros l out Hh H Hrun; simpl in H.
  - by injection H as <- <-.
  - destruct (running l) eqn:Hl.
    + destruct (iteration _ _ pr l ev) as [[l1 out1]|] eqn:Hit; [|done].
      destruct (run _ _ l1 rest) as [[l2 out2]|] eqn:Hrest; [|done].
      injection H as <- <-.
      destruct (iteration_mode _ _ _ _ _ _ _ Hit) as (Hmode & _).
      assert (Hl1 : running l1 = true).
      { destruct (running l1) eqn:E; [done|].
        rewrite run_returned in Hrest by done. injection Hrest as <- _. congruence. }
      destruct (iteration_outputs _ _ _ _ _ _ _ Hit) as (_ & _ & _ & _ & Hlive).
      destruct (Hlive Hh Hl1) as (A & B).
      destruct (IH l1 out2 ltac:(congruence) Hrest Hrun) as (C & D).
      unfold outTimes in *. rewrite flat_map_app, A, C. split; [done|].
      change ((pr, ev) :: rest) with ([(pr, ev)] ++ rest).
      rewrite !List.filter_app, !length_app. lia.
    + injection H as <- <-. congruence.
Qed.

Lemma live_snapshots_follow_the_ticker_witness :
  outTimes (Sample.ran Sample.startLive
      [(Sample.probe, EvLine Sample.line1); (Sample.probe, EvTick);
       (Sample.probe, EvLine Sample.line3); (Sample.probe, EvTick)]).2 = []
  /\ length (List.filter isSnapshot (Sample.ran Sample.startLive
      [(Sample.probe, EvLine Sample.line1); (Sample.probe, EvTick);
       (Sample.probe, EvLine Sample.line3); (Sample.probe, EvTick)]).2) = 2%nat.
Proof.
  set (evs := [(Sample.probe, EvLine Sample.line1); (Sample.probe, EvTick);
               (Sample.probe, EvLine Sample.line3); (Sample.probe, EvTick)]).
  assert (H1 : run Sample.ToLower Sample.MustCompile Sample.startLive evs
               = Some ((Sample.ran Sample.startLive evs).1,
                       (Sample.ran Sample.startLive evs).2)) by (by vm_compute).
  assert (H2 : running (Sample.ran Sample.startLive evs).1 = true) by (by vm_compute).
  exact (live_snapshots_follow_the_ticker _ _ Sample.startLive _ _ _
           (eq_refl : historical (metrics Sample.startLive) = false) H1 H2).
Defined.

(** *** Label values and sample lines *)

Lemma allowed_ascii (c : ascii) : GoRegexp.allowed c = true -> GoStrings.byte c < 128.
Proof. destruct c as [[] [] [] [] [] [] [] []]; vm_compute; congruence. Qed.

Lemma allowed_not_space (c : ascii) : GoRegexp.allowed c = true -> c <> " "%char.
Proof. intros H ->. by vm_compute in H. Qed.

Lemma sanitize_allowed_id (s : string) :
  Forall (fun c => GoRegexp.allowed c = true) (list_ascii_of_string s) ->
  GoRegexp.ReplaceAllString s = s.
Proof.
  unfold GoRegexp.ReplaceAllString. induction s as [|c s IH]; intros H; [done|].
  cbn [list_ascii_of_string] in H. apply Forall_cons in H as [Hc Hs].
  cbn [GoRegexp.sanitizeFrom].
  replace (GoStrings.byte c <? 128) with true
    by (symmetry; apply Z.ltb_lt; by apply allowed_ascii).
  by rewrite Hc, IH.
Qed.

Lemma ReplaceAll_absent (c : ascii) (old new s : string) :
  ~ In c (list_ascii_of_string s) ->
  GoStrings.ReplaceAll s (String c old) new = s.
Proof.
  unfold GoStrings.ReplaceAll. induction s as [|b s IH]; intros H; [done|].
  cbn [list_ascii_of_string] in H. rewrite replaceFrom_cons, prefix_cons.
  destruct (Ascii.ascii_dec c b) as [->|_]; [destruct H; by left|].
  rewrite IH; [done|]. intros Hin. apply H. by right.
Qed.

Lemma replaceFrom_length (old s : string) (skip : nat) :
  (String.length (GoStrings.replaceFrom old EmptyString s skip) <= String.length s)%nat.
Proof.
  revert skip. induction s as [|c s IH]; intros skip; [done|].
  cbn [GoStrings.replaceFrom]. destruct skip as [|k].
  - destruct (String.prefix old (String c s)).
    + change (EmptyString +:+ ?x) with x. cbn [String.length].
      specialize (IH (String.length old - 1)%nat). lia.
    + cbn [String.length]. specialize (IH O). lia.
  - cbn [String.length]. specialize (IH k). lia.
Qed.

Lemma sanitizeFrom_length (s : string) (skip : nat) :
  (String.length (GoRegexp.sanitizeFrom s skip) <= String.length s)%nat.
Proof.
  revert skip. induction s as [|c s IH]; intros skip; [done|].
  cbn [GoRegexp.sanitizeFrom]. destruct skip as [|k].
  - destruct (GoStrings.byte c <? 128); cbn [String.length].
    + specialize (IH O). lia.
    + specialize (IH (GoRegexp.runeSize (String c s) - 1)%nat). lia.
  - cbn [String.length]. specialize (IH k). lia.
Qed.

(** X17: the program key is made of bytes of the allow-list only, is never
    longer than the name it is made from, and is the key of itself: a
    program that reports under a name that is already a key is counted
    under that name. *)
Theorem program_key_is_stable (app : string) :
  Forall (fun c => GoRegexp.allowed c = true) (list_ascii_of_string (programKey app))
  /\ (String.length (programKey app) <= String.length app)%nat
  /\ programKey (programKey app) = programKey app.
Proof.
  assert (Hall : Forall (fun c => GoRegexp.allowed c = true)
                   (list_ascii_of_string (programKey app)))
    by apply sanitizeFrom_allowed.
  split; [exact Hall|]. split.
  { unfold programKey, GoRegexp.ReplaceAllString, GoStrings.ReplaceAll.
    etrans; [apply sanitizeFrom_length | apply replaceFrom_length]. }
  unfold programKey at 1. rewrite ReplaceAll_absent.
  - by apply sanitize_allowed_id.
  - intros Hin. rewrite Forall_forall in Hall.
    apply list_elem_of_In, Hall in Hin. by vm_compute in Hin.
Qed.

(** The bytes of a line with every backslash doubled. *)
Lemma ReplaceAll_backslash (s : string) :
  list_ascii_of_string (GoStrings.ReplaceAll s "\" "\\")
  = flat_map (fun c => if Ascii.eqb c "\"%char then ["\"%char; "\"%char] else [c])
             (list_ascii_of_string s).
Proof.
  unfold GoStrings.ReplaceAll. induction s as [|c s IH]; [done|].
  rewrite replaceFrom_cons, prefix_cons. cbn [list_ascii_of_string flat_map].
  destruct (Ascii.ascii_dec "\"%char c) as [<-|Hne].
  - destruct s; cbn [String.prefix String.length Nat.sub];
      change ("\\" +:+ ?x) with (String "\"%char (String "\"%char x));
      cbn [list_ascii_of_string]; rewrite IH; reflexivity.
  - cbn [list_ascii_of_string]. rewrite IH.
    destruct (Ascii.eqb c "\"%char) eqn:E; [|done].
    apply Ascii.eqb_eq in E. congruence.
Qed.

(** X18: node_exporter requires doubling of backslashes: the text of a
    sample line is the formatted line with every backslash written twice
    and every other byte as it is, in both output formats. *)
Theorem sample_line_doubles_backslashes (p4m : P4DMetrics) (mname : string)
    (labels : list labelStruct) (metricVal : string) :
  list_ascii_of_string (printMetric p4m mname labels metricVal)
  = flat_map (fun c => if Ascii.eqb c "\"%char then ["\"%char; "\"%char] else [c])
             (list_ascii_of_string (formatMetric p4m mname labels metricVal)).
Proof. apply ReplaceAll_backslash. Qed.

(** X19: a label whose value is empty is left out of the formatted labels,
    wherever it stands in the list. *)
Theorem blank_labels_are_left_out (p4m : P4DMetrics) (mname : string)
    (before blanks after : list labelStruct) :
  Forall (fun l => value l = EmptyString) blanks ->
  formatLabels p4m mname (before ++ blanks ++ after)
  = formatLabels p4m mname (before ++ after).
Proof.
  intros Hblank. unfold formatLabels. rewrite !List.filter_app.
  assert (List.filter (fun l => negb (String.eqb (value l) EmptyString)) blanks = [])
    as ->; [|done].
  induction Hblank as [|l blanks Hl _ IH]; [done|].
  cbn [List.filter]. by rewrite Hl, IH.
Qed.

Lemma blank_labels_are_left_out_witness :
  formatLabels Sample.replay "p4_cmd_counter"
    ([ {| name := "serverid"; value := "master.1" |} ]
     ++ [ {| name := "sdpinst"; value := EmptyString |} ]
     ++ [ {| name := "cmd"; value := "user-sync" |} ])
  = formatLabels Sample.replay "p4_cmd_counter"
      ([ {| name := "serverid"; value := "master.1" |} ]
       ++ [ {| name := "cmd"; value := "user-sync" |} ]).
Proof.
  apply (blank_labels_are_left_out Sample.replay "p4_cmd_counter"
           [ {| name := "serverid"; value := "master.1" |} ]
           [ {| name := "sdpinst"; value := EmptyString |} ]
           [ {| name := "cmd"; value := "user-sync" |} ]).
  repeat constructor.
Defined.

(** *** The snapshot of a reachable state *)

Lemma In_mapFamily_labels {V : Type} (p4m : P4DMetrics) (mname help : string)
    (v : Verb) (label : string) (inj : V -> Value) (m : gmap string V)
    (ls : list labelStruct) :
  In ls (map fst (famSamples (mapFamily p4m mname help v label inj m)))
  <-> exists k, k ∈ dom m
                /\ ls = fixedLabels p4m ++ [ {| name := label; value := k |} ].
Proof.
  cbn [famSamples mapFamily]. rewrite map_map. cbn [fst].
  rewrite in_map_iff. split.
  - intros ([k x] & <- & Hin). exists k. split; [|done].
    apply list_elem_of_In, elem_of_map_to_list in Hin. by apply elem_of_dom.
  - intros (k & Hk & ->). apply elem_of_dom in Hk as [x Hx].
    exists (k, x). split; [done|]. by apply list_elem_of_In, elem_of_map_to_list.
Qed.

Lemma In_detailFamily_labels {V : Type} (p4m : P4DMetrics) (mname help : string)
    (v : Verb) (inj : V -> Value) (m : gmap string (gmap string V))
    (ls : list labelStruct) :
  In ls (map fst (famSamples (detailFamily p4m mname help v inj m)))
  <-> exists user inner c, m !! user = Some inner /\ c ∈ dom inner
        /\ ls = fixedLabels p4m ++ [ {| name := "user"; value := user |};
                                      {| name := "cmd"; value := c |} ].
Proof.
  cbn [famSamples detailFamily]. rewrite in_map_iff. split.
  - intros ([ls' x] & <- & Hin). apply in_flat_map in Hin as ([user inner] & Hu & Hin).
    apply in_map_iff in Hin as ([c y] & Heq & Hc). injection Heq as <- _.
    exists user, inner, c.
    apply list_elem_of_In, elem_of_map_to_list in Hu.
    apply list_elem_of_In, elem_of_map_to_list in Hc.
    split; [done|]. split; [|done]. by apply elem_of_dom.
  - intros (user & inner & c & Hu & Hc & ->). apply elem_of_dom in Hc as [y Hy].
    eexists (_, inj y). split; [reflexivity|].
    apply in_flat_map. exists (user, inner).
    split; [by apply list_elem_of_In, elem_of_map_to_list|].
    apply in_map_iff. exists (c, y).
    split; [done|]. by apply list_elem_of_In, elem_of_map_to_list.
Qed.

Lemma flat_map_if {A B : Type} (g : A -> list B) (c : bool) (x y : list A) :
  flat_map g (if c then x else y) = if c then flat_map g x else flat_map g y.
Proof. by destruct c. Qed.

Lemma detail_labels_agree {V W : Type} (m : gmap string (gmap string V))
    (m' : gmap string (gmap string W)) (P : string -> string -> Prop) :
  (forall user, dom <$> (m' !! user) = dom <$> (m !! user)) ->
  (exists user inner c, m !! user = Some inner /\ c ∈ dom inner /\ P user c)
  <-> (exists user inner c, m' !! user = Some inner /\ c ∈ dom inner /\ P user c).
Proof.
  intros Hdom. split; intros (user & inner & c & Hu & Hc & HP);
    specialize (Hdom user); rewrite Hu in Hdom.
  - destruct (m' !! user) as [inner'|] eqn:E; [|done]. injection Hdom as Hdom.
    exists user, inner', c. by rewrite Hdom.
  - destruct (m !! user) as [inner'|] eqn:E; [|done]. injection Hdom as Hdom.
    exists user, inner', c. by rewrite <- Hdom.
Qed.

(** X20: in the snapshot of a reachable state, the metrics kept side by
    side have sample lines for the same labels: every command, user,
    address, replica, program and (user, command) pair with a counter line
    has a line of each total beside it and the other way round, and the
    four lock totals have lines for the same tables. *)
Theorem paired_metrics_have_the_same_lines ToLower MustCompile (l : Loop)
    (a b : string) (pr : Probe) (ls : list labelStruct) :
  reachable ToLower MustCompile l ->
  In (a, b) pairedFamilies ->
  In ls (sampleLabels a pr (metrics l)) <-> In ls (sampleLabels b pr (metrics l)).
Proof.
  intros Hreach Hin.
  destruct (reachable_invariants _ _ _ Hreach) as (Hpaired & _ & _).
  destruct Hpaired as (P1 & P2 & P3 & _ & P5 & P6 & P7 & P8 & P9 & _ & _).
  destruct (reachable_lockKeysAgree _ _ _ Hreach) as (L1 & L2 & L3).
  set (p4m := metrics l) in *.
  assert (Hdetail : forall Q : string -> string -> Prop,
            (exists user inner c, cmdByUserDetailCounter p4m !! user = Some inner
                                  /\ c ∈ dom inner /\ Q user c)
            <-> (exists user inner c, cmdByUserDetailCumulative p4m !! user = Some inner
                                      /\ c ∈ dom inner /\ Q user c))
    by (intros Q; by apply detail_labels_agree).
  unfold sampleLabels, metricFamilies. rewrite !flat_map_app, !flat_map_if.
  cbn [pairedFamilies In] in Hin.
  repeat (destruct Hin as [Hin | Hin]; [injection Hin as <- <- | ]); try done;
    cbn [flat_map famName scalarFamily mapFamily detailFamily
         String.eqb Ascii.eqb Bool.eqb andb app];
    destruct (OutputCmdsByUser (config p4m)), (OutputCmdsByIP (config p4m)),
      (negb (String.eqb (OutputCmdsByUserRegex (config p4m)) EmptyString)),
      (0 <? Z.of_nat (size (totalTriggerLapse p4m)));
    cbn [app]; rewrite ?app_nil_r; try done;
    rewrite ?In_mapFamily_labels, ?In_detailFamily_labels;
    rewrite ?P1, ?P2, ?P3, ?P5, ?P6, ?P7, ?P8, ?L1, ?L2, ?L3; try done;
    apply (Hdetail (fun user c => ls = fixedLabels p4m ++ [ {| name := "user"; value := user |};
                                                          {| name := "cmd"; value := c |} ])).
Qed.

Lemma paired_metrics_have_the_same_lines_witness :
  In [ {| name := "serverid"; value := "master.1" |};
       {| name := "sdpinst"; value := "1" |};
       {| name := "user"; value := "bruno" |};
       {| name := "cmd"; value := "user-sync" |} ]
     (sampleLabels "p4_cmd_user_detail_counter" Sample.probe (metrics Scenario.busyDetailed))
  <-> In [ {| name := "serverid"; value := "master.1" |};
           {| name := "sdpinst"; value := "1" |};
           {| name := "user"; value := "bruno" |};
           {| name := "cmd"; value := "user-sync" |} ]
        (sampleLabels "p4_cmd_user_detail_cumulative_seconds" Sample.probe
           (metrics Scenario.busyDetailed)).
Proof.
  apply (paired_metrics_have_the_same_lines Sample.ToLower Sample.MustCompile
           Scenario.busyDetailed
           "p4_cmd_user_detail_counter" "p4_cmd_user_detail_cumulative_seconds").
  - exact scenario_busyDetailed_reachable.
  - cbn [pairedFamilies In]. do 5 right. by left.
Defined.

(** *** The queue of lines to the parser *)

Lemma closed_lines_stay_closed ToLower MustCompile (l l' : Loop) evs out :
  fpLinesChan l = false ->
  run ToLower MustCompile l evs = Some (l', out) ->
  outLines out = [].
Proof.
  revert l out. induction evs as [|[pr ev] rest IH]; intros l out Hfp H; simpl in H.
  - by injection H as <- <-.
  - destruct (running l); [|by injection H as <- <-].
    destruct (iteration _ _ pr l ev) as [[l1 out1]|] eqn:Hit; [|done].
    destruct (run _ _ l1 rest) as [[l2 out2]|] eqn:Hrest; [|done].
    injection H as <- <-.
    destruct (iteration_outputs _ _ _ _ _ _ _ Hit) as (A & _).
    destruct (iteration_loop _ _ _ _ _ _ _ Hit) as (_ & _ & Hfp1 & _).
    assert (fpLinesChan l1 = false) as Hfp1'
      by (destruct (fpLinesChan l1); [rewrite Hfp1 in Hfp|]; done).
    unfold outLines in *. rewrite flat_map_app, A, (IH _ _ Hfp1' Hrest), app_nil_r.
    destruct ev; try done. simpl in Hit. by rewrite Hfp in Hit.
Qed.

(** X21: nothing is sent on the queue of lines to the parser after it has
    been closed: in the outputs of a run, no line follows the close. *)
Theorem no_line_follows_the_close ToLower MustCompile (l l' : Loop) evs out
    (before after : list Output) :
  run ToLower MustCompile l evs = Some (l', out) ->
  out = before ++ CloseLines :: after ->
  outLines after = [].
Proof.
  revert l out before. induction evs as [|[pr ev] rest IH]; intros l out before H Hout;
    simpl in H.
  - injection H as <- <-. by destruct before.
  - destruct (running l); [|injection H as <- <-; by destruct before].
    destruct (iteration _ _ pr l ev) as [[l1 out1]|] eqn:Hit; [|done].
    destruct (run _ _ l1 rest) as [[l2 out2]|] eqn:Hrest; [|done].
    injection H as <- <-.
    apply app_eq_app in Hout as [mid [[H1 H2] | [H1 H2]]].
    + destruct mid as [|o mid].
      * simpl in H2. by apply (IH l1 out2 [] Hrest).
      * injection H2 as <- ->.
        destruct (iteration_outputs _ _ _ _ _ _ _ Hit) as (A & _).
        destruct (iteration_loop _ _ _ _ _ _ _ Hit) as (_ & _ & _ & _ & Hcount).
        assert (Hfp1 : fpLinesChan l1 = false).
        { destruct (fpLinesChan l1); [|done]. rewrite andb_false_r in Hcount.
          rewrite H1, List.filter_app, length_app in Hcount. simpl in Hcount. lia. }
        pose proof (closed_lines_stay_closed _ _ _ _ _ _ Hfp1 Hrest) as Hclosed.
        unfold outLines in *. rewrite flat_map_app, Hclosed, app_nil_r.
        destruct ev; simpl in Hit.
        -- injection Hit as _ <-. unfold deferred in H1.
           destruct (needCmdChan l), before as [|? [|? [|? ?]]]; done.
        -- destruct (negb _); injection Hit as _ <-; by destruct before as [|? [|? ?]].
        -- destruct (publishEvent _ _ _ _); [|done]. simpl in Hit. injection Hit as _ <-.
           destruct (needCmdChan l), before as [|? [|? ?]]; done.
        -- injection Hit as _ <-. unfold deferred in H1.
           destruct (needCmdChan l), before as [|? [|? [|? [|? ?]]]]; done.
        -- destruct (fpLinesChan l) eqn:Hfp; [|done]. injection Hit as <- _.
           simpl in Hfp1. congruence.
        -- destruct (fpLinesChan l); injection Hit as _ <-.
           ++ destruct before as [|? [|? ?]]; [|done..]. by injection H1 as <-.
           ++ by destruct before.
    + by apply (IH l1 out2 mid Hrest).
Qed.

Lemma no_line_follows_the_close_witness :
  outLines [CloseMetrics] = [].
Proof.
  apply (no_line_follows_the_close Sample.ToLower Sample.MustCompile Sample.startLive
           (Sample.ran Sample.startLive
              [(Sample.probe, EvLine Sample.line1); (Sample.probe, EvLinesClosed);
               (Sample.probe, EvDone)]).1
           [(Sample.probe, EvLine Sample.line1); (Sample.probe, EvLinesClosed);
            (Sample.probe, EvDone)]
           (Sample.ran Sample.startLive
              [(Sample.probe, EvLine Sample.line1); (Sample.probe, EvLinesClosed);
               (Sample.probe, EvDone)]).2
           [OutLine Sample.line1]).
  - by vm_compute.
  - by vm_compute.
Defined.

(** *** The user and the address of a command *)

(** X22: on a server that is not case sensitive, user names that differ
    only by case are one user: a command is recorded the same under either
    spelling. *)
Theorem user_names_fold_by_case ToLower MustCompile (p4m : P4DMetrics)
    (cmd : Command) (user : string) :
  CaseSensitiveServer (config p4m) = false ->
  ToLower user = ToLower (User cmd) ->
  publishEvent ToLower MustCompile p4m (issuedBy user cmd)
  = publishEvent ToLower MustCompile p4m cmd.
Proof.
  intros Hcase Hlower. unfold publishEvent. rewrite Hcase.
  cbn [issuedBy User IP App CompletedLapse Cmd]. rewrite Hlower.
  reflexivity.
Qed.

Lemma user_names_fold_by_case_witness :
  publishEvent Sample.ToLower Sample.MustCompile Sample.detailed
    (issuedBy "BRUNO" Sample.viaRelay)
  = publishEvent Sample.ToLower Sample.MustCompile Sample.detailed Sample.viaRelay.
Proof.
  apply user_names_fold_by_case; reflexivity.
Defined.

(** X23: the split of the address loses nothing: with a replica, the
    address is the replica, a slash and the rest, and the replica has no
    slash; without one, the address is kept whole. *)
Theorem address_round_trip (addr : string) :
  addr = (if String.eqb (splitIP addr).2 EmptyString then (splitIP addr).1
          else (splitIP addr).2 +:+ "/" +:+ (splitIP addr).1)
  /\ slashFree (splitIP addr).2.
Proof.
  destruct (splitIP addr) as [ip replica] eqn:Hsplit. cbn [fst snd].
  destruct (String.eqb replica EmptyString) eqn:Hr.
  - apply String.eqb_eq in Hr. subst replica. split; [|by intros []].
    unfold splitIP, GoStrings.Index in Hsplit.
    destruct (0 <? GoStrings.indexFrom "/" addr 0) eqn:Hpos; [|congruence].
    apply Z.ltb_lt in Hpos.
    destruct (indexFrom_found addr 0 _ eq_refl) as (p & t & -> & Hfree & Hj); [lia | lia |].
    rewrite Hj, Z.add_0_l in Hsplit. unfold GoStrings.len in Hsplit.
    rewrite Nat2Z.id in Hsplit. rewrite sliceFrom_suffix, slice_prefix in Hsplit.
    injection Hsplit as _ ->. rewrite Hj in Hpos. by vm_compute in Hpos.
  - apply String.eqb_neq in Hr. by apply splitIP_replica.
Qed.
